(** * TransferLens: the temporal data plane and the ML pipeline, in Rocq

    A shallow embedding of the parts of the TransferLens backend that its
    specification makes promises about:

    - [worker/time_guards.py]: the validators and the strict latest-signal read;
    - [api/app/routers/players.py]: the player signal-history reader;
    - [worker/jobs/signals.py]: the attention-velocity derivation;
    - [api/app/services.py]: the what-changed detector;
    - [worker/jobs/features.py], [worker/jobs/candidates.py]: candidate
      selection and the bulk feature build;
    - [worker/jobs/train.py], [worker/jobs/predict.py]: model registration and
      driver attributions.

    Conventions.  A [datetime] is the number of microseconds since the epoch
    ([Z]); a UUID is its 128-bit integer ([N]); a relational table is the list
    of its rows in storage order; a [NUMERIC(20,6)] column is the integer
    number of millionths; a Python [float] is a binary64 [PrimFloat.float].
    A SQL [LIMIT] without a total [ORDER BY] keeps the first rows in storage
    order, and [ORDER BY RANDOM()] is an ordering handed in by the caller. *)

From stdpp Require Import base option list gmap strings.
From Stdlib Require Import ZArith NArith QArith Lia List Bool String Ascii.
From Stdlib Require Import DecimalString.
From Stdlib Require Import Floats Uint63 Sorting.Permutation Sorting.Sorted.

Set Warnings "-inexact-float".

Local Open Scope string_scope.
Local Open Scope list_scope.
Local Open Scope Z_scope.

(** ** Basic vocabulary *)

Definition datetime := Z.
Definition UUID := N.

(** A [NUMERIC(20,6)] value, in millionths. *)
Definition Numeric := Z.

(** The integer [z] as a binary64 number ([float(z)] in Python): the nearest
    float, ties to even.  Python raises [OverflowError] from [2^1024] on,
    where this is an infinity; no integer of the program comes near. *)
Definition float_of_Z (z : Z) : float :=
  SF2Prim (SpecFloat.binary_normalize 53 1024 z 0 false).

(** [str(z)] for an [int]: its decimal digits, with a minus sign when
    negative. *)
Definition str_of_int (z : Z) : string := NilZero.string_of_int (Z.to_int z).

(** [int(x)] for a finite [x]: truncation toward zero.  Python raises on an
    infinity or a NaN; the callers below only pass finite numbers, and the
    model answers 0 there. *)
Definition int_of_float (x : float) : Z :=
  match Prim2SF x with
  | S754_finite s m e =>
      let a := if 0 <=? e then Z.shiftl (Zpos m) e
               else Z.shiftr (Zpos m) (- e) in
      if s then - a else a
  | _ => 0
  end.

(** [min(a, b)] on floats: Python keeps [a] unless [b < a]. *)
Definition py_min (a b : float) : float :=
  if PrimFloat.ltb b a then b else a.

(** The exact rational value of a finite float (0 for the others). *)
Definition Q_of_float (x : float) : Q :=
  match Prim2SF x with
  | S754_finite s m e =>
      let q := if 0 <=? e then inject_Z (Z.shiftl (Zpos m) e)
               else Qmake (Zpos m) (Pos.shiftl 1 (Z.to_N (- e))) in
      if s then Qopp q else q
  | _ => 0%Q
  end.

(** [numpy.rint] on a finite float: the nearest integer, ties to even. *)
Definition rint (x : float) : float :=
  match Prim2SF x with
  | S754_finite s m e =>
      if 0 <=? e then x
      else
        let k := - e in
        let q := Z.shiftr (Zpos m) k in
        let r := Zpos m - Z.shiftl q k in
        let half := Z.shiftl 1 (k - 1) in
        let n := if r <? half then q
                 else if half <? r then q + 1
                 else if Z.even q then q else q + 1 in
        if s then PrimFloat.opp (float_of_Z n) else float_of_Z n
  | _ => x
  end.

(** [round(x, 4)] on a [numpy.float64]: scale, [rint], scale back. *)
Definition np_round4 (x : float) : float :=
  PrimFloat.div (rint (PrimFloat.mul x 10000)) 10000.

(** A value of a feature dictionary: [None], an [int] or a [float]. *)
Inductive PyValue :=
| PyNone
| PyInt (z : Z)
| PyFloat (f : float).

(** [v or 0], as a float: what [numpy.array] holds for the value. *)
Definition value_or_zero (v : PyValue) : float :=
  match v with
  | PyNone => 0%float
  | PyInt z => float_of_Z z
  | PyFloat f => if PrimFloat.eqb f 0 then 0%float else f
  end.

(** [d.get(k)] on a dictionary kept as its items in insertion order. *)
Fixpoint dict_get {V : Type} (d : list (string * V)) (k : string) : option V :=
  match d with
  | [] => None
  | (k', v) :: d' => if String.eqb k' k then Some v else dict_get d' k
  end.

(** The keys of a dictionary after [d[k] = v], from the keys before. *)
Definition keys_set (keys : list string) (k : string) : list string :=
  if existsb (fun k' => String.eqb k' k) keys then keys else keys ++ [k].

(** [d[k] = v] on a dictionary kept as its items in insertion order. *)
Fixpoint dict_set {V : Type} (d : list (string * V)) (k : string) (v : V)
  : list (string * V) :=
  match d with
  | [] => [(k, v)]
  | (k', v') :: d' =>
      if String.eqb k' k then (k', v) :: d' else (k', v') :: dict_set d' k v
  end.

(** SQL [col != :param]: never true against [NULL]. *)
Definition sql_ne (col param : option UUID) : bool :=
  match col, param with
  | Some a, Some b => negb (N.eqb a b)
  | _, _ => false
  end.

(** [SELECT DISTINCT]: the values in order of first appearance. *)
Fixpoint distinct_from (seen l : list UUID) : list UUID :=
  match l with
  | [] => []
  | x :: r =>
      if existsb (N.eqb x) seen then distinct_from seen r
      else x :: distinct_from (x :: seen) r
  end.

Definition distinct (l : list UUID) : list UUID := distinct_from [] l.

(** A [date], in days since the epoch; [dt.date()] and
    [datetime.combine(d, datetime.min.time())]. *)
Definition date := Z.
Definition date_of (dt : Z) : date := dt / 86400000000.
Definition midnight (d : date) : Z := d * 86400000000.

(** A [timedelta], in microseconds. *)
Definition timedelta := Z.

(** [td / 2]: Python rounds the quotient to the nearest microsecond, ties to
    even. *)
Definition timedelta_half (td : timedelta) : timedelta :=
  let q := td / 2 in
  if Z.even td then q else if Z.even q then q else q + 1.

(** [float(d)] for a [Decimal] read from a [NUMERIC(20,6)] column: the float
    nearest to the decimal number, ties to even.  The quotient of the
    millionths by [10^6] is taken with 80 fractional bits, which leaves more
    than 60 significant bits, and a sticky bit records an inexact quotient,
    so that the one rounding to 53 bits is that of the exact value. *)
Definition float_of_Numeric (d : Numeric) : float :=
  let n := Z.abs d * 2 ^ 80 in
  let q := n / 1000000 in
  let sticky := if n mod 1000000 =? 0 then 0 else 1 in
  let m := 2 * q + sticky in
  SF2Prim
    (SpecFloat.binary_normalize 53 1024 (if d <? 0 then - m else m) (-81)
       false).

(** SQL equality of a column with a bound parameter: [NULL] equals nothing. *)
Definition sql_eq (col param : option UUID) : bool :=
  match col, param with
  | Some a, Some b => N.eqb a b
  | _, _ => false
  end.

(** ** The signals store ([signal_events]) as the worker's raw SQL sees it *)

Record SignalRow := {
  sr_entity_type : string;
  sr_player_id : option UUID;
  sr_club_id : option UUID;
  sr_signal_type : string;
  sr_value_num : option Numeric;
  sr_value_text : option string;
  sr_source : string;
  sr_confidence : Z;  (* NUMERIC(3,2), in hundredths *)
  sr_observed_at : datetime;
  sr_effective_from : datetime;
  sr_effective_to : option datetime;
}.

Definition SignalStore := list SignalRow.

Module TimeGuards.

(** *** Errors of [time_guards.py] *)

Inductive GuardError :=
| TimeTravelViolationError
| DataLeakageError.

(** [validate_signal_time_travel]: [inl e] is [raise e], [inr tt] is the
    normal return. *)
Definition validate_signal_time_travel
    (observed_at effective_from as_of : datetime) : GuardError + unit :=
  if as_of <? observed_at then inl TimeTravelViolationError
  else if as_of <? effective_from then inl TimeTravelViolationError
  else inr tt.

(** [validate_training_label_time_travel]: [horizon_days] and [player_id]
    only feed the error message. *)
Definition validate_training_label_time_travel
    (transfer_date feature_date : datetime) (horizon_days : Z)
    (player_id : string) : GuardError + unit :=
  if transfer_date <=? feature_date then inl DataLeakageError
  else inr tt.

(** *** The strict read *)

(** The three time predicates shared by every branch of
    [get_signal_value_strict]. *)
Definition time_ok (as_of : datetime) (r : SignalRow) : bool :=
  (sr_observed_at r <=? as_of)
  && (sr_effective_from r <=? as_of)
  && match sr_effective_to r with
     | None => true
     | Some t => as_of <? t
     end.

(** The [WHERE] clause of each branch; [None] is the final [else: return None]. *)
Definition where_clause (entity_type : string) (entity_id : option UUID)
    (signal_type : string) (as_of : datetime)
    (player_id club_id : option UUID) : option (SignalRow -> bool) :=
  if String.eqb entity_type "player" then
    Some (fun r => sql_eq (sr_player_id r) entity_id
                   && String.eqb (sr_signal_type r) signal_type
                   && time_ok as_of r)
  else if String.eqb entity_type "club" then
    Some (fun r => sql_eq (sr_club_id r) entity_id
                   && String.eqb (sr_signal_type r) signal_type
                   && time_ok as_of r)
  else if String.eqb entity_type "pair" then
    Some (fun r => sql_eq (sr_player_id r) player_id
                   && sql_eq (sr_club_id r) club_id
                   && String.eqb (sr_signal_type r) signal_type
                   && time_ok as_of r)
  else None.

(** [ORDER BY effective_from DESC, observed_at DESC]: [r] sorts strictly
    before [best]. *)
Definition sorts_before (r best : SignalRow) : bool :=
  (sr_effective_from best <? sr_effective_from r)
  || ((sr_effective_from r =? sr_effective_from best)
      && (sr_observed_at best <? sr_observed_at r)).

(** [... ORDER BY effective_from DESC, observed_at DESC LIMIT 1] followed by
    [.first()]: the first row of the ordering, [None] on an empty result. *)
Fixpoint first_ordered (rows : list SignalRow) : option SignalRow :=
  match rows with
  | [] => None
  | r :: rest =>
      match first_ordered rest with
      | Some b => if sorts_before b r then Some b else Some r
      | None => Some r
      end
  end.

Definition select_latest (store : SignalStore) (p : SignalRow -> bool)
  : option SignalRow :=
  first_ordered (List.filter p store).

(** [get_signal_value_strict].  The [validate] flag is never read by the
    source. *)
Definition get_signal_value_strict (store : SignalStore)
    (entity_type : string) (entity_id : option UUID) (signal_type : string)
    (as_of : datetime) (player_id club_id : option UUID) : option float :=
  match where_clause entity_type entity_id signal_type as_of player_id club_id with
  | None => None
  | Some p =>
      match select_latest store p with
      | Some result =>
          match sr_value_num result with
          | Some v => Some (float_of_Numeric v)
          | None => None
          end
      | None => None
      end
  end.

(** *** The other validators *)

(** [validate_user_event_time_travel]: [event_type] and [entity_id] only feed
    the error message. *)
Definition validate_user_event_time_travel (occurred_at as_of : datetime)
  : GuardError + unit :=
  if as_of <? occurred_at then inl TimeTravelViolationError else inr tt.

(** The entries [validate_feature_vector_time_travel] lists in its error
    message: the features whose timestamp is set and after [as_of]. *)
Definition violations (as_of : datetime)
    (signal_timestamps : list (string * option datetime))
  : list (string * datetime) :=
  flat_map (fun '(feature_name, observed_at) =>
              match observed_at with
              | Some t => if as_of <? t then [(feature_name, t)] else []
              | None => []
              end)
    signal_timestamps.

(** [validate_feature_vector_time_travel]; [signal_timestamps] is the
    dictionary as its items, and the [features] argument is never read.
    [inl] is the [TimeTravelViolationError], with the entries it lists. *)
Definition validate_feature_vector_time_travel (as_of : datetime)
    (signal_timestamps : list (string * option datetime))
  : list (string * datetime) + unit :=
  match violations as_of signal_timestamps with
  | [] => inr tt
  | v => inl v
  end.

End TimeGuards.

(** ** Sorting as Python and SQL do it

    [list.sort] and [sorted] are stable; an [ORDER BY] is modelled as a stable
    sort of the rows in storage order.  [before y x] says that [y] goes
    strictly before [x]. *)

Section StableSort.
Context {A : Type} (before : A -> A -> bool).

Fixpoint insert_sorted (x : A) (l : list A) : list A :=
  match l with
  | [] => [x]
  | y :: l' => if before y x then y :: insert_sorted x l' else x :: y :: l'
  end.

Fixpoint stable_sort (l : list A) : list A :=
  match l with
  | [] => []
  | x :: l' => insert_sorted x (stable_sort l')
  end.

End StableSort.

(** ** Signal derivation ([worker/jobs/signals.py]) *)

Module Signals.

(** The columns of [user_events] the derivation reads. *)
Record UserEvent := {
  ue_session_id : string;
  ue_event_type : string;
  ue_player_id : option UUID;
  ue_club_id : option UUID;
  ue_occurred_at : datetime;
}.

(** [settings.derived_signal_confidence], in hundredths (0.6 by default). *)
Record Settings := {
  derived_signal_confidence : Z;
}.

Definition default_settings : Settings :=
  {| derived_signal_confidence := 60 |}.

(** A row of the velocity query's result. *)
Record ViewCounts := {
  vc_player_id : UUID;
  vc_recent_views : Z;
  vc_older_views : Z;
  vc_total_views : Z;
}.

(** An entry of the list [compute_attention_velocity] returns. *)
Record Velocity := {
  v_player_id : UUID;
  velocity : Z;
  recent_views : Z;
  older_views : Z;
  total_views : Z;
}.

Definition count {A : Type} (f : A -> bool) (l : list A) : Z :=
  Z.of_nat (List.length (List.filter f l)).

(** The [WHERE] clause of the velocity query. *)
Definition attention_event (window_start as_of : datetime) (e : UserEvent)
  : bool :=
  match ue_player_id e with Some _ => true | None => false end
  && (String.eqb (ue_event_type e) "player_view"
      || String.eqb (ue_event_type e) "watchlist_add"
      || String.eqb (ue_event_type e) "share")
  && (window_start <=? ue_occurred_at e)
  && (ue_occurred_at e <=? as_of).

Definition of_player (p : UUID) (e : UserEvent) : bool :=
  sql_eq (ue_player_id e) (Some p).

(** The keys of [GROUP BY player_id]. *)
Definition group_keys (rows : list UserEvent) : list UUID :=
  nodup N.eq_dec (flat_map (fun e => match ue_player_id e with
                                     | Some p => [p]
                                     | None => []
                                     end) rows).

(** The velocity query: one row per player with at least three events in
    the window. *)
Definition view_counts (events : list UserEvent)
    (window_start midpoint as_of : datetime) : list ViewCounts :=
  let rows := List.filter (attention_event window_start as_of) events in
  List.filter (fun r => 3 <=? vc_total_views r)
    (map (fun p =>
            let mine := List.filter (of_player p) rows in
            {| vc_player_id := p;
               vc_recent_views :=
                 count (fun e => midpoint <=? ue_occurred_at e) mine;
               vc_older_views :=
                 count (fun e => ue_occurred_at e <? midpoint) mine;
               vc_total_views := Z.of_nat (List.length mine) |})
       (group_keys rows)).

(** [x or d] on an integer. *)
Definition int_or (x d : Z) : Z := if x =? 0 then d else x.

(** [int(min(10.0, (recent + 1) / (older + 1)) * 100)]. *)
Definition normalized_velocity (recent older : Z) : Z :=
  int_of_float
    (PrimFloat.mul
       (py_min 10 (PrimFloat.div (float_of_Z (recent + 1))
                     (float_of_Z (older + 1))))
       100).

Definition compute_attention_velocity (events : list UserEvent)
    (window : timedelta) (as_of : datetime) : list Velocity :=
  let window_start := as_of - window in
  let midpoint := as_of - timedelta_half window in
  map (fun row =>
         let recent := int_or (vc_recent_views row) 0 in
         let older := int_or (vc_older_views row) 1 in
         {| v_player_id := vc_player_id row;
            velocity := normalized_velocity recent older;
            recent_views := recent;
            older_views := older;
            total_views := vc_total_views row |})
    (view_counts events window_start midpoint as_of).

(** A row of the co-occurrence query and of the list built from it. *)
Record Cooccurrence := {
  co_player_id : UUID;
  co_club_id : UUID;
  session_count : Z;
  score : Z;
}.

Definition pair_eq_dec (a b : UUID * UUID) : {a = b} + {a <> b}.
Proof. decide equality; apply N.eq_dec. Defined.

Definition session_eq_dec (a b : string * UUID) : {a = b} + {a <> b}.
Proof. decide equality; [apply N.eq_dec|apply string_dec]. Defined.

(** [compute_destination_cooccurrence]: sessions that hold a player view (or
    watchlist add) and a club view inside the window, counted per
    (player, club) and kept from two sessions on. *)
Definition compute_destination_cooccurrence (events : list UserEvent)
    (window : timedelta) (as_of : datetime) : list Cooccurrence :=
  let window_start := as_of - window in
  let in_window e :=
    (window_start <=? ue_occurred_at e) && (ue_occurred_at e <=? as_of) in
  let player_sessions :=
    nodup session_eq_dec
      (flat_map (fun e =>
                   match ue_player_id e with
                   | Some p =>
                       if (String.eqb (ue_event_type e) "player_view"
                           || String.eqb (ue_event_type e) "watchlist_add")
                          && in_window e
                       then [(ue_session_id e, p)] else []
                   | None => []
                   end) events) in
  let club_sessions :=
    nodup session_eq_dec
      (flat_map (fun e =>
                   match ue_club_id e with
                   | Some c =>
                       if String.eqb (ue_event_type e) "club_view"
                          && in_window e
                       then [(ue_session_id e, c)] else []
                   | None => []
                   end) events) in
  let joined :=
    flat_map (fun ps =>
                flat_map (fun cs =>
                            if String.eqb (fst ps) (fst cs)
                            then [(fst ps, (snd ps, snd cs))] else [])
                  club_sessions) player_sessions in
  let keys := nodup pair_eq_dec (map snd joined) in
  flat_map (fun k =>
              let n :=
                Z.of_nat
                  (List.length
                     (nodup string_dec
                        (map fst
                           (List.filter
                              (fun j => if pair_eq_dec (snd j) k
                                        then true else false) joined)))) in
              if 2 <=? n then
                [ {| co_player_id := fst k; co_club_id := snd k;
                     session_count := n; score := Z.min 100 (n * 10) |} ]
              else [])
    keys.

(** The row [write_signal_event] inserts; [value_num] is an integer here. *)
Definition write_signal_event (settings : Settings) (store : SignalStore)
    (entity_type : string) (player_id club_id : option UUID)
    (signal_type : string) (value_num : Z)
    (observed_at effective_from : datetime) : SignalStore :=
  store ++
  [ {| sr_entity_type := entity_type;
       sr_player_id := player_id;
       sr_club_id := club_id;
       sr_signal_type := signal_type;
       sr_value_num := Some (value_num * 1000000);
       sr_value_text := None;
       sr_source := "tl_user_derived";
       sr_confidence := derived_signal_confidence settings;
       sr_observed_at := observed_at;
       sr_effective_from := effective_from;
       sr_effective_to := None |} ].

(** The statistics [run_signal_derivation] returns. *)
Record Stats := {
  attention_signals : Z;
  cooccurrence_signals : Z;
  errors : Z;
}.

(** [run_signal_derivation], from the parsed window on: the attention loop,
    then the co-occurrence loop over seven times the window. *)
Definition run_signal_derivation (settings : Settings)
    (events : list UserEvent) (store : SignalStore)
    (window_delta : timedelta) (as_of : datetime) : SignalStore * Stats :=
  let velocities := compute_attention_velocity events window_delta as_of in
  let store1 :=
    fold_left
      (fun st vel =>
         write_signal_event settings st "player" (Some (v_player_id vel)) None
           "user_attention_velocity" (velocity vel) as_of as_of)
      velocities store in
  let cooccurrences :=
    compute_destination_cooccurrence events (window_delta * 7) as_of in
  let store2 :=
    fold_left
      (fun st cooc =>
         write_signal_event settings st "club_player_pair"
           (Some (co_player_id cooc)) (Some (co_club_id cooc))
           "user_destination_cooccurrence" (score cooc) as_of as_of)
      cooccurrences store1 in
  (store2,
   {| attention_signals := Z.of_nat (List.length velocities);
      cooccurrence_signals := Z.of_nat (List.length cooccurrences);
      errors := 0 |}).

(** *** The derivation in the words of the specification *)

(** Qualifying events of player [p] with [lo < occurred_at <= hi] when
    [open_lo], with [lo <= occurred_at <= hi] otherwise. *)
Definition events_between (events : list UserEvent) (p : UUID)
    (open_lo : bool) (lo hi : datetime) : Z :=
  count (fun e =>
           of_player p e
           && (String.eqb (ue_event_type e) "player_view"
               || String.eqb (ue_event_type e) "watchlist_add"
               || String.eqb (ue_event_type e) "share")
           && (if open_lo then lo <? ue_occurred_at e
               else lo <=? ue_occurred_at e)
           && (ue_occurred_at e <=? hi)) events.

(** Qualifying events of player [p] with [lo <= occurred_at < hi]. *)
Definition events_before (events : list UserEvent) (p : UUID)
    (lo hi : datetime) : Z :=
  count (fun e =>
           of_player p e
           && (String.eqb (ue_event_type e) "player_view"
               || String.eqb (ue_event_type e) "watchlist_add"
               || String.eqb (ue_event_type e) "share")
           && (lo <=? ue_occurred_at e)
           && (ue_occurred_at e <? hi)) events.

(** Session [s] holds, between [lo] and [hi], a view or watchlist add of
    player [p] and a view of club [c]. *)
Definition shared_session (events : list UserEvent) (lo hi : datetime)
    (p c : UUID) (s : string) : Prop :=
  (exists e, In e events /\ ue_session_id e = s /\ ue_player_id e = Some p
             /\ (ue_event_type e = "player_view"
                 \/ ue_event_type e = "watchlist_add")
             /\ lo <= ue_occurred_at e <= hi)
  /\ (exists e, In e events /\ ue_session_id e = s /\ ue_club_id e = Some c
                /\ ue_event_type e = "club_view"
                /\ lo <= ue_occurred_at e <= hi).

(** The attention rows of player [p] among [rows]. *)
Definition attention_rows_of (p : UUID) (rows : list SignalRow)
  : list SignalRow :=
  List.filter (fun r => sql_eq (sr_player_id r) (Some p)
                        && String.eqb (sr_signal_type r)
                             "user_attention_velocity") rows.

End Signals.

(** ** User-derived values read on demand ([worker/time_guards.py]) *)

Module UserGuards.
Import Signals.

(** A view of [player_id] in the window of the given bounds; [open_lo] makes
    the lower bound strict. *)
Definition player_view (player_id : UUID) (open_lo : bool)
    (lo hi : datetime) (e : UserEvent) : bool :=
  sql_eq (ue_player_id e) (Some player_id)
  && String.eqb (ue_event_type e) "player_view"
  && (if open_lo then lo <? ue_occurred_at e else lo <=? ue_occurred_at e)
  && (ue_occurred_at e <=? hi).

(** [get_user_derived_value_strict].  [window_hours] is an [int];
    [timedelta(hours=window_hours / 2)] is exactly half the window.  The
    quotient of the two counts is the float division of two integers below
    [2^53].  [min] returns its second argument, the [int] cap, only when it
    is smaller than the first. *)
Definition get_user_derived_value_strict (events : list UserEvent)
    (player_id : UUID) (club_id : option UUID) (signal_type : string)
    (as_of : datetime) (window_hours : Z) : option PyValue :=
  let window_start := as_of - window_hours * 3600000000 in
  if String.eqb signal_type "user_attention_velocity" then
    let midpoint := as_of - window_hours * 1800000000 in
    let recent_views :=
      count (player_view player_id true midpoint as_of) events in
    let older_views :=
      count (player_view player_id false window_start midpoint) events in
    if recent_views + older_views <? 3 then None
    else
      let velocity :=
        PrimFloat.div (float_of_Z (recent_views + 1))
          (float_of_Z (older_views + 1)) in
      let scaled := PrimFloat.mul velocity 100 in
      Some (if PrimFloat.ltb 1000 scaled then PyInt 1000 else PyFloat scaled)
  else
    match club_id with
    | Some club =>
        if String.eqb signal_type "user_destination_cooccurrence" then
          let sessions :=
            map ue_session_id
              (List.filter (player_view player_id false window_start as_of)
                 events) in
          let cooccurrence :=
            Z.of_nat
              (List.length
                 (nodup string_dec
                    (map ue_session_id
                       (List.filter
                          (fun e =>
                             existsb (String.eqb (ue_session_id e)) sessions
                             && sql_eq (ue_club_id e) (Some club)
                             && String.eqb (ue_event_type e) "club_view"
                             && (window_start <=? ue_occurred_at e)
                             && (ue_occurred_at e <=? as_of))
                          events)))) in
          if cooccurrence <? 2 then None
          else Some (PyInt (if 100 <? cooccurrence * 10 then 100
                            else cooccurrence * 10))
        else None
    | None => None
    end.

End UserGuards.

(** ** The relational store *)

Record Competition := {
  comp_id : UUID;
  comp_name : string;
  comp_country : string;
  comp_tier : Z;
}.

Record Club := {
  c_id : UUID;
  c_name : string;
  c_country : string;
  c_competition_id : option UUID;
  c_is_active : bool;
}.

Record Player := {
  pl_id : UUID;
  pl_name : string;
  pl_date_of_birth : option date;
  pl_position : option string;
  pl_current_club_id : option UUID;
  pl_is_active : bool;
}.

Record TransferEvent := {
  te_player_id : UUID;
  te_from_club_id : option UUID;
  te_to_club_id : UUID;
  te_transfer_type : string;
  te_transfer_date : date;
  te_is_superseded : bool;
}.

(** A row of [feature_snapshots], found under its unique key
    [(player_id, candidate_club_id, as_of)]. *)
Record FeatureSnapshot := {
  fs_id : UUID;
  fs_features : list (string * PyValue);
  fs_feature_version : string;
}.

Record Database := {
  players : list Player;
  clubs : list Club;
  competitions : list Competition;
  signal_events : SignalStore;
  transfer_events : list TransferEvent;
  feature_snapshots : gmap (UUID * UUID * datetime) FeatureSnapshot;
}.

(** [clubs c JOIN competitions comp ON c.competition_id = comp.id]. *)
Definition competition_of (db : Database) (c : Club) : option Competition :=
  match c_competition_id c with
  | Some k => find (fun comp => N.eqb (comp_id comp) k) (competitions db)
  | None => None
  end.

Definition club_by_id (db : Database) (k : UUID) : option Club :=
  find (fun c => N.eqb (c_id c) k) (clubs db).

(** The store with another content of [signal_events]. *)
Definition with_signal_events (db : Database) (rows : SignalStore)
  : Database :=
  {| players := players db; clubs := clubs db;
     competitions := competitions db; signal_events := rows;
     transfer_events := transfer_events db;
     feature_snapshots := feature_snapshots db |}.

(** A row of the training frame: the feature columns, the label and the
    audit columns. *)
Record TrainingRow := {
  tr_features : list (string * PyValue);
  tr_player_id : UUID;
  tr_to_club_id : UUID;
  tr_label : Z;
  tr_transfer_date : date;
  tr_feature_date : datetime;
}.

(** ** Feature building ([worker/jobs/features.py]) *)

Module Features.

(** [settings.candidate_clubs_per_player] (20 by default). *)
Record Settings := {
  candidate_clubs_per_player : nat;
}.

Definition default_settings : Settings :=
  {| candidate_clubs_per_player := 20 |}.

(** What a run draws from outside: the ordering each [ORDER BY RANDOM()]
    produces and the UUIDs [uuid4()] returns, both indexed by the player's
    position in the run and a position within the player's work; and the
    draws of [random.sample], indexed by the transfer's position. *)
Record Env := {
  random_order : nat -> nat -> list UUID -> list UUID;
  uuid4 : nat -> nat -> UUID;
  random_sample : nat -> list UUID -> nat -> list UUID;
}.

(** [get_candidate_clubs].  [candidates] is a set; [list(candidates)] is its
    enumeration. *)
Definition get_candidate_clubs (db : Database)
    (order_other order_fill : list UUID -> list UUID) (fresh : UUID)
    (player_id current_club_id : UUID) (as_of : datetime)
    (max_candidates : nat) : list UUID :=
  let current_comp :=
    match club_by_id db current_club_id with
    | Some c => c_competition_id c
    | None => None
    end in
  let same_league_clubs :=
    firstn 5
      (map c_id
         (List.filter
            (fun c => sql_eq (c_competition_id c) current_comp
                      && negb (N.eqb (c_id c) current_club_id)
                      && c_is_active c)
            (clubs db))) in
  let other_clubs :=
    firstn 8
      (order_other
         (map c_id
            (List.filter
               (fun c => match competition_of db c with
                         | Some comp => comp_tier comp =? 1
                         | None => false
                         end
                         && negb (N.eqb (c_id c) current_club_id)
                         && sql_ne (c_competition_id c) current_comp
                         && c_is_active c)
               (clubs db)))) in
  let attention_clubs :=
    firstn 5
      (distinct
         (flat_map
            (fun r =>
               match sr_club_id r with
               | Some c =>
                   if sql_eq (sr_player_id r) (Some player_id)
                      && String.eqb (sr_signal_type r)
                           "user_destination_cooccurrence"
                      && (sr_effective_from r <=? as_of)
                   then [c] else []
               | None => []
               end)
            (signal_events db))) in
  let candidates : gset UUID :=
    list_to_set same_league_clubs ∪ list_to_set other_clubs
      ∪ list_to_set attention_clubs in
  let candidates : gset UUID :=
    if (base.size candidates <? max_candidates)%nat then
      let remaining := (max_candidates - base.size candidates)%nat in
      let existing :=
        if decide (candidates = ∅) then [fresh] else elements candidates in
      let random_clubs :=
        firstn remaining
          (order_fill
             (map c_id
                (List.filter
                   (fun c => negb (N.eqb (c_id c) current_club_id)
                             && c_is_active c
                             && negb (existsb (N.eqb (c_id c)) existing))
                   (clubs db)))) in
      candidates ∪ list_to_set random_clubs
    else candidates in
  firstn max_candidates (elements candidates).

(** [get_latest_signal_value]: the strict read, as a feature value. *)
Definition get_latest_signal_value (db : Database) (entity_type : string)
    (entity_id : option UUID) (signal_type : string) (as_of : datetime)
    (player_id club_id : option UUID) : PyValue :=
  match TimeGuards.get_signal_value_strict (signal_events db) entity_type
          entity_id signal_type as_of player_id club_id with
  | Some f => PyFloat f
  | None => PyNone
  end.

Definition position_map : list (string * Z) :=
  [("ST", 1); ("LW", 2); ("RW", 3); ("CAM", 4); ("CM", 5); ("CDM", 6);
   ("CB", 7); ("LB", 8); ("RB", 9); ("GK", 10)].

Definition read_signals (db : Database) (entity_type : string)
    (entity_id : option UUID) (as_of : datetime)
    (signal_features : list string) (features : list (string * PyValue))
  : list (string * PyValue) :=
  fold_left
    (fun features signal_type =>
       dict_set features signal_type
         (get_latest_signal_value db entity_type entity_id signal_type as_of
            None None))
    signal_features features.

Definition build_player_features (db : Database) (player_id : UUID)
    (as_of : datetime) : list (string * PyValue) :=
  match find (fun p => N.eqb (pl_id p) player_id) (players db) with
  | None => []
  | Some player =>
      let features :=
        dict_set []
          "age"
          match pl_date_of_birth player with
          | Some dob =>
              PyFloat (PrimFloat.div (float_of_Z (date_of as_of - dob))
                         365.25)
          | None => PyNone
          end in
      let features :=
        dict_set features "position_encoded"
          (PyInt match pl_position player with
                 | Some pos => match dict_get position_map pos with
                               | Some n => n
                               | None => 0
                               end
                 | None => 0
                 end) in
      read_signals db "player" (Some player_id) as_of
        ["market_value"; "contract_months_remaining"; "goals_last_10";
         "assists_last_10"; "minutes_last_5"; "social_mention_velocity";
         "user_attention_velocity"]
        features
  end.

(** [tier or 1] on the tier of a joined competition. *)
Definition tier_or_1 (db : Database) (c : Club) : Z :=
  match competition_of db c with
  | Some comp => if comp_tier comp =? 0 then 1 else comp_tier comp
  | None => 1
  end.

Definition build_club_features (db : Database) (club_id : UUID)
    (as_of : datetime) : list (string * PyValue) :=
  let features :=
    dict_set [] "club_tier"
      match club_by_id db club_id with
      | Some club => PyInt (tier_or_1 db club)
      | None => PyNone
      end in
  read_signals db "club" (Some club_id) as_of
    ["club_league_position"; "club_points_per_game"; "club_net_spend_12m"]
    features.

Definition build_pair_features (db : Database)
    (player_id from_club_id to_club_id : UUID) (as_of : datetime)
  : list (string * PyValue) :=
  let features :=
    match club_by_id db from_club_id, club_by_id db to_club_id with
    | Some from_club, Some to_club =>
        dict_set
          (dict_set
             (dict_set [] "same_country"
                (PyFloat (if String.eqb (c_country from_club)
                               (c_country to_club)
                          then 1 else 0)))
             "same_league"
             (PyFloat (match c_competition_id from_club,
                             c_competition_id to_club with
                       | Some a, Some b => if N.eqb a b then 1 else 0
                       | None, None => 1
                       | _, _ => 0
                       end)))
          "tier_difference"
          (PyInt (tier_or_1 db to_club - tier_or_1 db from_club))
    | _, _ =>
        dict_set
          (dict_set (dict_set [] "same_country" PyNone) "same_league" PyNone)
          "tier_difference" PyNone
    end in
  dict_set features "user_destination_cooccurrence"
    (get_latest_signal_value db "pair" None "user_destination_cooccurrence"
       as_of (Some player_id) (Some to_club_id)).

(** [features.update(other)]. *)
Definition dict_update {V : Type} (d other : list (string * V))
  : list (string * V) :=
  fold_left (fun d '(k, v) => dict_set d k v) other d.

Definition build_feature_vector (db : Database)
    (player_id from_club_id to_club_id : UUID) (as_of : datetime)
  : list (string * PyValue) :=
  let features := dict_update [] (build_player_features db player_id as_of) in
  let features :=
    fold_left (fun d '(k, v) => dict_set d ("to_" ++ k)%string v)
      (build_club_features db to_club_id as_of) features in
  let features :=
    fold_left (fun d '(k, v) => dict_set d ("from_" ++ k)%string v)
      (build_club_features db from_club_id as_of) features in
  dict_update features
    (build_pair_features db player_id from_club_id to_club_id as_of).

(** A value bound to a JSONB column in a raw [text()] statement: the [str]
    that [json.dumps] made of a document, or the [dict] itself. *)
Inductive JsonParam :=
| json_dumps (doc : list (string * PyValue))
| py_dict (doc : list (string * PyValue)).

(** What the database driver makes of it: a [str] is sent as the document
    it spells; a [dict] has no adapter, and [execute] raises before anything
    is sent. *)
Definition adapt (param : JsonParam) : string + list (string * PyValue) :=
  match param with
  | json_dumps doc => inr doc
  | py_dict _ => inl "ProgrammingError: can't adapt type 'dict'"
  end.

(** The [INSERT ... ON CONFLICT (player_id, candidate_club_id, as_of)
    DO UPDATE SET features = :features]; [inl] is the exception
    [session.execute] raises. *)
Definition upsert_feature_snapshot
    (table : gmap (UUID * UUID * datetime) FeatureSnapshot) (id : UUID)
    (player_id club_id : UUID) (as_of : datetime) (features : JsonParam)
  : string + gmap (UUID * UUID * datetime) FeatureSnapshot :=
  match adapt features with
  | inl e => inl e
  | inr doc =>
      inr match table !! (player_id, club_id, as_of) with
          | Some row =>
              <[(player_id, club_id, as_of) :=
                  {| fs_id := fs_id row; fs_features := doc;
                     fs_feature_version := fs_feature_version row |}]> table
          | None =>
              <[(player_id, club_id, as_of) :=
                  {| fs_id := id; fs_features := doc;
                     fs_feature_version := "v1" |}]> table
          end
  end.

Record BuildStats := {
  players_processed : Z;
  feature_vectors_created : Z;
  errors : Z;
}.

(** The players the run iterates over, with their position in the run. *)
Definition build_players (db : Database) : list (nat * Player) :=
  let rows :=
    List.filter
      (fun p => pl_is_active p
                && match pl_current_club_id p with
                   | Some _ => true
                   | None => false
                   end)
      (players db) in
  combine (seq 0 (List.length rows)) rows.

(** The candidates of the player at position [i]. *)
Definition candidates_of (settings : Settings) (env : Env) (db : Database)
    (as_of : datetime) (ip : nat * Player) : list UUID :=
  match pl_current_club_id (snd ip) with
  | Some cur =>
      get_candidate_clubs db (random_order env (fst ip) 0)
        (random_order env (fst ip) 1) (uuid4 env (fst ip) 0)
        (pl_id (snd ip)) cur as_of (candidate_clubs_per_player settings)
  | None => []
  end.

(** The inner loop over the numbered candidates: the statement binds the
    [features] dictionary itself, with the id [ids j]; the loop ends at the
    first exception, which it hands back with the table and the number of
    vectors stored so far. *)
Fixpoint upserts (ids : nat -> UUID) (player_id : UUID) (as_of : datetime)
    (vector : UUID -> list (string * PyValue)) (l : list (nat * UUID))
    (table : gmap (UUID * UUID * datetime) FeatureSnapshot) (created : Z)
  : gmap (UUID * UUID * datetime) FeatureSnapshot * Z * option string :=
  match l with
  | [] => (table, created, None)
  | (j, to_club_id) :: rest =>
      match upsert_feature_snapshot table (ids j) player_id to_club_id as_of
              (py_dict (vector to_club_id)) with
      | inl e => (table, created, Some e)
      | inr table' =>
          upserts ids player_id as_of vector rest table' (created + 1)
      end
  end.

(** The body of the loop for one player, with its [try] and [except]: the
    player counts as processed when the inner loop ends normally, as an
    error otherwise. *)
Definition build_for_player (settings : Settings) (env : Env)
    (db : Database) (as_of : datetime)
    (state : gmap (UUID * UUID * datetime) FeatureSnapshot * BuildStats)
    (ip : nat * Player)
  : gmap (UUID * UUID * datetime) FeatureSnapshot * BuildStats :=
  match pl_current_club_id (snd ip) with
  | Some cur =>
      let candidates := candidates_of settings env db as_of ip in
      let '(table, created, raised) :=
        upserts (fun j => uuid4 env (fst ip) (S j)) (pl_id (snd ip)) as_of
          (fun to_club_id =>
             build_feature_vector db (pl_id (snd ip)) cur to_club_id as_of)
          (combine (seq 0 (List.length candidates)) candidates) (fst state)
          (feature_vectors_created (snd state)) in
      (table,
       match raised with
       | None =>
           {| players_processed := players_processed (snd state) + 1;
              feature_vectors_created := created;
              errors := errors (snd state) |}
       | Some _ =>
           {| players_processed := players_processed (snd state);
              feature_vectors_created := created;
              errors := errors (snd state) + 1 |}
       end)
  | None => state
  end.

(** [run_feature_build]: delete the snapshots of [as_of], then build. *)
Definition run_feature_build (settings : Settings) (env : Env)
    (db : Database) (as_of : datetime) : Database * BuildStats :=
  let todo := build_players db in
  let cleared :=
    base.filter
      (fun kv : UUID * UUID * datetime * FeatureSnapshot =>
         kv.1.2 <> as_of)
      (feature_snapshots db) in
  let '(table, stats) :=
    fold_left (build_for_player settings env db as_of) todo
      (cleared,
       {| players_processed := 0; feature_vectors_created := 0;
          errors := 0 |}) in
  ({| players := players db; clubs := clubs db;
      competitions := competitions db; signal_events := signal_events db;
      transfer_events := transfer_events db; feature_snapshots := table |},
   stats).

(** [build_training_features] with its default [validate_time_travel=True];
    [inl] is the exception that leaves the function. *)
Definition build_training_features (env : Env) (db : Database)
    (as_of : datetime) (lookback_days horizon_days : Z)
  : string + list TrainingRow :=
  let cutoff_date := as_of - lookback_days * 86400000000 in
  let positives :=
    List.filter
      (fun t => (cutoff_date <=? midnight (te_transfer_date t))
                && (midnight (te_transfer_date t) <=? as_of)
                && negb (te_is_superseded t)
                && (String.eqb (te_transfer_type t) "permanent"
                    || String.eqb (te_transfer_type t) "loan"
                    || String.eqb (te_transfer_type t) "loan_with_option")
                && match te_from_club_id t with
                   | Some _ => true
                   | None => false
                   end)
      (transfer_events db) in
  let row_for t club label :=
    let feature_date := midnight (te_transfer_date t - horizon_days) in
    match te_from_club_id t with
    | Some from_club =>
        [ {| tr_features :=
               build_feature_vector db (te_player_id t) from_club club
                 feature_date;
             tr_player_id := te_player_id t; tr_to_club_id := club;
             tr_label := label; tr_transfer_date := te_transfer_date t;
             tr_feature_date := feature_date |} ]
    | None => []
    end in
  let positive_rows :=
    flat_map
      (fun t =>
         match TimeGuards.validate_training_label_time_travel
                 (midnight (te_transfer_date t))
                 (midnight (te_transfer_date t - horizon_days))
                 horizon_days "" with
         | inl _ => []
         | inr _ => row_for t (te_to_club_id t) 1
         end)
      positives in
  let all_clubs :=
    map c_id (List.filter c_is_active (clubs db)) in
  let k := Z.min 3 (Z.of_nat (List.length all_clubs) - 2) in
  let negative_rows :=
    fold_left
      (fun acc '(n, t) =>
         match acc with
         | inl e => inl e
         | inr rows =>
             let population :=
               List.filter
                 (fun c => negb (N.eqb c (te_to_club_id t))
                           && negb (sql_eq (te_from_club_id t) (Some c)))
                 all_clubs in
             if (k <? 0) || (Z.of_nat (List.length population) <? k) then
               inl "ValueError: Sample larger than population or is negative"
             else
               inr (rows
                    ++ flat_map (fun c => row_for t c 0)
                         (random_sample env n population (Z.to_nat k)))
         end)
      (combine (seq 0 (List.length positives)) positives)
      (inr []) in
  match negative_rows with
  | inl e => inl e
  | inr negatives =>
      match positive_rows ++ negatives with
      | [] => inl "KeyError: 'label'"
      | rows => inr rows
      end
  end.

(** *** Vocabulary for stating what a training frame holds *)

(** The [WHERE] clause of the query for positive examples. *)
Definition qualifying_transfer (as_of : datetime) (lookback_days : Z)
    (t : TransferEvent) : bool :=
  (as_of - lookback_days * 86400000000 <=? midnight (te_transfer_date t))
  && (midnight (te_transfer_date t) <=? as_of)
  && negb (te_is_superseded t)
  && (String.eqb (te_transfer_type t) "permanent"
      || String.eqb (te_transfer_type t) "loan"
      || String.eqb (te_transfer_type t) "loan_with_option")
  && match te_from_club_id t with
     | Some _ => true
     | None => false
     end.

End Features.

(** ** Candidate generation ([worker/jobs/candidates.py]) *)

Module Candidates.

Inductive CandidateSource :=
| LEAGUE | SOCIAL | USER_ATTENTION | CONSTRAINT_FIT | RANDOM.

Definition CandidateSource_eqb (a b : CandidateSource) : bool :=
  match a, b with
  | LEAGUE, LEAGUE | SOCIAL, SOCIAL | USER_ATTENTION, USER_ATTENTION
  | CONSTRAINT_FIT, CONSTRAINT_FIT | RANDOM, RANDOM => true
  | _, _ => false
  end.

Record CandidateClub := {
  club_id : UUID;
  source : CandidateSource;
  score : float;
  reason : string;
}.

Record CandidateConfig := {
  league_top_n : nat;
  include_top_5_leagues : bool;
  social_mention_threshold : float;
  social_max_candidates : nat;
  user_cooccurrence_threshold : float;
  user_max_candidates : nat;
  constraint_max_candidates : nat;
  wage_affordability_ratio : float;
  fee_affordability_ratio : float;
  random_candidates : nat;
  max_total_candidates : nat;
}.

Definition default_config : CandidateConfig :=
  {| league_top_n := 8; include_top_5_leagues := true;
     social_mention_threshold := 2; social_max_candidates := 5;
     user_cooccurrence_threshold := 3; user_max_candidates := 5;
     constraint_max_candidates := 5; wage_affordability_ratio := 3;
     fee_affordability_ratio := 0.3; random_candidates := 5;
     max_total_candidates := 20 |}.

Definition random_candidate (c : UUID) : CandidateClub :=
  {| club_id := c; source := RANDOM; score := 0.1;
     reason := "Random calibration sample" |}.

(** The clubs the random query ranges over: active, not the current club,
    in a competition of tier at most 3. *)
Definition random_pool (db : Database) (current_club_id : UUID)
  : list UUID :=
  map c_id
    (List.filter
       (fun c => negb (N.eqb (c_id c) current_club_id)
                 && c_is_active c
                 && match competition_of db c with
                    | Some comp => comp_tier comp <=? 3
                    | None => false
                    end)
       (clubs db)).

(** The loop of [get_random_candidates], with its [break]. *)
Fixpoint random_loop (existing : gset UUID) (n : nat)
    (random_clubs : list UUID) (candidates : list CandidateClub)
  : list CandidateClub :=
  match random_clubs with
  | [] => candidates
  | c :: rest =>
      if decide (c ∈ existing) then random_loop existing n rest candidates
      else
        let candidates := candidates ++ [random_candidate c] in
        if (n <=? List.length candidates)%nat then candidates
        else random_loop existing n rest candidates
  end.

(** [get_random_candidates]; [order] is the ordering [ORDER BY RANDOM()]
    produced for this query. *)
Definition get_random_candidates (db : Database)
    (order : list UUID -> list UUID) (player_id current_club_id : UUID)
    (existing_candidate_ids : gset UUID) (config : CandidateConfig)
  : list CandidateClub :=
  let random_clubs :=
    firstn (random_candidates config * 3)
      (order (random_pool db current_club_id)) in
  random_loop existing_candidate_ids (random_candidates config)
    random_clubs [].

(** One of the five [for c in ...: if c.club_id not in seen_club_ids] loops. *)
Definition merge_source (acc : list CandidateClub * gset UUID)
    (found : list CandidateClub) : list CandidateClub * gset UUID :=
  fold_left
    (fun '(all_candidates, seen) c =>
       if decide (club_id c ∈ seen) then (all_candidates, seen)
       else (all_candidates ++ [c], seen ∪ {[club_id c]}))
    found acc.

(** [all_candidates.sort(key=lambda x: x.score, reverse=True)]. *)
Definition sort_by_score (l : list CandidateClub) : list CandidateClub :=
  stable_sort (fun a b => PrimFloat.ltb (score b) (score a)) l.

Record PlayerContext := {
  ctx_name : string;
  ctx_position : option string;
  ctx_club : option string;
  ctx_age : option float;
  ctx_market_value : option float;
  ctx_contract_months_remaining : option float;
}.

(** A row of [candidate_sets], found under its unique key
    [(player_id, as_of, horizon_days)]. *)
Record CandidateSet := {
  cs_id : UUID;
  cs_from_club_id : UUID;
  cs_total_candidates : Z;
  cs_league_candidates : Z;
  cs_social_candidates : Z;
  cs_user_attention_candidates : Z;
  cs_constraint_fit_candidates : Z;
  cs_random_candidates : Z;
  cs_candidates_json : list CandidateClub;
  cs_player_context_json : PlayerContext;
  cs_generation_version : string;
}.

(** The result dictionary of a generation that found the player. *)
Record Generated := {
  g_from_club_id : UUID;
  g_total_candidates : Z;
  g_source_counts : list (CandidateSource * Z);
  g_candidates : list CandidateClub;
  g_player_context : PlayerContext;
}.

Section Generate.

(** The four sources that read the store without randomness, and
    [round(x, 1)]. *)
Variable get_league_candidates get_social_candidates
  get_user_attention_candidates get_constraint_fit_candidates :
  Database -> UUID -> UUID -> datetime -> CandidateConfig ->
  list CandidateClub.
Variable round1 : float -> float.

(** The merge of the four deterministic sources, in priority order. *)
Definition merged_sources (db : Database) (player_id current_club_id : UUID)
    (as_of : datetime) (config : CandidateConfig)
  : list CandidateClub * gset UUID :=
  let acc := ([], ∅) in
  let acc :=
    merge_source acc
      (get_league_candidates db player_id current_club_id as_of config) in
  let acc :=
    merge_source acc
      (get_social_candidates db player_id current_club_id as_of config) in
  let acc :=
    merge_source acc
      (get_user_attention_candidates db player_id current_club_id as_of
         config) in
  merge_source acc
    (get_constraint_fit_candidates db player_id current_club_id as_of config).

Definition count_source (s : CandidateSource) (l : list CandidateClub) : Z :=
  Z.of_nat
    (List.length (List.filter (fun c => CandidateSource_eqb (source c) s) l)).

(** [generate_candidates_for_player]: [inl] is the error dictionary;
    otherwise the result and the [candidate_sets] table after the upsert
    (unchanged when [save_to_db] is false). *)
Definition generate_candidates_for_player (db : Database)
    (table : gmap (UUID * datetime * Z) CandidateSet)
    (order : list UUID -> list UUID) (fresh_id : UUID)
    (player_id : UUID) (as_of : datetime) (horizon_days : Z)
    (config : CandidateConfig) (save_to_db : bool)
  : string + Generated * gmap (UUID * datetime * Z) CandidateSet :=
  match find (fun p => N.eqb (pl_id p) player_id) (players db) with
  | None => inl "Player not found or has no current club"
  | Some player =>
      match pl_current_club_id player with
      | None => inl "Player not found or has no current club"
      | Some current_club_id =>
          let '(all_candidates, seen_club_ids) :=
            merged_sources db player_id current_club_id as_of config in
          let random :=
            get_random_candidates db order player_id current_club_id
              seen_club_ids config in
          let '(all_candidates, _) :=
            merge_source (all_candidates, seen_club_ids) random in
          let all_candidates :=
            firstn (max_total_candidates config)
              (sort_by_score all_candidates) in
          let read st :=
            TimeGuards.get_signal_value_strict (signal_events db) "player"
              (Some player_id) st as_of None None in
          let player_context :=
            {| ctx_name := pl_name player;
               ctx_position := pl_position player;
               ctx_club :=
                 match club_by_id db current_club_id with
                 | Some c => Some (c_name c)
                 | None => None
                 end;
               ctx_age :=
                 match pl_date_of_birth player with
                 | Some dob =>
                     Some (round1
                             (PrimFloat.div
                                (float_of_Z (date_of as_of - dob)) 365.25))
                 | None => None
                 end;
               ctx_market_value := read "market_value";
               ctx_contract_months_remaining :=
                 read "contract_months_remaining" |} in
          let total := Z.of_nat (List.length all_candidates) in
          let result :=
            {| g_from_club_id := current_club_id;
               g_total_candidates := total;
               g_source_counts :=
                 map (fun s => (s, count_source s all_candidates))
                   [LEAGUE; SOCIAL; USER_ATTENTION; CONSTRAINT_FIT; RANDOM];
               g_candidates := all_candidates;
               g_player_context := player_context |} in
          let key := (player_id, as_of, horizon_days) in
          let table :=
            if save_to_db then
              match table !! key with
              | Some row =>
                  <[key :=
                      {| cs_id := cs_id row;
                         cs_from_club_id := cs_from_club_id row;
                         cs_total_candidates := total;
                         cs_league_candidates := cs_league_candidates row;
                         cs_social_candidates := cs_social_candidates row;
                         cs_user_attention_candidates :=
                           cs_user_attention_candidates row;
                         cs_constraint_fit_candidates :=
                           cs_constraint_fit_candidates row;
                         cs_random_candidates := cs_random_candidates row;
                         cs_candidates_json := all_candidates;
                         cs_player_context_json := player_context;
                         cs_generation_version :=
                           cs_generation_version row |}]> table
              | None =>
                  <[key :=
                      {| cs_id := fresh_id;
                         cs_from_club_id := current_club_id;
                         cs_total_candidates := total;
                         cs_league_candidates :=
                           count_source LEAGUE all_candidates;
                         cs_social_candidates :=
                           count_source SOCIAL all_candidates;
                         cs_user_attention_candidates :=
                           count_source USER_ATTENTION all_candidates;
                         cs_constraint_fit_candidates :=
                           count_source CONSTRAINT_FIT all_candidates;
                         cs_random_candidates :=
                           count_source RANDOM all_candidates;
                         cs_candidates_json := all_candidates;
                         cs_player_context_json := player_context;
                         cs_generation_version := "v1" |}]> table
              end
            else table in
          inr (result, table)
      end
  end.

End Generate.

(** *** Vocabulary for stating what the merge keeps *)

(** The accumulator of the merge loops is consistent: the club ids of the
    list are distinct and [seen_club_ids] is exactly their set. *)
Definition well_merged (acc : list CandidateClub * gset UUID) : Prop :=
  NoDup (map club_id (fst acc))
  /\ forall k, k ∈ snd acc <-> In k (map club_id (fst acc)).

(** The candidate list before the save, for a player at [current_club_id]. *)
Definition selected
    (sources : list CandidateClub * gset UUID) (random : list CandidateClub)
    (config : CandidateConfig) : list CandidateClub :=
  firstn (max_total_candidates config)
    (sort_by_score (fst (merge_source sources random))).

End Candidates.

(** ** Model training ([worker/jobs/train.py]) *)

Module Train.

(** [settings.min_training_samples] (50 by default). *)
Record Settings := {
  min_training_samples : Z;
}.

Definition default_settings : Settings := {| min_training_samples := 50 |}.


(** A row of [model_versions]. *)
Record ModelVersion := {
  mv_id : UUID;
  mv_model_name : string;
  mv_model_version : string;
  mv_horizon_days : Z;
  mv_training_as_of : datetime;
  mv_training_samples : Z;
  mv_positive_samples : Z;
  mv_negative_samples : Z;
  mv_feature_count : Z;
  mv_features_used : list string;
  mv_metrics : list (string * float);
  mv_feature_importances : list (string * float);
  mv_artifact_path : string;
  mv_status : string;
  mv_completed_at : datetime;
}.

(** What the scikit-learn part of a run yields when it does not raise:
    the prepared feature names, the metrics, the importances and the path
    of the saved artifact. *)
Record Fitted := {
  feature_names : list string;
  metrics : list (string * float);
  feature_importances : list (string * float);
  artifact_path : string;
}.

(** The [results] dictionary. *)
Record Results := {
  r_model_name : string;
  r_model_version : string;
  r_horizon_days : Z;
  r_status : string;
  r_error : option string;
  r_model_id : option UUID;
  r_artifact_path : option string;
  r_metrics : option (list (string * float));
  r_feature_importances : option (list (string * float));
  r_training_samples : option Z;
}.

(** How a call ends: it returns its [results], or the exception of the
    [try] block propagates. *)
Inductive Outcome :=
| Returned (results : Results)
| Raised (message : string).

(** [register_model_version]: one [INSERT]; [status] defaults to
    ["completed"]. *)
Definition register_model_version (table : list ModelVersion)
    (model_id : UUID) (model_name model_version : string) (horizon_days : Z)
    (training_as_of : datetime)
    (training_samples positive_samples negative_samples feature_count : Z)
    (features_used : list string) (metrics : list (string * float))
    (feature_importances : list (string * float)) (artifact_path : string)
    (status : string) (now : datetime) : list ModelVersion * UUID :=
  (table ++
   [ {| mv_id := model_id; mv_model_name := model_name;
        mv_model_version := model_version; mv_horizon_days := horizon_days;
        mv_training_as_of := training_as_of;
        mv_training_samples := training_samples;
        mv_positive_samples := positive_samples;
        mv_negative_samples := negative_samples;
        mv_feature_count := feature_count;
        mv_features_used := features_used; mv_metrics := metrics;
        mv_feature_importances := feature_importances;
        mv_artifact_path := artifact_path; mv_status := status;
        mv_completed_at := now |} ],
   model_id).

Section Run.

(** What the run takes from outside: [str(int)], the scikit-learn pipeline
    from [prepare_features] to [save_model_artifact] ([inl] when it
    raises), the generated version string, the fresh UUID and the clocks. *)
Variable str_of_int : Z -> string.
Variable fit : list TrainingRow -> string -> string + Fitted.

Definition sum_labels (df : list TrainingRow) : Z :=
  fold_right (fun r acc => tr_label r + acc) 0 df.

(** [run_model_train]; [frame] is what [build_training_features] returned,
    or the exception it raised. *)
Definition run_model_train (settings : Settings) (table : list ModelVersion)
    (frame : string + list TrainingRow) (model_version : string)
    (model_id : UUID) (now : datetime) (as_of : datetime) (horizon_days : Z)
    (model_type : string) : Outcome * list ModelVersion :=
  let model_name := ("transfer_xgb_" ++ str_of_int horizon_days ++ "d")%string in
  let results status error :=
    {| r_model_name := model_name; r_model_version := model_version;
       r_horizon_days := horizon_days; r_status := status; r_error := error;
       r_model_id := None; r_artifact_path := None; r_metrics := None;
       r_feature_importances := None; r_training_samples := None |} in
  match frame with
  | inl e => (Raised e, table)
  | inr df =>
      let n := Z.of_nat (List.length df) in
      if n <? min_training_samples settings then
        (Returned
           (results "failed"
              (Some ("Insufficient training data: " ++ str_of_int n
                       ++ " samples")%string)),
         table)
      else
        match fit df model_type with
        | inl e => (Raised e, table)
        | inr f =>
            let positive := sum_labels df in
            let '(table', id') :=
              register_model_version table model_id model_name model_version
                horizon_days as_of n positive (n - positive)
                (Z.of_nat (List.length (feature_names f))) (feature_names f)
                (metrics f) (feature_importances f) (artifact_path f)
                "completed" now in
            (Returned
               {| r_model_name := model_name;
                  r_model_version := model_version;
                  r_horizon_days := horizon_days; r_status := "completed";
                  r_error := None; r_model_id := Some id';
                  r_artifact_path := Some (artifact_path f);
                  r_metrics := Some (metrics f);
                  r_feature_importances := Some (feature_importances f);
                  r_training_samples := Some n |},
             table')
        end
  end.

End Run.

End Train.

(** ** Scoring ([worker/jobs/predict.py]) *)

Module Predict.

(** The importances [run_predictions] uses when no trained model exists. *)
Definition heuristic_importances : list (string * float) :=
  [("contract_months_remaining", 0.25%float);
   ("market_value", 0.20%float);
   ("user_destination_cooccurrence", 0.15%float);
   ("age", 0.10%float);
   ("same_league", 0.10%float);
   ("tier_difference", 0.10%float);
   ("social_mention_velocity", 0.10%float)].

(** [values.max()] and [values.min()] on a non-empty [numpy] array, given
    as its first element and the rest: a NaN anywhere makes the result NaN. *)
Definition float_max (x : float) (r : list float) : float :=
  fold_left (fun m y => if PrimFloat.is_nan m then m
                        else if PrimFloat.is_nan y then y
                        else if PrimFloat.ltb m y then y else m) r x.

Definition float_min (x : float) (r : list float) : float :=
  fold_left (fun m y => if PrimFloat.is_nan m then m
                        else if PrimFloat.is_nan y then y
                        else if PrimFloat.ltb y m then y else m) r x.

(** [dict(sorted(items, key=value, reverse=True))]: descending and stable. *)
Definition sort_by_value_desc (items : list (string * float))
  : list (string * float) :=
  stable_sort (fun a b => PrimFloat.ltb (snd b) (snd a)) items.

(** The rest of [compute_driver_contributions] once the array is known to
    hold [x :: rest]. *)
Definition contributions (names : list string) (x : float) (rest : list float)
    (importances : list (string * float)) (top_n : nat)
  : list (string * float) :=
  let values := x :: rest in
  let hi := float_max x rest in
  let lo := float_min x rest in
  let normalized :=
    if negb (PrimFloat.eqb hi lo) then
      map (fun v => PrimFloat.div (PrimFloat.sub v lo) (PrimFloat.sub hi lo))
        values
    else map (fun _ => PrimFloat.mul 1 0.5) values in
  let drivers :=
    fold_left
      (fun drivers '(name, nv) =>
         let importance := match dict_get importances name with
                           | Some w => w
                           | None => 0%float
                           end in
         let contribution := PrimFloat.mul importance nv in
         if PrimFloat.ltb 0 contribution
         then dict_set drivers name (np_round4 contribution)
         else drivers)
      (combine names normalized) [] in
  let sorted_drivers := firstn top_n (sort_by_value_desc drivers) in
  let total := fold_left PrimFloat.add (map snd sorted_drivers) 0%float in
  if PrimFloat.ltb 0 total then
    map (fun '(k, v) => (k, np_round4 (PrimFloat.div v total))) sorted_drivers
  else sorted_drivers.

(** [compute_driver_contributions]; the [model] argument is never read.
    With no feature name the array is empty and [values.max()] raises. *)
Definition compute_driver_contributions
    (feature_values : list (string * PyValue)) (names : list string)
    (importances : list (string * float)) (top_n : nat)
  : string + list (string * float) :=
  let values :=
    map (fun name => match dict_get feature_values name with
                     | Some v => value_or_zero v
                     | None => 0%float
                     end) names in
  match values with
  | [] =>
      inl "ValueError: zero-size array to reduction operation maximum which has no identity"
  | x :: rest => inr (contributions names x rest importances top_n)
  end.

(** The [drivers_json] of a snapshot scored without a trained model: the
    names are the keys of the feature vector, [top_n] is the default 5. *)
Definition heuristic_drivers (features : list (string * PyValue))
  : string + list (string * float) :=
  compute_driver_contributions features (map fst features)
    heuristic_importances 5.

(** The exact sum of the values of a [drivers_json]. *)
Definition drivers_sum (drivers : list (string * float)) : Q :=
  fold_right (fun kv acc => Qplus (Q_of_float (snd kv)) acc) 0%Q drivers.

End Predict.

(** ** The HTTP readers and the what-changed detector ([apps/api]) *)

Module Api.

(** [EntityType] and [SignalTypeEnum] of [app/models.py], in declaration order. *)
Inductive EntityType := PLAYER | CLUB | CLUB_PLAYER_PAIR.

Inductive SignalTypeEnum :=
| MINUTES_LAST_5 | INJURIES_STATUS | GOALS_LAST_10 | ASSISTS_LAST_10
| CLUB_LEAGUE_POSITION | CLUB_POINTS_PER_GAME | CLUB_NET_SPEND_12M
| CONTRACT_MONTHS_REMAINING | WAGE_ESTIMATE | MARKET_VALUE | RELEASE_CLAUSE
| SOCIAL_MENTION_VELOCITY | SOCIAL_SENTIMENT
| USER_ATTENTION_VELOCITY | USER_DESTINATION_COOCCURRENCE | USER_WATCHLIST_ADDS.

Definition EntityType_eqb (a b : EntityType) : bool :=
  match a, b with
  | PLAYER, PLAYER | CLUB, CLUB | CLUB_PLAYER_PAIR, CLUB_PLAYER_PAIR => true
  | _, _ => false
  end.

(** Position of a signal type in the enum, the order a database enum sorts by. *)
Definition signal_type_rank (t : SignalTypeEnum) : Z :=
  match t with
  | MINUTES_LAST_5 => 0 | INJURIES_STATUS => 1 | GOALS_LAST_10 => 2
  | ASSISTS_LAST_10 => 3 | CLUB_LEAGUE_POSITION => 4
  | CLUB_POINTS_PER_GAME => 5 | CLUB_NET_SPEND_12M => 6
  | CONTRACT_MONTHS_REMAINING => 7 | WAGE_ESTIMATE => 8 | MARKET_VALUE => 9
  | RELEASE_CLAUSE => 10 | SOCIAL_MENTION_VELOCITY => 11
  | SOCIAL_SENTIMENT => 12 | USER_ATTENTION_VELOCITY => 13
  | USER_DESTINATION_COOCCURRENCE => 14 | USER_WATCHLIST_ADDS => 15
  end.

Definition SignalTypeEnum_eqb (a b : SignalTypeEnum) : bool :=
  signal_type_rank a =? signal_type_rank b.

(** [signal_type.value.replace("_", " ").title()]. *)
Definition type_title (t : SignalTypeEnum) : string :=
  match t with
  | MINUTES_LAST_5 => "Minutes Last 5"
  | INJURIES_STATUS => "Injuries Status"
  | GOALS_LAST_10 => "Goals Last 10"
  | ASSISTS_LAST_10 => "Assists Last 10"
  | CLUB_LEAGUE_POSITION => "Club League Position"
  | CLUB_POINTS_PER_GAME => "Club Points Per Game"
  | CLUB_NET_SPEND_12M => "Club Net Spend 12M"
  | CONTRACT_MONTHS_REMAINING => "Contract Months Remaining"
  | WAGE_ESTIMATE => "Wage Estimate"
  | MARKET_VALUE => "Market Value"
  | RELEASE_CLAUSE => "Release Clause"
  | SOCIAL_MENTION_VELOCITY => "Social Mention Velocity"
  | SOCIAL_SENTIMENT => "Social Sentiment"
  | USER_ATTENTION_VELOCITY => "User Attention Velocity"
  | USER_DESTINATION_COOCCURRENCE => "User Destination Cooccurrence"
  | USER_WATCHLIST_ADDS => "User Watchlist Adds"
  end.

(** A [signal_events] row as the ORM loads it.  A JSON document is kept as
    its canonical text. *)
Record SignalEvent := {
  id : UUID;
  entity_type : EntityType;
  player_id : option UUID;
  club_id : option UUID;
  signal_type : SignalTypeEnum;
  value_json : option string;
  value_num : option Numeric;
  value_text : option string;
  observed_at : datetime;
  effective_from : datetime;
  effective_to : option datetime;
}.

Inductive HTTPException := HTTP_404_NOT_FOUND.

(** *** [routers/players.py]: [get_player_signals] *)

(** The [conditions] list joined by [and_]. *)
Definition signal_conditions (player : UUID) (as_of : option datetime)
    (st : option SignalTypeEnum) (s : SignalEvent) : bool :=
  sql_eq (player_id s) (Some player)
  && EntityType_eqb (entity_type s) PLAYER
  && match as_of with
     | Some t => effective_from s <=? t
     | None => true
     end
  && match st with
     | Some t => SignalTypeEnum_eqb (signal_type s) t
     | None => true
     end.

(** [players] holds the ids of the [players] table; [limit] is validated by
    the framework ([1 <= limit <= 500]) before the handler runs.  The
    response rows copy the columns of the selected rows one for one. *)
Definition get_player_signals (players : list UUID) (signals : list SignalEvent)
    (player : UUID) (as_of : option datetime) (st : option SignalTypeEnum)
    (limit : nat) : HTTPException + list SignalEvent :=
  if existsb (N.eqb player) players then
    inr (firstn limit
           (stable_sort (fun a b => effective_from b <? effective_from a)
              (List.filter (signal_conditions player as_of st) signals)))
  else inl HTTP_404_NOT_FOUND.

(** *** [services.py]: the what-changed detector *)

(** What [_get_signal_value] returns: a [Decimal], a [str] or a JSON value. *)
Inductive SignalValue :=
| VNum (d : Numeric)
| VText (t : string)
| VJson (j : string).

Definition SignalValue_eqb (a b : SignalValue) : bool :=
  match a, b with
  | VNum x, VNum y => x =? y
  | VText x, VText y => String.eqb x y
  | VJson x, VJson y => String.eqb x y
  | _, _ => false
  end.

Inductive Severity := alert | warning | info.

Record SignalDelta := {
  d_signal_type : SignalTypeEnum;
  description : string;
  old_value : option SignalValue;
  new_value : option SignalValue;
  change_percent : option float;
  severity : Severity;
  d_observed_at : datetime;
}.

Definition _get_signal_value (signal : SignalEvent) : option SignalValue :=
  match value_num signal with
  | Some d => Some (VNum d)
  | None =>
      match value_text signal with
      | Some t => Some (VText t)
      | None =>
          match value_json signal with
          | Some j => Some (VJson j)
          | None => None
          end
      end
  end.

(** One entry of [CHANGE_THRESHOLDS] without its [severity_mapping]. *)
Inductive ThresholdRule :=
| threshold (limit : float)
| percent_change (pct : float)
| any_change
| absolute_change (amount : float).

Definition CHANGE_THRESHOLDS (t : SignalTypeEnum) : option ThresholdRule :=
  match t with
  | CONTRACT_MONTHS_REMAINING => Some (threshold 6)
  | MARKET_VALUE => Some (percent_change 10)
  | INJURIES_STATUS => Some any_change
  | SOCIAL_MENTION_VELOCITY => Some (percent_change 50)
  | USER_ATTENTION_VELOCITY => Some (percent_change 100)
  | GOALS_LAST_10 => Some (absolute_change 2)
  | ASSISTS_LAST_10 => Some (absolute_change 2)
  | CLUB_LEAGUE_POSITION => Some (absolute_change 3)
  | _ => None
  end.

(** The [severity_mapping] of the [any_change] entry, applied to raw values. *)
Definition severity_mapping_any (old new : SignalValue) : Severity :=
  if SignalValue_eqb new (VText "fit") then info else alert.

(** The [severity_mapping] lambdas of the numeric entries. *)
Definition severity_mapping_num (t : SignalTypeEnum) (old new : float)
  : Severity :=
  match t with
  | CONTRACT_MONTHS_REMAINING =>
      if PrimFloat.leb new 6 then alert else warning
  | MARKET_VALUE =>
      if PrimFloat.ltb 20
           (PrimFloat.abs (PrimFloat.mul (PrimFloat.div (PrimFloat.sub new old) old) 100))
      then alert else warning
  | SOCIAL_MENTION_VELOCITY =>
      if PrimFloat.ltb (PrimFloat.mul old 2) new then alert else warning
  | USER_ATTENTION_VELOCITY =>
      if PrimFloat.ltb (PrimFloat.mul old 3) new then alert else warning
  | CLUB_LEAGUE_POSITION =>
      if PrimFloat.leb 5 (PrimFloat.abs (PrimFloat.sub new old))
      then warning else info
  | _ => info
  end.

(** [bool(v)] for a value [_get_signal_value] returned. *)
Definition truthy_value (v : SignalValue) : bool :=
  match v with
  | VNum d => negb (d =? 0)
  | VText t => negb (String.eqb t "")
  | VJson j => negb (String.eqb j "{}" || String.eqb j "[]")
  end.

Section Detector.

(** Python built-ins the detector calls: [float(str)] ([None] when it raises
    [ValueError]), [str(Decimal)], the text of a JSON value, [round(x, 1)] and
    the [.1f] format. *)
Variable float_of_str : string -> option float.
Variable str_of_Decimal : Numeric -> string.
Variable str_of_json : string -> string.
Variable round1 : float -> float.
Variable format_1f : float -> string.

(** [f"{v}"]. *)
Definition format_value (v : SignalValue) : string :=
  match v with
  | VNum d => str_of_Decimal d
  | VText t => t
  | VJson j => str_of_json j
  end.

(** [float(v) if v else 0]; [None] when [float] raises. *)
Definition to_num (v : SignalValue) : option float :=
  if truthy_value v then
    match v with
    | VNum d => Some (float_of_Numeric d)
    | VText t => float_of_str t
    | VJson _ => None
    end
  else Some 0%float.

Definition _format_change_description (t : SignalTypeEnum)
    (old_val new_val : SignalValue) : string :=
  match t with
  | CONTRACT_MONTHS_REMAINING =>
      "Contract down to " ++ format_value new_val ++ " months remaining"
  | MARKET_VALUE =>
      (* float(v) / 1_000_000 if v else 0; a text value that is not a number
         raises here, which [to_num] has already excluded on this path *)
      let m v := match to_num v with
                 | Some f => if truthy_value v
                             then PrimFloat.div f 1000000 else 0%float
                 | None => 0%float
                 end in
      let direction :=
        if PrimFloat.ltb (m old_val) (m new_val) then "up" else "down" in
      "Market value " ++ direction ++ " to €" ++ format_1f (m new_val) ++ "M"
  | INJURIES_STATUS => "Injury status changed to: " ++ format_value new_val
  | SOCIAL_MENTION_VELOCITY =>
      "Social media velocity spiked to " ++ format_value new_val
  | USER_ATTENTION_VELOCITY =>
      "User attention increased to " ++ format_value new_val
  | GOALS_LAST_10 =>
      "Goals in last 10 games: " ++ format_value old_val ++ " → "
        ++ format_value new_val
  | ASSISTS_LAST_10 =>
      "Assists in last 10 games: " ++ format_value old_val ++ " → "
        ++ format_value new_val
  | _ =>
      type_title t ++ ": " ++ format_value old_val ++ " → "
        ++ format_value new_val
  end%string.

Definition mk_delta (t : SignalTypeEnum) (old_val new_val : SignalValue)
    (pct : option float) (sev : Severity) (new_signal : SignalEvent)
  : SignalDelta :=
  {| d_signal_type := t;
     description := _format_change_description t old_val new_val;
     old_value := Some old_val;
     new_value := Some new_val;
     change_percent := pct;
     severity := sev;
     d_observed_at := observed_at new_signal |}.

Definition _detect_delta (t : SignalTypeEnum)
    (old_signal new_signal : SignalEvent) : option SignalDelta :=
  match CHANGE_THRESHOLDS t with
  | None => None
  | Some config =>
      match _get_signal_value old_signal, _get_signal_value new_signal with
      | Some old_val, Some new_val =>
          match config with
          | any_change =>
              if negb (SignalValue_eqb old_val new_val) then
                Some (mk_delta t old_val new_val None
                        (severity_mapping_any old_val new_val) new_signal)
              else None
          | _ =>
              match to_num old_val, to_num new_val with
              | Some old_num, Some new_num =>
                  let hit pct :=
                    Some (mk_delta t old_val new_val pct
                            (severity_mapping_num t old_num new_num)
                            new_signal) in
                  match config with
                  | threshold limit =>
                      if PrimFloat.ltb limit old_num
                         && PrimFloat.leb new_num limit
                      then hit None else None
                  | percent_change pct =>
                      if negb (PrimFloat.eqb old_num 0) then
                        let pct_change :=
                          PrimFloat.abs
                            (PrimFloat.mul
                               (PrimFloat.div (PrimFloat.sub new_num old_num)
                                  old_num) 100) in
                        if PrimFloat.leb pct pct_change
                        then hit (Some (round1 pct_change)) else None
                      else None
                  | absolute_change amount =>
                      if PrimFloat.leb amount
                           (PrimFloat.abs (PrimFloat.sub new_num old_num))
                      then hit None else None
                  | any_change => None
                  end
              | _, _ => None
              end
          end
      | _, _ => None
      end
  end.

(** The [by_type] dictionary: keys in first-insertion order, each with its
    rows in arrival order. *)
Fixpoint by_type_add (s : SignalEvent)
    (d : list (SignalTypeEnum * list SignalEvent))
  : list (SignalTypeEnum * list SignalEvent) :=
  match d with
  | [] => [(signal_type s, [s])]
  | (k, l) :: d' =>
      if SignalTypeEnum_eqb k (signal_type s) then (k, l ++ [s]) :: d'
      else (k, l) :: by_type_add s d'
  end.

Definition group_by_type (signals : list SignalEvent)
  : list (SignalTypeEnum * list SignalEvent) :=
  fold_left (fun d s => by_type_add s d) signals [].

(** The query of [get_what_changed]: the player's own rows with
    [effective_from >= cutoff], [ORDER BY signal_type, effective_from]. *)
Definition window_signals (store : list SignalEvent) (player : UUID)
    (cutoff : datetime) : list SignalEvent :=
  stable_sort
    (fun a b =>
       (signal_type_rank a.(signal_type) <? signal_type_rank b.(signal_type))
       || ((signal_type_rank a.(signal_type) =? signal_type_rank b.(signal_type))
           && (effective_from a <? effective_from b)))
    (List.filter
       (fun s => sql_eq (player_id s) (Some player)
                 && EntityType_eqb (entity_type s) PLAYER
                 && (cutoff <=? effective_from s))
       store).

(** The first loop over [by_type]: what an entry with at least two rows
    contributes. *)
Definition changed_of (e : SignalTypeEnum * list SignalEvent)
  : list SignalDelta :=
  match snd e with
  | oldest :: _ :: _ =>
      match _detect_delta (fst e) oldest (List.last (snd e) oldest) with
      | Some delta => [delta]
      | None => []
      end
  | _ => []
  end.

Definition changed_deltas (d : list (SignalTypeEnum * list SignalEvent))
  : list SignalDelta :=
  flat_map changed_of d.

(** The second loop: what an entry with a single row contributes. *)
Definition appeared_of (e : SignalTypeEnum * list SignalEvent)
  : list SignalDelta :=
  match snd e with
  | [signal] =>
      if SignalTypeEnum_eqb (fst e) INJURIES_STATUS then
        match value_text signal with
        | Some value =>
            if negb (String.eqb value "") && negb (String.eqb value "fit")
            then [ {| d_signal_type := fst e;
                      description := ("New injury status: " ++ value)%string;
                      old_value := None;
                      new_value := Some (VText value);
                      change_percent := None;
                      severity := alert;
                      d_observed_at := observed_at signal |} ]
            else []
        | None => []
        end
      else []
  | _ => []
  end.

Definition appeared_deltas (d : list (SignalTypeEnum * list SignalEvent))
  : list SignalDelta :=
  flat_map appeared_of d.

Definition severity_order (s : Severity) : Z :=
  match s with alert => 0 | warning => 1 | info => 2 end.

(** The sort key [(severity_order, -observed_at.timestamp())], compared on
    the microsecond count of [observed_at]. *)
Definition delta_before (a b : SignalDelta) : bool :=
  (severity_order (severity a) <? severity_order (severity b))
  || ((severity_order (severity a) =? severity_order (severity b))
      && (d_observed_at b <? d_observed_at a)).

(** [get_what_changed]; [now] is [datetime.utcnow()] and [days] a number of
    days. *)
Definition get_what_changed (store : list SignalEvent) (now : datetime)
    (player : UUID) (days : Z) : list SignalDelta :=
  let cutoff := now - days * 86400000000 in
  let d := group_by_type (window_signals store player cutoff) in
  firstn 10 (stable_sort delta_before (changed_deltas d ++ appeared_deltas d)).

End Detector.

(** *** Vocabulary for stating what the detector does *)

(** The rows of one signal type, in the order of the query result. *)
Definition rows_of (t : SignalTypeEnum) (l : list SignalEvent)
  : list SignalEvent :=
  List.filter (fun s => SignalTypeEnum_eqb (signal_type s) t) l.

(** What [by_type] holds after the grouping loop has consumed [l]. *)
Definition grouped (d : list (SignalTypeEnum * list SignalEvent))
    (l : list SignalEvent) : Prop :=
  NoDup (map fst d) /\
  forall t g, In (t, g) d <-> g = rows_of t l /\ g <> [].

(** The eight signal types that have an entry in [CHANGE_THRESHOLDS]. *)
Definition configured_types : list SignalTypeEnum :=
  [CONTRACT_MONTHS_REMAINING; MARKET_VALUE; INJURIES_STATUS;
   SOCIAL_MENTION_VELOCITY; USER_ATTENTION_VELOCITY; GOALS_LAST_10;
   ASSISTS_LAST_10; CLUB_LEAGUE_POSITION].

Definition configured (t : SignalTypeEnum) : bool :=
  match CHANGE_THRESHOLDS t with Some _ => true | None => false end.

(** The deltas of one signal type in a result. *)
Definition deltas_of (t : SignalTypeEnum) (result : list SignalDelta)
  : list SignalDelta :=
  List.filter (fun d => SignalTypeEnum_eqb (d_signal_type d) t) result.

End Api.

(** ** Scenarios

    Concrete stores used to exercise the definitions. *)

Module Scenario.

(** [datetime(2025, 1, day, hour)] in microseconds since the epoch. *)
Definition jan2025 (day hour : Z) : datetime :=
  ((20088 + day) * 24 + hour) * 3600000000.

Definition market_value_row (observed effective : datetime) (v : Numeric)
  : SignalRow :=
  {| sr_entity_type := "player"; sr_player_id := Some 7%N;
     sr_club_id := None; sr_signal_type := "market_value";
     sr_value_num := Some v; sr_value_text := None;
     sr_source := "transfermarkt"; sr_confidence := 100;
     sr_observed_at := observed; sr_effective_from := effective;
     sr_effective_to := None |}.

(** A valuation of 50M effective and observed on 10 January, and a correction
    to 100M with the same [effective_from], observed on 12 January. *)
Definition S1 : SignalRow :=
  market_value_row (jan2025 10 12) (jan2025 10 12) 50000000000000.
Definition S2 : SignalRow :=
  market_value_row (jan2025 12 12) (jan2025 10 12) 100000000000000.
Definition corrected_store : SignalStore := [S1; S2].

(** The same correction when it is only observed on 20 January. *)
Definition S2_late : Api.SignalEvent :=
  {| Api.id := 2%N; Api.entity_type := Api.PLAYER; Api.player_id := Some 7%N;
     Api.club_id := None; Api.signal_type := Api.MARKET_VALUE;
     Api.value_json := None; Api.value_num := Some 100000000000000;
     Api.value_text := None; Api.observed_at := jan2025 20 12;
     Api.effective_from := jan2025 10 12; Api.effective_to := None |}.

(** Two in-window [injuries_status] rows of player 7: "doubtful" on
    10 January, "injured" on 12 January. *)
Definition injury_row (n : UUID) (day : Z) (status : string)
  : Api.SignalEvent :=
  {| Api.id := n; Api.entity_type := Api.PLAYER; Api.player_id := Some 7%N;
     Api.club_id := None; Api.signal_type := Api.INJURIES_STATUS;
     Api.value_json := None; Api.value_num := None;
     Api.value_text := Some status; Api.observed_at := jan2025 day 12;
     Api.effective_from := jan2025 day 12; Api.effective_to := None |}.

Definition injury_store : list Api.SignalEvent :=
  [injury_row 11%N 10 "doubtful"; injury_row 12%N 12 "injured"].

(** Stand-ins for the Python built-ins of the detector, for runs that never
    reach them. *)
Definition no_float (_ : string) : option float := None.
Definition no_text (_ : Numeric) : string := "".
Definition no_format (_ : float) : string := "".

(** Three views of player 7 in the day before 15 January 12:00: one at
    14 January 13:00, one exactly at the midpoint 15 January 00:00 and one at
    15 January 01:00. *)
Definition view (day hour : Z) : Signals.UserEvent :=
  {| Signals.ue_session_id := "s"; Signals.ue_event_type := "player_view";
     Signals.ue_player_id := Some 7%N; Signals.ue_club_id := None;
     Signals.ue_occurred_at := jan2025 day hour |}.

Definition views : list Signals.UserEvent :=
  [view 14 13; view 15 0; view 15 1].

Definition one_day : timedelta := 86400000000.

(** The attention row of player 7 written at 15 January 12:00. *)
Definition attention_row (v : Z) : SignalRow :=
  {| sr_entity_type := "player"; sr_player_id := Some 7%N;
     sr_club_id := None; sr_signal_type := "user_attention_velocity";
     sr_value_num := Some (v * 1000000); sr_value_text := None;
     sr_source := "tl_user_derived"; sr_confidence := 60;
     sr_observed_at := jan2025 15 12; sr_effective_from := jan2025 15 12;
     sr_effective_to := None |}.

(** The feature vector of a player with 12 contract months left and a
    mention velocity of 12, for a destination in the same league with a
    co-occurrence score of 20; nothing else is known. *)
Definition rumour_features : list (string * PyValue) :=
  [("age", PyNone); ("position_encoded", PyInt 7);
   ("market_value", PyNone); ("contract_months_remaining", PyFloat 12);
   ("goals_last_10", PyNone); ("assists_last_10", PyNone);
   ("minutes_last_5", PyNone); ("social_mention_velocity", PyFloat 12);
   ("user_attention_velocity", PyNone);
   ("to_club_tier", PyInt 1); ("to_club_league_position", PyNone);
   ("to_club_points_per_game", PyNone); ("to_club_net_spend_12m", PyNone);
   ("from_club_tier", PyInt 1); ("from_club_league_position", PyNone);
   ("from_club_points_per_game", PyNone);
   ("from_club_net_spend_12m", PyNone);
   ("same_country", PyFloat 0); ("same_league", PyFloat 1);
   ("tier_difference", PyInt 0);
   ("user_destination_cooccurrence", PyFloat 20)].

(** A store with one player, 7, at club 1, and the 21 other active clubs
    2 to 22; no competitions and no signals. *)
Definition plain_club (n : nat) : Club :=
  {| c_id := N.of_nat n; c_name := "club"; c_country := "England";
     c_competition_id := None; c_is_active := true |}.

Definition player7 : Player :=
  {| pl_id := 7%N; pl_name := "player"; pl_date_of_birth := None;
     pl_position := Some "ST"; pl_current_club_id := Some 1%N;
     pl_is_active := true |}.

Definition league_of_22 : Database :=
  {| players := [player7]; clubs := map plain_club (seq 1 22);
     competitions := []; signal_events := []; transfer_events := [];
     feature_snapshots := ∅ |}.

(** Two runs of the database's random ordering: one returns the rows in
    storage order, the other in reverse. *)
Definition forward : Features.Env :=
  {| Features.random_order := fun _ _ l => l;
     Features.uuid4 := fun i j => N.of_nat (1000 + 100 * i + j);
     Features.random_sample := fun _ population k => firstn k population |}.

Definition backward : Features.Env :=
  {| Features.random_order := fun _ _ l => rev l;
     Features.uuid4 := fun i j => N.of_nat (5000 + 100 * i + j);
     Features.random_sample :=
       fun _ population k => firstn k (rev population) |}.

(** The same player in a first-tier league of eight clubs, 1 to 8. *)
Definition premier : Competition :=
  {| comp_id := 100%N; comp_name := "league"; comp_country := "England";
     comp_tier := 1 |}.

Definition league_club (n : nat) : Club :=
  {| c_id := N.of_nat n; c_name := "club"; c_country := "England";
     c_competition_id := Some 100%N; c_is_active := true |}.

Definition one_league : Database :=
  {| players := [player7]; clubs := map league_club (seq 1 8);
     competitions := [premier]; signal_events := []; transfer_events := [];
     feature_snapshots := ∅ |}.

(** Player 7 at club 1, which plays in no competition, and the seven clubs
    2 to 8 of a third-tier league; no signals.  Here the league source finds
    no competition for the current club, the social and user-attention
    sources find no signal, and the constraint-fit source finds no club of
    tier 1 or 2: only the random source proposes clubs. *)
Definition third_division : Competition :=
  {| comp_id := 300%N; comp_name := "third division";
     comp_country := "England"; comp_tier := 3 |}.

Definition third_tier_club (n : nat) : Club :=
  {| c_id := N.of_nat n; c_name := "club"; c_country := "England";
     c_competition_id := Some 300%N; c_is_active := true |}.

Definition third_tier : Database :=
  {| players := [player7];
     clubs := plain_club 1 :: map third_tier_club (seq 2 7);
     competitions := [third_division]; signal_events := [];
     transfer_events := []; feature_snapshots := ∅ |}.

(** The league of eight clubs with the two valuations of player 7, and a
    third valuation, of 120M, only observed on 20 January. *)
Definition valued_league : Database :=
  with_signal_events one_league corrected_store.

Definition S3_late : SignalRow :=
  market_value_row (jan2025 20 12) (jan2025 11 12) 120000000000000.

(** A candidate source that finds nothing, and one that proposes club 3. *)
Definition no_source (_ : Database) (_ _ : UUID) (_ : datetime)
    (_ : Candidates.CandidateConfig) : list Candidates.CandidateClub := [].

Definition league_source (_ : Database) (_ _ : UUID) (_ : datetime)
    (_ : Candidates.CandidateConfig) : list Candidates.CandidateClub :=
  [ {| Candidates.club_id := 3%N; Candidates.source := Candidates.LEAGUE;
       Candidates.score := 0.8; Candidates.reason := "Top 4 in league" |} ].

(** The set saved for player 7 by a generation in which the league source
    proposed club 3, and the table that holds it. *)
Definition saved_set : Candidates.CandidateSet :=
  {| Candidates.cs_id := 900%N; Candidates.cs_from_club_id := 1%N;
     Candidates.cs_total_candidates := 1;
     Candidates.cs_league_candidates := 1;
     Candidates.cs_social_candidates := 0;
     Candidates.cs_user_attention_candidates := 0;
     Candidates.cs_constraint_fit_candidates := 0;
     Candidates.cs_random_candidates := 0;
     Candidates.cs_candidates_json :=
       league_source one_league 7%N 1%N (jan2025 15 12)
         Candidates.default_config;
     Candidates.cs_player_context_json :=
       {| Candidates.ctx_name := "player";
          Candidates.ctx_position := Some "ST";
          Candidates.ctx_club := Some "club"; Candidates.ctx_age := None;
          Candidates.ctx_market_value := None;
          Candidates.ctx_contract_months_remaining := None |};
     Candidates.cs_generation_version := "v1" |}.

Definition saved_sets : gmap (UUID * datetime * Z) Candidates.CandidateSet :=
  {[ (7%N, jan2025 15 12, 90) := saved_set ]}.

(** The league of eight clubs after player 7 moved from club 1 to club 2 on
    10 January 2025: the one transfer on record. *)
Definition january_move : TransferEvent :=
  {| te_player_id := 7%N; te_from_club_id := Some 1%N; te_to_club_id := 2%N;
     te_transfer_type := "permanent"; te_transfer_date := 20098;
     te_is_superseded := false |}.

Definition one_transfer : Database :=
  {| players := players one_league; clubs := clubs one_league;
     competitions := competitions one_league; signal_events := [];
     transfer_events := [january_move]; feature_snapshots := ∅ |}.

(** The default configuration asking for one random sample, and an
    ordering that agrees with the reverse of storage order on its first
    three rows only. *)
Definition one_random : Candidates.CandidateConfig :=
  {| Candidates.league_top_n := 8; Candidates.include_top_5_leagues := true;
     Candidates.social_mention_threshold := 2;
     Candidates.social_max_candidates := 5;
     Candidates.user_cooccurrence_threshold := 3;
     Candidates.user_max_candidates := 5;
     Candidates.constraint_max_candidates := 5;
     Candidates.wage_affordability_ratio := 3;
     Candidates.fee_affordability_ratio := 0.3;
     Candidates.random_candidates := 1;
     Candidates.max_total_candidates := 20 |}.

Definition reversed_head (l : list UUID) : list UUID :=
  firstn 3 (rev l) ++ rev (skipn 3 (rev l)).

(** Stand-ins for what a training run takes from outside. *)
Definition no_digits (_ : Z) : string := "".
Definition never_fits (_ : list TrainingRow) (_ : string)
  : string + Train.Fitted := inl "unreachable".

End Scenario.

(** * Properties *)

(** ** Lists *)

Lemma firstn_In {A : Type} (n : nat) (l : list A) (x : A) :
  In x (firstn n l) -> In x l.
Proof.
  revert l. induction n as [|n IH]; intros [|y l]; simpl; try tauto.
  intros [->|H]; auto.
Qed.

Lemma filter_none {A : Type} (f : A -> bool) (l : list A) :
  (forall x, In x l -> f x = false) -> List.filter f l = [].
Proof.
  induction l as [|y l IH]; simpl; intros H; [reflexivity|].
  rewrite (H y) by auto. apply IH. auto.
Qed.

Lemma filter_all {A : Type} (f : A -> bool) (l : list A) :
  (forall x, In x l -> f x = true) -> List.filter f l = l.
Proof.
  induction l as [|y l IH]; simpl; intros H; [reflexivity|].
  rewrite (H y) by auto. f_equal. apply IH. auto.
Qed.

(** ** Stable sorting *)

Section SortFacts.
Context {A : Type} (before : A -> A -> bool).

Lemma insert_sorted_perm x l :
  Permutation (insert_sorted before x l) (x :: l).
Proof.
  induction l as [|y l IH]; simpl; [reflexivity|].
  destruct (before y x); [|reflexivity].
  rewrite IH. apply perm_swap.
Qed.

Lemma stable_sort_perm l : Permutation (stable_sort before l) l.
Proof.
  induction l as [|x l IH]; simpl; [reflexivity|].
  rewrite insert_sorted_perm. apply perm_skip, IH.
Qed.

Lemma stable_sort_In l x : In x (stable_sort before l) <-> In x l.
Proof.
  split; apply Permutation_in; [|symmetry]; apply stable_sort_perm.
Qed.

Lemma stable_sort_length l :
  List.length (stable_sort before l) = List.length l.
Proof. apply Permutation_length, stable_sort_perm. Qed.

Lemma filter_stable_sort_perm f l :
  Permutation (List.filter f (stable_sort before l)) (List.filter f l).
Proof.
  induction (stable_sort_perm l); simpl.
  - reflexivity.
  - destruct (f x); [apply perm_skip|]; assumption.
  - destruct (f x), (f y); try reflexivity. apply perm_swap.
  - etransitivity; eassumption.
Qed.

(** A stable sort by a comparison that decides a transitive order returns
    a list sorted for that order. *)
Section Sortedness.
Variable R : A -> A -> Prop.
Hypothesis before_R : forall y x, before y x = true -> R y x.
Hypothesis not_before_R : forall y x, before y x = false -> R x y.
Hypothesis R_trans : forall x y z, R x y -> R y z -> R x z.

Lemma insert_sorted_sorted x l :
  StronglySorted R l -> StronglySorted R (insert_sorted before x l).
Proof.
  induction 1 as [|y l Hl IH Hy]; cbn; [repeat constructor|].
  destruct (before y x) eqn:E.
  - constructor; [exact IH|]. apply Forall_forall. intros z Hz.
    apply (Permutation_in _ (insert_sorted_perm x l)) in Hz.
    destruct Hz as [<-|Hz]; [apply before_R, E|].
    rewrite Forall_forall in Hy. apply Hy, Hz.
  - constructor; [constructor; assumption|].
    constructor; [apply not_before_R, E|].
    apply Forall_forall. intros z Hz. rewrite Forall_forall in Hy.
    apply (R_trans _ y); [apply not_before_R, E|apply Hy, Hz].
Qed.

Lemma stable_sort_sorted l : StronglySorted R (stable_sort before l).
Proof.
  induction l as [|x l IH]; cbn; [constructor|].
  apply insert_sorted_sorted, IH.
Qed.

End Sortedness.

End SortFacts.

Lemma firstn_sorted {A : Type} (R : A -> A -> Prop) (n : nat) (l : list A) :
  StronglySorted R l -> StronglySorted R (firstn n l).
Proof.
  intros H. revert n. induction H as [|x l Hl IH Hx]; intros [|n]; cbn;
    try constructor; [apply IH|].
  apply Forall_forall. intros z Hz. apply firstn_In in Hz.
  rewrite Forall_forall in Hx. apply Hx, Hz.
Qed.

(** ** Time-travel guards *)

Section StrictRead.
Import TimeGuards.

Lemma first_ordered_nil_iff rows : first_ordered rows = None <-> rows = [].
Proof.
  destruct rows as [|r rest]; simpl; [tauto|].
  split; [|discriminate].
  destruct (first_ordered rest) as [b|]; [destruct (sorts_before b r)|]; discriminate.
Qed.

Lemma first_ordered_In rows r : first_ordered rows = Some r -> In r rows.
Proof.
  revert r. induction rows as [|x rest IH]; simpl; intros r H; [discriminate|].
  destruct (first_ordered rest) as [b|] eqn:E.
  - destruct (sorts_before b x); inversion H; subst; auto.
  - inversion H; auto.
Qed.

Lemma sorts_before_true r best :
  sorts_before r best = true <->
  sr_effective_from best < sr_effective_from r
  \/ (sr_effective_from r = sr_effective_from best
      /\ sr_observed_at best < sr_observed_at r).
Proof.
  unfold sorts_before.
  rewrite orb_true_iff, andb_true_iff, !Z.ltb_lt, Z.eqb_eq. tauto.
Qed.

Lemma sorts_before_false r best :
  sorts_before r best = false <->
  sr_effective_from r < sr_effective_from best
  \/ (sr_effective_from r = sr_effective_from best
      /\ sr_observed_at r <= sr_observed_at best).
Proof.
  rewrite <- not_true_iff_false, sorts_before_true. lia.
Qed.

(** Nothing in the result sorts strictly before the row that is returned. *)
Lemma first_ordered_top rows r :
  first_ordered rows = Some r ->
  forall r', In r' rows -> sorts_before r' r = false.
Proof.
  revert r. induction rows as [|x rest IH]; simpl; intros r H r' Hin; [tauto|].
  destruct (first_ordered rest) as [b|] eqn:E.
  - specialize (IH b eq_refl).
    destruct (sorts_before b x) eqn:Hb; inversion H; subst; clear H;
      destruct Hin as [->|Hin].
    + apply sorts_before_true in Hb. apply sorts_before_false. lia.
    + auto.
    + apply sorts_before_false. lia.
    + specialize (IH r' Hin).
      apply sorts_before_false in Hb, IH. apply sorts_before_false. lia.
  - apply first_ordered_nil_iff in E. subst rest. inversion H; subst.
    destruct Hin as [->|[]]. apply sorts_before_false. lia.
Qed.

Lemma select_latest_None store p :
  select_latest store p = None <-> (forall r, In r store -> p r = false).
Proof.
  unfold select_latest. rewrite first_ordered_nil_iff. split.
  - intros E r Hin. destruct (p r) eqn:Hp; [|reflexivity].
    assert (In r (List.filter p store)) as Hf by (apply filter_In; auto).
    rewrite E in Hf. destruct Hf.
  - intros H. destruct (List.filter p store) as [|r l] eqn:E; [reflexivity|].
    assert (In r (List.filter p store)) as Hf by (rewrite E; left; reflexivity).
    apply filter_In in Hf. destruct Hf as [Hin Hp].
    rewrite (H r Hin) in Hp. discriminate.
Qed.

Lemma select_latest_Some store p r :
  select_latest store p = Some r ->
  In r store /\ p r = true /\
  forall r', In r' store -> p r' = true -> sorts_before r' r = false.
Proof.
  unfold select_latest. intros H.
  pose proof (first_ordered_In _ _ H) as Hin. apply filter_In in Hin.
  destruct Hin as [Hin Hp]. repeat split; auto.
  intros r' Hin' Hp'. apply (first_ordered_top _ _ H). apply filter_In. auto.
Qed.

(** A row the [WHERE] clause rejects can sit anywhere in the table. *)
Lemma select_latest_insert_rejected l1 l2 x p :
  p x = false -> select_latest (l1 ++ x :: l2) p = select_latest (l1 ++ l2) p.
Proof.
  intros Hx. unfold select_latest. rewrite !List.filter_app. simpl. rewrite Hx.
  reflexivity.
Qed.

Lemma time_ok_spec as_of r :
  time_ok as_of r = true <->
  sr_observed_at r <= as_of /\ sr_effective_from r <= as_of /\
  (sr_effective_to r = None \/ exists t, sr_effective_to r = Some t /\ as_of < t).
Proof.
  unfold time_ok. rewrite !andb_true_iff, !Z.leb_le.
  destruct (sr_effective_to r) as [t|].
  - rewrite Z.ltb_lt. split.
    + intros [[? ?] ?]. repeat split; auto. right. exists t. auto.
    + intros (? & ? & [E|[t' [E ?]]]); [discriminate|]. inversion E; subst. auto.
  - split; [intros [[? ?] _]; auto | intros (? & ? & _); auto].
Qed.

(** Every branch of the [WHERE] clause implies the three time predicates. *)
Lemma where_clause_time_ok et eid st T pid cid p r :
  where_clause et eid st T pid cid = Some p -> p r = true -> time_ok T r = true.
Proof.
  unfold where_clause. intros H Hp.
  destruct (String.eqb et "player"); [|destruct (String.eqb et "club");
    [|destruct (String.eqb et "pair"); [|discriminate]]];
    inversion H; subst; clear H;
    repeat (apply andb_true_iff in Hp; destruct Hp as [Hp ?]); assumption.
Qed.


(** C10.  When at least one row passes the filters at [T], the read returns
    the value of a passing row [r] that is first under
    [ORDER BY effective_from DESC, observed_at DESC]: every passing row has
    [effective_from] at most that of [r], and every passing row that ties with
    [r] on [effective_from] has [observed_at] at most that of [r]; so among
    rows tied on the greatest [effective_from] the latest observed one wins. *)
Theorem latest_signal_tie_break
    (store : SignalStore) (entity_type : string) (entity_id : option UUID)
    (signal_type : string) (T : datetime) (player_id club_id : option UUID)
    (p : SignalRow -> bool) (r0 : SignalRow) :
  where_clause entity_type entity_id signal_type T player_id club_id = Some p ->
  In r0 store -> p r0 = true ->
  exists r,
    select_latest store p = Some r /\ In r store /\ p r = true /\
    get_signal_value_strict store entity_type entity_id signal_type T
      player_id club_id = option_map float_of_Numeric (sr_value_num r) /\
    (forall r', In r' store -> p r' = true ->
       sr_effective_from r' <= sr_effective_from r /\
       (sr_effective_from r' = sr_effective_from r ->
        sr_observed_at r' <= sr_observed_at r)).
Proof.
  intros Hw Hin0 Hp0.
  destruct (select_latest store p) as [r|] eqn:Hs.
  - destruct (select_latest_Some _ _ _ Hs) as (Hin & Hp & Htop).
    exists r. repeat split; auto.
    + unfold get_signal_value_strict. rewrite Hw, Hs.
      destruct (sr_value_num r); reflexivity.
    + specialize (Htop r' H H0). apply sorts_before_false in Htop. lia.
    + intros E. specialize (Htop r' H H0). apply sorts_before_false in Htop. lia.
  - rewrite select_latest_None in Hs. rewrite (Hs r0 Hin0) in Hp0. discriminate.
Qed.

Lemma latest_signal_tie_break_witness :
  exists r,
    select_latest Scenario.corrected_store
      (fun r => sql_eq (sr_player_id r) (Some 7%N)
                && String.eqb (sr_signal_type r) "market_value"
                && time_ok (Scenario.jan2025 15 12) r) = Some r /\
    In r Scenario.corrected_store /\
    (sql_eq (sr_player_id r) (Some 7%N)
     && String.eqb (sr_signal_type r) "market_value"
     && time_ok (Scenario.jan2025 15 12) r) = true /\
    get_signal_value_strict Scenario.corrected_store "player" (Some 7%N)
      "market_value" (Scenario.jan2025 15 12) None None
    = option_map float_of_Numeric (sr_value_num r) /\
    (forall r', In r' Scenario.corrected_store ->
       (sql_eq (sr_player_id r') (Some 7%N)
        && String.eqb (sr_signal_type r') "market_value"
        && time_ok (Scenario.jan2025 15 12) r') = true ->
       sr_effective_from r' <= sr_effective_from r /\
       (sr_effective_from r' = sr_effective_from r ->
        sr_observed_at r' <= sr_observed_at r)).
Proof.
  apply (latest_signal_tie_break Scenario.corrected_store "player" (Some 7%N)
           "market_value" (Scenario.jan2025 15 12) None None _ Scenario.S1).
  - reflexivity.
  - left. reflexivity.
  - reflexivity.
Defined.

(** In the scenario the correction, observed by the as-of time, is the row the
    read returns. *)
Example correction_wins :
  get_signal_value_strict Scenario.corrected_store "player" (Some 7%N)
    "market_value" (Scenario.jan2025 15 12) None None
  = Some 100000000%float.
Proof. vm_compute. reflexivity. Qed.

(** C3 (T2).  [validate_training_label_time_travel] returns normally exactly
    when [feature_date < transfer_date]; it raises [DataLeakageError] when the
    two dates are equal and when the feature date is the later one. *)
Theorem validate_training_label_iff
    (transfer_date feature_date : datetime) (horizon_days : Z)
    (player_id : string) :
  let run :=
    validate_training_label_time_travel transfer_date feature_date
      horizon_days player_id in
  (run = inr tt <-> feature_date < transfer_date)
  /\ (feature_date = transfer_date -> run = inl DataLeakageError)
  /\ (transfer_date < feature_date -> run = inl DataLeakageError)
  /\ (run = inl DataLeakageError <-> transfer_date <= feature_date).
Proof.
  intros run. subst run. unfold validate_training_label_time_travel.
  destruct (Z.leb_spec transfer_date feature_date); repeat split;
    intros; try reflexivity; try discriminate; try lia.
Qed.

End StrictRead.

(** ** The player signal-history reader *)

Section PlayerSignals.
Import Api.

Lemma SignalTypeEnum_eqb_eq a b : SignalTypeEnum_eqb a b = true <-> a = b.
Proof.
  unfold SignalTypeEnum_eqb. rewrite Z.eqb_eq. split; [|intros ->; reflexivity].
  destruct a, b; simpl; intros H; try reflexivity; discriminate.
Qed.

Lemma SignalTypeEnum_eqb_refl a : SignalTypeEnum_eqb a a = true.
Proof. apply SignalTypeEnum_eqb_eq. reflexivity. Qed.

Lemma SignalTypeEnum_eqb_neq a b : SignalTypeEnum_eqb a b = false <-> a <> b.
Proof. rewrite <- not_true_iff_false, SignalTypeEnum_eqb_eq. tauto. Qed.

(** Every row the reader returns for an [as_of] belongs to the player and has
    [effective_from <= as_of]; nothing constrains its [observed_at]. *)
Lemma get_player_signals_effective players signals player T st limit rows s :
  get_player_signals players signals player (Some T) st limit = inr rows ->
  In s rows ->
  In s signals /\ player_id s = Some player /\ entity_type s = PLAYER
  /\ effective_from s <= T.
Proof.
  unfold get_player_signals. destruct (existsb (N.eqb player) players); [|discriminate].
  intros H Hin. inversion H; subst rows; clear H.
  apply firstn_In in Hin. apply stable_sort_In in Hin.
  apply filter_In in Hin. destruct Hin as [Hin Hc]. unfold signal_conditions in Hc.
  repeat (apply andb_true_iff in Hc; destruct Hc as [Hc ?]).
  repeat split; auto.
  - unfold sql_eq in Hc. destruct (player_id s) as [q|]; [|discriminate].
    apply N.eqb_eq in Hc. congruence.
  - destruct (entity_type s); simpl in *; congruence.
  - apply Z.leb_le. assumption.
Qed.

(** C2, as the code has it.  An unknown player is a 404.  Otherwise, for an
    [as_of] of [T], the rows returned are at most [limit], ordered by
    [effective_from] descending, and each is a stored PLAYER row of the
    player with [effective_from <= T] and of the requested signal type when
    one is given; [observed_at] is not filtered, so every such stored row is
    returned, whenever it was observed, when at most [limit] rows qualify. *)
Theorem player_signals_filter_effective_from
    (players : list UUID) (signals : list SignalEvent) (player : UUID)
    (T : datetime) (st : option SignalTypeEnum) (limit : nat) :
  (existsb (N.eqb player) players = false ->
   get_player_signals players signals player (Some T) st limit
   = inl HTTP_404_NOT_FOUND)
  /\ forall rows,
       get_player_signals players signals player (Some T) st limit = inr rows ->
       (List.length rows <= limit)%nat
       /\ StronglySorted (fun a b => effective_from b <= effective_from a) rows
       /\ (forall s, In s rows ->
             In s signals /\ player_id s = Some player
             /\ entity_type s = PLAYER /\ effective_from s <= T
             /\ forall t, st = Some t -> signal_type s = t)
       /\ (forall s, In s signals -> player_id s = Some player ->
             entity_type s = PLAYER -> effective_from s <= T ->
             (forall t, st = Some t -> signal_type s = t) ->
             (List.length
                (List.filter (signal_conditions player (Some T) st) signals)
              <= limit)%nat ->
             In s rows).
Proof.
  unfold get_player_signals. split; [intros ->; reflexivity|].
  destruct (existsb (N.eqb player) players); [|discriminate].
  intros rows E. inversion E; subst rows; clear E.
  set (sorted := stable_sort _ _). repeat split.
  - rewrite length_firstn. lia.
  - apply firstn_sorted. subst sorted.
    apply stable_sort_sorted; intros; rewrite ?Z.ltb_lt, ?Z.ltb_ge in *; lia.
  - apply firstn_In in H. apply stable_sort_In in H. apply filter_In in H. tauto.
  - apply firstn_In in H. apply stable_sort_In in H. apply filter_In in H.
    destruct H as [_ Hc]. unfold signal_conditions in Hc.
    repeat (apply andb_true_iff in Hc; destruct Hc as [Hc ?]).
    unfold sql_eq in Hc. destruct (player_id s) as [q|]; [|discriminate].
    apply N.eqb_eq in Hc. congruence.
  - apply firstn_In in H. apply stable_sort_In in H. apply filter_In in H.
    destruct H as [_ Hc]. unfold signal_conditions in Hc.
    repeat (apply andb_true_iff in Hc; destruct Hc as [Hc ?]).
    destruct (entity_type s); cbn in *; congruence.
  - apply firstn_In in H. apply stable_sort_In in H. apply filter_In in H.
    destruct H as [_ Hc]. unfold signal_conditions in Hc.
    repeat (apply andb_true_iff in Hc; destruct Hc as [Hc ?]).
    apply Z.leb_le. assumption.
  - intros t ->. apply firstn_In in H. apply stable_sort_In in H.
    apply filter_In in H. destruct H as [_ Hc]. unfold signal_conditions in Hc.
    repeat (apply andb_true_iff in Hc; destruct Hc as [Hc ?]).
    apply SignalTypeEnum_eqb_eq. assumption.
  - intros s Hin Hp He HT Hst Hlen. rewrite firstn_all2.
    + subst sorted. apply stable_sort_In, filter_In. split; [exact Hin|].
      unfold signal_conditions. rewrite Hp, He. cbn [sql_eq EntityType_eqb].
      rewrite N.eqb_refl. cbn [andb]. apply andb_true_iff. split.
      * apply Z.leb_le, HT.
      * destruct st as [t|]; [|reflexivity].
        apply SignalTypeEnum_eqb_eq, Hst. reflexivity.
    + subst sorted. rewrite stable_sort_length. exact Hlen.
Qed.

(** C2, the claim as stated fails.  The reader called with [as_of] =
    15 January returns the correction that was observed on 20 January only:
    the query filters on [effective_from] and never on [observed_at]. *)
Theorem player_signals_ignore_observed_at :
  get_player_signals [7%N] [Scenario.S2_late] 7%N
    (Some (Scenario.jan2025 15 12)) None 100 = inr [Scenario.S2_late]
  /\ effective_from Scenario.S2_late <= Scenario.jan2025 15 12
  /\ Scenario.jan2025 15 12 < observed_at Scenario.S2_late.
Proof. repeat split; vm_compute; congruence. Qed.

End PlayerSignals.

(** ** The what-changed detector *)

Section WhatChanged.
Import Api.

Lemma rows_of_snoc t l s :
  rows_of t (l ++ [s])
  = rows_of t l ++ (if SignalTypeEnum_eqb (signal_type s) t then [s] else []).
Proof. unfold rows_of. rewrite List.filter_app. reflexivity. Qed.

Lemma by_type_add_keys s d t :
  In t (map fst (by_type_add s d)) <-> In t (map fst d) \/ t = signal_type s.
Proof.
  induction d as [|[k g] d IH]; simpl.
  - intuition congruence.
  - destruct (SignalTypeEnum_eqb k (signal_type s)) eqn:E; simpl.
    + apply SignalTypeEnum_eqb_eq in E. subst k. intuition congruence.
    + rewrite IH. tauto.
Qed.

Lemma by_type_add_NoDup s d :
  NoDup (map fst d) -> NoDup (map fst (by_type_add s d)).
Proof.
  induction d as [|[k g] d IH]; simpl; intros H.
  - constructor; [intros []|constructor].
  - inversion H as [|? ? Hk Hd]; subst.
    destruct (SignalTypeEnum_eqb k (signal_type s)) eqn:E; simpl.
    + constructor; assumption.
    + constructor; [|auto]. rewrite by_type_add_keys.
      apply SignalTypeEnum_eqb_neq in E. intros [?|?]; [tauto|congruence].
Qed.

Lemma by_type_add_In s d t g :
  NoDup (map fst d) ->
  In (t, g) (by_type_add s d) <->
  (t <> signal_type s /\ In (t, g) d)
  \/ (t = signal_type s /\
      ((exists g0, In (t, g0) d /\ g = g0 ++ [s])
       \/ (~ In t (map fst d) /\ g = [s]))).
Proof.
  induction d as [|[k g1] d IH]; simpl; intros Hnd.
  - split.
    + intros [E|[]]. inversion E; subst. right. split; [reflexivity|].
      right. split; [tauto|reflexivity].
    + intros [[_ []]|[-> [[g0 [[] _]]|[_ ->]]]]. left. reflexivity.
  - inversion Hnd as [|? ? Hk Hd]; subst. specialize (IH Hd).
    destruct (SignalTypeEnum_eqb k (signal_type s)) eqn:E; simpl.
    + apply SignalTypeEnum_eqb_eq in E. subst k. split.
      * intros [H|H].
        -- inversion H; subst. right. split; [reflexivity|]. left.
           exists g1. split; [left; reflexivity|reflexivity].
        -- left. split; [|right; exact H].
           intros ->. apply Hk. apply (in_map fst) in H. exact H.
      * intros [[Hne [H|H]]|[-> [[g0 [[H|H] ->]]|[Hn _]]]].
        -- inversion H; subst. congruence.
        -- right. exact H.
        -- inversion H; subst. left. reflexivity.
        -- exfalso. apply Hk. apply (in_map fst) in H. exact H.
        -- exfalso. apply Hn. left. reflexivity.
    + apply SignalTypeEnum_eqb_neq in E. rewrite IH. split.
      * intros [H|[[Hne H]|[-> [[g0 [H ->]]|[Hn ->]]]]].
        -- inversion H; subst. left. split; [congruence|left; reflexivity].
        -- left. split; [exact Hne|right; exact H].
        -- right. split; [reflexivity|]. left. exists g0.
           split; [right; exact H|reflexivity].
        -- right. split; [reflexivity|]. right. split; [|reflexivity].
           intros [?|?]; [congruence|tauto].
      * intros [[Hne [H|H]]|[-> [[g0 [[H|H] ->]]|[Hn ->]]]].
        -- left. exact H.
        -- right. left. split; assumption.
        -- inversion H; subst. congruence.
        -- right. right. split; [reflexivity|]. left. exists g0. split; auto.
        -- right. right. split; [reflexivity|]. right. split; [tauto|reflexivity].
Qed.

Lemma grouped_add d l s :
  grouped d l -> grouped (by_type_add s d) (l ++ [s]).
Proof.
  intros [Hnd Hd]. split; [apply by_type_add_NoDup, Hnd|].
  intros t g. rewrite (by_type_add_In _ _ _ _ Hnd), rows_of_snoc. split.
  - intros [[Hne H]|[-> [[g0 [H ->]]|[Hn ->]]]].
    + apply Hd in H. destruct H as [-> Hg].
      apply not_eq_sym, SignalTypeEnum_eqb_neq in Hne. rewrite Hne, app_nil_r.
      split; [reflexivity|exact Hg].
    + apply Hd in H. destruct H as [-> Hg]. rewrite SignalTypeEnum_eqb_refl.
      split; [reflexivity|]. intros E. apply app_eq_nil in E. destruct E. discriminate.
    + rewrite SignalTypeEnum_eqb_refl.
      destruct (rows_of (signal_type s) l) as [|x r] eqn:Er.
      * split; [reflexivity|discriminate].
      * exfalso. apply Hn. apply (in_map fst _ (signal_type s, x :: r)).
        apply Hd. split; [symmetry; exact Er|discriminate].
  - intros [-> Hg].
    destruct (SignalTypeEnum_eqb (signal_type s) t) eqn:E.
    + apply SignalTypeEnum_eqb_eq in E. subst t. right. split; [reflexivity|].
      destruct (rows_of (signal_type s) l) as [|x r] eqn:Er.
      * right. split; [|reflexivity]. intros Hin.
        apply in_map_iff in Hin. destruct Hin as [[k g] [Hk Hin]]. simpl in Hk.
        subst k. apply Hd in Hin. destruct Hin as [-> Hne]. congruence.
      * left. exists (x :: r). split; [|reflexivity].
        apply Hd. split; [symmetry; exact Er|discriminate].
    + rewrite app_nil_r in *. left. apply SignalTypeEnum_eqb_neq in E.
      split; [congruence|]. apply Hd. split; [reflexivity|exact Hg].
Qed.

Lemma group_by_type_grouped l : grouped (group_by_type l) l.
Proof.
  unfold group_by_type.
  assert (forall l2 d l1, grouped d l1 ->
            grouped (fold_left (fun d s => by_type_add s d) l2 d) (l1 ++ l2)) as H.
  { induction l2 as [|s l2 IH]; simpl; intros d l1 Hg.
    - rewrite app_nil_r. exact Hg.
    - replace (l1 ++ s :: l2) with ((l1 ++ [s]) ++ l2)
        by (rewrite <- app_assoc; reflexivity).
      apply IH, grouped_add, Hg. }
  apply (H l [] []). split; [constructor|].
  intros t g. simpl. split; [tauto|]. intros [-> Hne]. apply Hne. reflexivity.
Qed.

(** Entries of a dictionary with distinct keys contribute disjoint parts to
    a [flat_map] whose outputs carry the key of their entry. *)
Section Keyed.
Context {B : Type} (F : SignalTypeEnum * list SignalEvent -> list B)
  (key : B -> SignalTypeEnum)
  (HF : forall k g x, In x (F (k, g)) -> key x = k).

Lemma flat_map_foreign_key d t :
  ~ In t (map fst d) ->
  List.filter (fun x => SignalTypeEnum_eqb (key x) t) (flat_map F d) = [].
Proof.
  intros Hn. apply filter_none. intros x Hx.
  apply in_flat_map in Hx. destruct Hx as [[k g] [Hin Hx]].
  apply HF in Hx. apply SignalTypeEnum_eqb_neq. intros E. apply Hn.
  rewrite <- E, Hx. apply (in_map fst _ _ Hin).
Qed.

Lemma flat_map_own_key d t g :
  NoDup (map fst d) -> In (t, g) d ->
  List.filter (fun x => SignalTypeEnum_eqb (key x) t) (flat_map F d) = F (t, g).
Proof.
  induction d as [|[k g1] d IH]; simpl; intros Hnd Hin; [tauto|].
  inversion Hnd as [|? ? Hk Hd]; subst. rewrite List.filter_app.
  destruct Hin as [E|Hin].
  - inversion E; subst. rewrite flat_map_foreign_key by exact Hk.
    rewrite app_nil_r. apply filter_all. intros x Hx.
    apply SignalTypeEnum_eqb_eq. eapply HF, Hx.
  - rewrite (IH Hd Hin). rewrite filter_none; [reflexivity|].
    intros x Hx. apply HF in Hx. apply SignalTypeEnum_eqb_neq. intros E.
    apply Hk. rewrite <- Hx, E. apply (in_map fst _ _ Hin).
Qed.

End Keyed.

Variable float_of_str : string -> option float.
Variable str_of_Decimal : Numeric -> string.
Variable str_of_json : string -> string.
Variable round1 : float -> float.
Variable format_1f : float -> string.

Local Abbreviation detect :=
  (_detect_delta float_of_str str_of_Decimal str_of_json round1 format_1f).
Local Abbreviation changed_of :=
  (Api.changed_of float_of_str str_of_Decimal str_of_json round1 format_1f).
Local Abbreviation changed :=
  (changed_deltas float_of_str str_of_Decimal str_of_json round1 format_1f).
Local Abbreviation delta :=
  (mk_delta float_of_str str_of_Decimal str_of_json format_1f).
Local Abbreviation what_changed :=
  (get_what_changed float_of_str str_of_Decimal str_of_json round1 format_1f).

Lemma detect_type t a b d : detect t a b = Some d -> d_signal_type d = t.
Proof.
  unfold _detect_delta. intros H.
  repeat match type of H with
         | match ?x with _ => _ end = Some _ => destruct x eqn:?; try discriminate
         | (if ?x then _ else _) = Some _ => destruct x eqn:?; try discriminate
         end; inversion H; reflexivity.
Qed.

Lemma detect_configured t a b d :
  detect t a b = Some d -> CHANGE_THRESHOLDS t <> None.
Proof.
  unfold _detect_delta. destruct (CHANGE_THRESHOLDS t); [discriminate|].
  intros H. discriminate.
Qed.

Lemma changed_of_type k g x : In x (changed_of (k, g)) -> d_signal_type x = k.
Proof.
  unfold changed_of. simpl. destruct g as [|a [|b g]]; simpl; try tauto.
  destruct (detect k a _) eqn:E; simpl; [|tauto].
  intros [<-|[]]. eapply detect_type, E.
Qed.

Lemma appeared_of_type k g x : In x (appeared_of (k, g)) -> d_signal_type x = k.
Proof.
  unfold appeared_of. simpl. destruct g as [|a [|b g]]; simpl; try tauto.
  destruct (SignalTypeEnum_eqb k INJURIES_STATUS); [|simpl; tauto].
  destruct (value_text a) as [v|]; [|simpl; tauto].
  destruct (negb (String.eqb v "") && negb (String.eqb v "fit")); simpl; [|tauto].
  intros [<-|[]]. reflexivity.
Qed.

Lemma configured_In t : configured t = true -> In t configured_types.
Proof. destruct t; simpl; intros H; try discriminate; tauto. Qed.

(** An entry yields at most one delta over both loops, and none unless its
    type is configured. *)
Lemma entry_deltas_le e :
  (List.length (changed_of e) + List.length (appeared_of e)
   <= if configured (fst e) then 1 else 0)%nat.
Proof.
  destruct e as [k g]. unfold changed_of, appeared_of, configured. simpl.
  destruct g as [|a [|b g]]; simpl.
  - destruct (CHANGE_THRESHOLDS k); lia.
  - destruct (SignalTypeEnum_eqb k INJURIES_STATUS) eqn:E.
    + apply SignalTypeEnum_eqb_eq in E. subst k. simpl.
      destruct (value_text a) as [v|]; simpl; [|lia].
      destruct (negb (String.eqb v "") && negb (String.eqb v "fit")); simpl; lia.
    + destruct (CHANGE_THRESHOLDS k); simpl; lia.
  - destruct (detect k a _) eqn:E; simpl.
    + apply detect_configured in E. destruct (CHANGE_THRESHOLDS k); [lia|congruence].
    + destruct (CHANGE_THRESHOLDS k); lia.
Qed.

(** At most eight deltas are ever produced, so [deltas[:10]] drops nothing. *)
Lemma deltas_le_8 d :
  NoDup (map fst d) ->
  (List.length (changed d ++ appeared_deltas d) <= 8)%nat.
Proof.
  intros Hnd. unfold changed_deltas, appeared_deltas. rewrite length_app.
  assert (List.length (flat_map changed_of d) + List.length (flat_map appeared_of d)
          <= List.length (List.filter configured (map fst d)))%nat as H.
  { clear Hnd. induction d as [|e d IH]; simpl; [lia|].
    rewrite !length_app. pose proof (entry_deltas_le e) as He.
    destruct (configured (fst e)); simpl; lia. }
  etransitivity; [exact H|].
  change 8%nat with (List.length configured_types).
  apply NoDup_incl_length; [apply NoDup_filter, Hnd|].
  intros t Ht. apply filter_In in Ht. apply configured_In, Ht.
Qed.

(** The deltas of one signal type in the result are exactly what the
    [by_type] entry of that type contributes. *)
Lemma what_changed_deltas_of store now player days t g :
  rows_of t (window_signals store player (now - days * 86400000000)) = g ->
  g <> [] ->
  Permutation (deltas_of t (what_changed store now player days))
    (changed_of (t, g) ++ appeared_of (t, g)).
Proof.
  intros Hg Hne. unfold get_what_changed.
  set (l := window_signals store player (now - days * 86400000000)) in *.
  destruct (group_by_type_grouped l) as [Hnd Hd].
  rewrite firstn_all2
    by (rewrite stable_sort_length;
        etransitivity; [apply deltas_le_8, Hnd|repeat constructor]).
  unfold deltas_of. rewrite filter_stable_sort_perm, List.filter_app.
  assert (In (t, g) (group_by_type l)) as Hin by (apply Hd; auto).
  unfold changed_deltas, appeared_deltas.
  rewrite (flat_map_own_key _ d_signal_type changed_of_type _ _ _ Hnd Hin).
  rewrite (flat_map_own_key _ d_signal_type appeared_of_type _ _ _ Hnd Hin).
  reflexivity.
Qed.

Lemma last_snoc {A : Type} (l : list A) (x a b : A) :
  List.last (a :: l ++ [x]) b = x.
Proof.
  revert a. induction l as [|y l IH]; intros a; [reflexivity|].
  simpl in *. apply (IH y).
Qed.

(** C7, as the code has it.  For [injuries_status] with at least two in-window
    rows whose oldest and newest values differ, the result holds exactly one
    delta of that type, from the oldest to the newest value, with severity
    [info] when the new value is "fit" and [alert] otherwise (so a change
    from "fit" is an alert, and so is a change between two non-fit values);
    with exactly one in-window row whose text value is non-empty and not
    "fit", the result holds exactly one delta of that type, an alert
    describing the new state. *)
Theorem what_changed_injuries
    (store : list SignalEvent) (now : datetime) (player : UUID) (days : Z) :
  let rows :=
    rows_of INJURIES_STATUS
      (window_signals store player (now - days * 86400000000)) in
  let result := what_changed store now player days in
  (forall oldest mid newest old_val new_val,
     rows = oldest :: mid ++ [newest] ->
     _get_signal_value oldest = Some old_val ->
     _get_signal_value newest = Some new_val ->
     SignalValue_eqb old_val new_val = false ->
     deltas_of INJURIES_STATUS result
     = [ {| d_signal_type := INJURIES_STATUS;
            description :=
              ("Injury status changed to: "
                 ++ format_value str_of_Decimal str_of_json new_val)%string;
            old_value := Some old_val;
            new_value := Some new_val;
            change_percent := None;
            severity :=
              if SignalValue_eqb new_val (VText "fit") then info else alert;
            d_observed_at := observed_at newest |} ])
  /\ (forall signal value,
        rows = [signal] ->
        value_text signal = Some value ->
        value <> "" -> value <> "fit" ->
        deltas_of INJURIES_STATUS result
        = [ {| d_signal_type := INJURIES_STATUS;
               description := ("New injury status: " ++ value)%string;
               old_value := None;
               new_value := Some (VText value);
               change_percent := None;
               severity := alert;
               d_observed_at := observed_at signal |} ]).
Proof.
  intros rows result. subst rows result. split.
  - intros oldest mid newest old_val new_val Hrows Ho Hn Hneq.
    apply Permutation_length_1_inv. symmetry.
    rewrite (what_changed_deltas_of _ _ _ _ _ _ Hrows) by discriminate.
    unfold Api.changed_of, appeared_of. simpl snd. simpl fst.
    pose proof (last_snoc mid newest oldest oldest) as Hlast.
    destruct mid as [|m mid]; simpl in Hlast |- *; rewrite ?Hlast;
      unfold _detect_delta; simpl CHANGE_THRESHOLDS; rewrite Ho, Hn, Hneq;
      reflexivity.
  - intros signal value Hrows Hv Hne Hfit.
    apply Permutation_length_1_inv. symmetry.
    rewrite (what_changed_deltas_of _ _ _ _ _ _ Hrows) by discriminate.
    unfold Api.changed_of, appeared_of. simpl. rewrite Hv.
    apply String.eqb_neq in Hne, Hfit. rewrite Hne, Hfit. reflexivity.
Qed.

End WhatChanged.

(** C7, the claim as stated fails: a transition between two non-fit values,
    "doubtful" then "injured", is reported with severity [alert], not [info]. *)
Lemma what_changed_nonfit_transition_is_alert :
  exists d,
    Api.get_what_changed Scenario.no_float Scenario.no_text (fun j => j)
      (fun x => x) Scenario.no_format Scenario.injury_store
      (Scenario.jan2025 15 12) 7%N 7 = [d]
    /\ Api.old_value d = Some (Api.VText "doubtful")
    /\ Api.new_value d = Some (Api.VText "injured")
    /\ Api.severity d = Api.alert
    /\ Api.severity d <> Api.info.
Proof.
  eexists. split; [vm_compute; reflexivity|].
  repeat split; try reflexivity. discriminate.
Qed.

(** ** Signal derivation *)

Section AttentionVelocity.
Import Signals.

Lemma timedelta_half_bounds (w : timedelta) :
  0 <= w -> 0 <= timedelta_half w <= w.
Proof.
  intros Hw. unfold timedelta_half.
  pose proof (Z.div_mod w 2 ltac:(lia)) as Hd.
  pose proof (Z.mod_pos_bound w 2 ltac:(lia)) as Hm.
  destruct (Z.even w) eqn:Ew; [lia|].
  assert (w mod 2 = 1) as H1.
  { rewrite <- Z.negb_odd in Ew. apply negb_false_iff in Ew.
    rewrite Zodd_mod in Ew. apply Z.eqb_eq in Ew. exact Ew. }
  destruct (Z.even (w / 2)); lia.
Qed.

Lemma filter_filter {A : Type} (f g : A -> bool) (l : list A) :
  List.filter f (List.filter g l) = List.filter (fun x => g x && f x) l.
Proof.
  induction l as [|x l IH]; simpl; [reflexivity|].
  destruct (g x); simpl; [destruct (f x)|]; rewrite IH; reflexivity.
Qed.

Lemma filter_ext_in' {A : Type} (f g : A -> bool) (l : list A) :
  (forall x, In x l -> f x = g x) -> List.filter f l = List.filter g l.
Proof.
  induction l as [|x l IH]; simpl; intros H; [reflexivity|].
  rewrite (H x) by auto. rewrite IH by auto. reflexivity.
Qed.

Lemma filter_split_length {A : Type} (f : A -> bool) (l : list A) :
  List.length l
  = (List.length (List.filter f l)
     + List.length (List.filter (fun x => negb (f x)) l))%nat.
Proof.
  induction l as [|x l IH]; simpl; [reflexivity|].
  destruct (f x); simpl; lia.
Qed.

(** Over a list of distinct keys, the rows built for one key. *)
Lemma filter_map_key {B : Type} (mk : UUID -> B) (key : B -> UUID)
    (keys : list UUID) (p : UUID) :
  (forall k, key (mk k) = k) -> NoDup keys ->
  List.filter (fun r => N.eqb (key r) p) (map mk keys)
  = if in_dec N.eq_dec p keys then [mk p] else [].
Proof.
  intros Hkey. induction keys as [|k keys IH]; intros Hnd; [reflexivity|].
  inversion Hnd as [|? ? Hk Hd]; subst. simpl. rewrite Hkey, (IH Hd).
  destruct (N.eqb_spec k p) as [->|Hne].
  - destruct (N.eq_dec p p); [|congruence].
    destruct (in_dec N.eq_dec p keys); [contradiction|reflexivity].
  - destruct (N.eq_dec k p); [congruence|].
    destruct (in_dec N.eq_dec p keys); reflexivity.
Qed.

Lemma group_keys_In rows p :
  In p (group_keys rows) <->
  exists e, In e rows /\ ue_player_id e = Some p.
Proof.
  unfold group_keys. rewrite nodup_In, in_flat_map. split.
  - intros [e [Hin Hp]]. exists e. split; [exact Hin|].
    destruct (ue_player_id e) as [q|]; [|destruct Hp].
    destruct Hp as [->|[]]. reflexivity.
  - intros [e [Hin Hp]]. exists e. split; [exact Hin|]. rewrite Hp. left.
    reflexivity.
Qed.

Lemma of_player_spec p e : of_player p e = true <-> ue_player_id e = Some p.
Proof.
  unfold of_player, sql_eq. destruct (ue_player_id e) as [q|].
  - rewrite N.eqb_eq. split; congruence.
  - split; discriminate.
Qed.

(** What the query counts for player [p], in terms of the whole table. *)
Lemma view_counts_of_player events W T p :
  0 <= W ->
  let mid := T - timedelta_half W in
  let recent := events_between events p false mid T in
  let older := events_before events p (T - W) mid in
  List.filter (fun r => N.eqb (vc_player_id r) p)
    (view_counts events (T - W) mid T)
  = if 3 <=? recent + older
    then [ {| vc_player_id := p; vc_recent_views := recent;
              vc_older_views := older; vc_total_views := recent + older |} ]
    else [].
Proof.
  intros HW mid recent older.
  pose proof (timedelta_half_bounds W HW) as Hh.
  unfold view_counts.
  set (rows := List.filter (attention_event (T - W) T) events).
  set (mk := fun q : UUID => _).
  rewrite filter_filter.
  rewrite (filter_ext_in' _ (fun r => N.eqb (vc_player_id r) p
                                      && (3 <=? vc_total_views r)))
    by (intros; apply andb_comm).
  rewrite <- filter_filter.
  rewrite (filter_map_key mk vc_player_id)
    by first [reflexivity|apply NoDup_nodup].
  assert (forall e, attention_event (T - W) T e && of_player p e
                    && (mid <=? ue_occurred_at e)
                    = of_player p e
                      && (String.eqb (ue_event_type e) "player_view"
                          || String.eqb (ue_event_type e) "watchlist_add"
                          || String.eqb (ue_event_type e) "share")
                      && (mid <=? ue_occurred_at e)
                      && (ue_occurred_at e <=? T)) as Erecent.
  { intros e. unfold attention_event.
    destruct (of_player p e) eqn:Ep;
      [|rewrite !andb_false_r; reflexivity].
    apply of_player_spec in Ep. rewrite Ep. cbn [andb].
    destruct (_ || _); cbn [andb]; [|reflexivity].
    destruct (Z.leb_spec (T - W) (ue_occurred_at e));
      destruct (Z.leb_spec (ue_occurred_at e) T);
      destruct (Z.leb_spec mid (ue_occurred_at e));
      cbn [andb]; try reflexivity; subst mid; lia. }
  assert (forall e, attention_event (T - W) T e && of_player p e
                    && (ue_occurred_at e <? mid)
                    = of_player p e
                      && (String.eqb (ue_event_type e) "player_view"
                          || String.eqb (ue_event_type e) "watchlist_add"
                          || String.eqb (ue_event_type e) "share")
                      && (T - W <=? ue_occurred_at e)
                      && (ue_occurred_at e <? mid)) as Eolder.
  { intros e. unfold attention_event.
    destruct (of_player p e) eqn:Ep;
      [|rewrite !andb_false_r; reflexivity].
    apply of_player_spec in Ep. rewrite Ep. cbn [andb].
    destruct (_ || _); cbn [andb]; [|reflexivity].
    destruct (Z.leb_spec (T - W) (ue_occurred_at e));
      destruct (Z.leb_spec (ue_occurred_at e) T);
      destruct (Z.ltb_spec (ue_occurred_at e) mid);
      cbn [andb]; try reflexivity; subst mid; lia. }
  assert (vc_recent_views (mk p) = recent) as Hr.
  { subst mk rows recent. cbn [vc_recent_views]. unfold events_between, count.
    rewrite !filter_filter. do 2 f_equal. apply filter_ext_in'.
    intros e _. rewrite andb_assoc. apply Erecent. }
  assert (vc_older_views (mk p) = older) as Ho.
  { subst mk rows older. cbn [vc_older_views]. unfold events_before, count.
    rewrite !filter_filter. do 2 f_equal. apply filter_ext_in'.
    intros e _. rewrite andb_assoc. apply Eolder. }
  assert (vc_total_views (mk p) = recent + older) as Ht.
  { rewrite <- Hr, <- Ho. subst mk. cbn [vc_total_views vc_recent_views
      vc_older_views]. unfold count.
    rewrite (filter_split_length (fun e => mid <=? ue_occurred_at e)).
    rewrite Nat2Z.inj_add. do 3 f_equal. apply filter_ext_in'. intros e _.
    rewrite Z.ltb_antisym. reflexivity. }
  destruct (in_dec N.eq_dec p (group_keys rows)) as [Hin|Hout].
  - cbn [List.filter]. rewrite Ht.
    destruct (3 <=? recent + older); [|reflexivity].
    unfold mk in *. cbn [vc_recent_views vc_older_views vc_total_views] in *.
    do 2 f_equal; assumption.
  - cbn [List.filter].
    assert (vc_total_views (mk p) = 0) as H0.
    { subst mk. cbn [vc_total_views].
      rewrite filter_none; [reflexivity|]. intros e He.
      destruct (of_player p e) eqn:Ep; [|reflexivity]. exfalso. apply Hout.
      apply group_keys_In. exists e. split; [exact He|].
      apply of_player_spec, Ep. }
    rewrite Ht in H0. rewrite H0. reflexivity.
Qed.

Lemma write_signal_event_app settings store et pid cid st v o e :
  write_signal_event settings store et pid cid st v o e
  = store ++ write_signal_event settings [] et pid cid st v o e.
Proof. reflexivity. Qed.

Lemma fold_write {X : Type} (write : SignalStore -> X -> SignalStore)
    (xs : list X) (store : SignalStore) :
  (forall st x, write st x = st ++ write [] x) ->
  fold_left write xs store = store ++ flat_map (write []) xs.
Proof.
  intros Hw. revert store. induction xs as [|x xs IH]; intros store; simpl.
  - rewrite app_nil_r. reflexivity.
  - rewrite IH, Hw, <- app_assoc. reflexivity.
Qed.

Lemma filter_flat_map {X B : Type} (f : B -> bool) (g : X -> list B)
    (h : X -> bool) (l : list X) :
  (forall x, List.filter f (g x) = if h x then g x else []) ->
  List.filter f (flat_map g l) = flat_map g (List.filter h l).
Proof.
  intros H. induction l as [|x l IH]; simpl; [reflexivity|].
  rewrite List.filter_app, H, IH. destruct (h x); reflexivity.
Qed.

(** The attention rows the run appends for player [p], with the value the
    code computes: a zero older count is replaced by one before the ratio
    is taken. *)
Lemma run_signal_derivation_rows settings events store W T p :
  0 <= W ->
  let mid := T - timedelta_half W in
  let recent := events_between events p false mid T in
  let older := events_before events p (T - W) mid in
  exists rows,
    fst (run_signal_derivation settings events store W T) = store ++ rows /\
    attention_rows_of p rows
    = if 3 <=? recent + older then
        write_signal_event settings [] "player" (Some p) None
          "user_attention_velocity"
          (normalized_velocity recent (int_or older 1)) T T
      else [].
Proof.
  intros HW mid recent older. unfold run_signal_derivation. cbn [fst].
  rewrite (fold_write _ (compute_destination_cooccurrence events (W * 7) T))
    by (intros; apply write_signal_event_app).
  rewrite (fold_write _ (compute_attention_velocity events W T))
    by (intros; apply write_signal_event_app).
  rewrite <- app_assoc. eexists. split; [reflexivity|].
  unfold attention_rows_of. rewrite List.filter_app.
  rewrite (filter_none _ (flat_map _ (compute_destination_cooccurrence _ _ _))).
  2:{ intros r Hr. apply in_flat_map in Hr. destruct Hr as [c [_ [<-|[]]]].
      cbn. rewrite andb_false_r. reflexivity. }
  rewrite app_nil_r. unfold compute_attention_velocity.
  fold mid. rewrite flat_map_concat_map, map_map, <- flat_map_concat_map.
  pose proof (view_counts_of_player events W T p HW) as Hvc.
  cbv zeta in Hvc. fold mid recent older in Hvc.
  set (vcs := view_counts events (T - W) mid T) in *.
  transitivity
    (flat_map
       (fun row =>
          write_signal_event settings [] "player" (Some (vc_player_id row)) None
            "user_attention_velocity"
            (normalized_velocity (int_or (vc_recent_views row) 0)
               (int_or (vc_older_views row) 1)) T T)
       (List.filter (fun r => N.eqb (vc_player_id r) p) vcs)).
  - apply filter_flat_map. intros x. unfold write_signal_event.
    cbn [app List.filter sr_player_id sr_signal_type sql_eq v_player_id].
    rewrite String.eqb_refl, andb_true_r.
    destruct (N.eqb (vc_player_id x) p); reflexivity.
  - rewrite Hvc. destruct (3 <=? recent + older); [|reflexivity].
    cbn [flat_map vc_player_id vc_recent_views vc_older_views].
    rewrite app_nil_r. unfold int_or at 1.
    destruct (recent =? 0) eqn:E; [|reflexivity].
    apply Z.eqb_eq in E. rewrite E. reflexivity.
Qed.

(** C6, as the code has it.  For a window [W >= 0] ending at [T] and a player
    [p], with [recent] the number of qualifying events in [[T-W/2, T]] and
    [older] the number in [[T-W, T-W/2)]: the run appends rows only; it
    appends no attention row for [p] when [recent + older < 3]; otherwise it
    appends exactly one, with [observed_at = effective_from = T], whose
    value is [int(min(10.0, (recent+1)/(older+1)) * 100)] whenever
    [older >= 1]. *)
Theorem attention_velocity_derivation
    (settings : Settings) (events : list UserEvent) (store : SignalStore)
    (W : timedelta) (T : datetime) (p : UUID) :
  0 <= W ->
  let mid := T - timedelta_half W in
  let recent := events_between events p false mid T in
  let older := events_before events p (T - W) mid in
  exists rows,
    fst (run_signal_derivation settings events store W T) = store ++ rows /\
    (recent + older < 3 -> attention_rows_of p rows = []) /\
    (3 <= recent + older ->
     exists v,
       attention_rows_of p rows
       = [ {| sr_entity_type := "player"; sr_player_id := Some p;
              sr_club_id := None;
              sr_signal_type := "user_attention_velocity";
              sr_value_num := Some (v * 1000000); sr_value_text := None;
              sr_source := "tl_user_derived";
              sr_confidence := derived_signal_confidence settings;
              sr_observed_at := T; sr_effective_from := T;
              sr_effective_to := None |} ] /\
       (1 <= older -> v = normalized_velocity recent older)).
Proof.
  intros HW mid recent older.
  destruct (run_signal_derivation_rows settings events store W T p HW)
    as [rows [Hrun Hrows]].
  cbv zeta in Hrows. fold mid recent older in Hrows.
  exists rows. split; [exact Hrun|]. split.
  - intros Hlt. rewrite Hrows.
    destruct (Z.leb_spec 3 (recent + older)); [lia|reflexivity].
  - intros Hge. exists (normalized_velocity recent (int_or older 1)).
    split.
    + rewrite Hrows.
      destruct (Z.leb_spec 3 (recent + older)); [reflexivity|lia].
    + intros Ho. unfold int_or.
      destruct (Z.eqb_spec older 0); [lia|reflexivity].
Qed.

(** With no older event the code takes the ratio over [1 + 1], not [0 + 1]:
    three recent events alone are written as 200. *)
Example zero_older_count_is_one :
  normalized_velocity 3 (int_or 0 1) = 200 /\ normalized_velocity 3 0 = 400.
Proof. split; vm_compute; reflexivity. Qed.

Lemma attention_velocity_derivation_witness :
  exists rows,
    fst (run_signal_derivation default_settings Scenario.views []
           Scenario.one_day (Scenario.jan2025 15 12)) = [] ++ rows /\
    (events_between Scenario.views 7%N false
       (Scenario.jan2025 15 12 - timedelta_half Scenario.one_day)
       (Scenario.jan2025 15 12)
     + events_before Scenario.views 7%N
         (Scenario.jan2025 15 12 - Scenario.one_day)
         (Scenario.jan2025 15 12 - timedelta_half Scenario.one_day) < 3 ->
     attention_rows_of 7%N rows = []) /\
    (3 <= events_between Scenario.views 7%N false
            (Scenario.jan2025 15 12 - timedelta_half Scenario.one_day)
            (Scenario.jan2025 15 12)
          + events_before Scenario.views 7%N
              (Scenario.jan2025 15 12 - Scenario.one_day)
              (Scenario.jan2025 15 12 - timedelta_half Scenario.one_day) ->
     exists v,
       attention_rows_of 7%N rows
       = [ {| sr_entity_type := "player"; sr_player_id := Some 7%N;
              sr_club_id := None;
              sr_signal_type := "user_attention_velocity";
              sr_value_num := Some (v * 1000000); sr_value_text := None;
              sr_source := "tl_user_derived";
              sr_confidence := derived_signal_confidence default_settings;
              sr_observed_at := Scenario.jan2025 15 12;
              sr_effective_from := Scenario.jan2025 15 12;
              sr_effective_to := None |} ] /\
       (1 <= events_before Scenario.views 7%N
               (Scenario.jan2025 15 12 - Scenario.one_day)
               (Scenario.jan2025 15 12 - timedelta_half Scenario.one_day) ->
        v = normalized_velocity
              (events_between Scenario.views 7%N false
                 (Scenario.jan2025 15 12 - timedelta_half Scenario.one_day)
                 (Scenario.jan2025 15 12))
              (events_before Scenario.views 7%N
                 (Scenario.jan2025 15 12 - Scenario.one_day)
                 (Scenario.jan2025 15 12 - timedelta_half Scenario.one_day)))).
Proof.
  apply (attention_velocity_derivation default_settings Scenario.views []
           Scenario.one_day (Scenario.jan2025 15 12) 7%N).
  vm_compute. discriminate.
Defined.

(** C6, the claim as stated fails.  With one view exactly at the midpoint the
    claim's intervals give [recent = 1] (in [(T-W/2, T]]) and [older = 2]
    (in [[T-W, T-W/2]]), hence the value 66; the run counts the midpoint
    event as recent and writes 150. *)
Lemma attention_velocity_midpoint_counted_recent :
  events_between Scenario.views 7%N true
    (Scenario.jan2025 15 12 - timedelta_half Scenario.one_day)
    (Scenario.jan2025 15 12) = 1
  /\ events_between Scenario.views 7%N false
       (Scenario.jan2025 15 12 - Scenario.one_day)
       (Scenario.jan2025 15 12 - timedelta_half Scenario.one_day) = 2
  /\ normalized_velocity 1 2 = 66
  /\ fst (run_signal_derivation default_settings Scenario.views []
            Scenario.one_day (Scenario.jan2025 15 12))
     = [Scenario.attention_row 150]
  /\ Scenario.attention_row 150 <> Scenario.attention_row 66.
Proof.
  repeat split; try (vm_compute; reflexivity).
  intros H. apply (f_equal sr_value_num) in H. vm_compute in H. discriminate.
Qed.

End AttentionVelocity.

(** ** Model registration *)

Section ModelTrain.
Import Train.

Variable str_of_int : Z -> string.
Variable fit : list TrainingRow -> string -> string + Fitted.

Local Abbreviation run := (run_model_train str_of_int fit).

(** C8, as the code has it.  When the frame has fewer rows than
    [min_training_samples], the run returns [results] with status
    ["failed"] and the message, and registers nothing: [model_versions] is
    unchanged.  Whatever the inputs, a run leaves the table unchanged or
    appends one row, that row has status ["completed"], and this happens
    only when the run returns with status ["completed"]. *)
Theorem model_version_registered_only_on_success
    (settings : Settings) (table : list ModelVersion)
    (frame : string + list TrainingRow) (model_version : string)
    (model_id : UUID) (now as_of : datetime) (horizon_days : Z)
    (model_type : string) :
  let out :=
    run settings table frame model_version model_id now as_of horizon_days
      model_type in
  (forall df,
     frame = inr df ->
     Z.of_nat (List.length df) < min_training_samples settings ->
     snd out = table /\
     exists results,
       fst out = Returned results /\ r_status results = "failed" /\
       r_error results
       = Some ("Insufficient training data: "
                 ++ str_of_int (Z.of_nat (List.length df)) ++ " samples")%string)
  /\ (snd out = table
      \/ exists row results,
           snd out = table ++ [row] /\ mv_status row = "completed" /\
           fst out = Returned results /\ r_status results = "completed" /\
           r_model_id results = Some (mv_id row) /\
           exists df,
             frame = inr df /\
             min_training_samples settings <= Z.of_nat (List.length df)).
Proof.
  intros out. subst out. unfold run_model_train. split.
  - intros df -> Hlt.
    destruct (Z.ltb_spec (Z.of_nat (List.length df))
                (min_training_samples settings)); [|lia].
    split; [reflexivity|]. eexists. repeat split.
  - destruct frame as [e|df]; [left; reflexivity|].
    destruct (Z.ltb_spec (Z.of_nat (List.length df))
                (min_training_samples settings)); [left; reflexivity|].
    destruct (fit df model_type) as [e|f]; [left; reflexivity|].
    right. cbn. eexists. eexists. repeat split. exists df. split; auto.
Qed.

End ModelTrain.

(** C8, the claim as stated fails.  With one transfer on record the
    training frame has four rows, the positive and three negatives, below
    the minimum of 50: the run returns status ["failed"] with its message and
    leaves [model_versions] empty, so no row with status ["failed"] is
    registered. *)
Lemma insufficient_samples_register_nothing :
  exists frame results,
    Features.build_training_features Scenario.forward Scenario.one_transfer
      (Scenario.jan2025 15 12) 730 90 = inr frame
    /\ map tr_label frame = [1; 0; 0; 0]
    /\ Train.run_model_train str_of_int Scenario.never_fits
         Train.default_settings [] (inr frame) "v20250115_120000" 1%N
         (Scenario.jan2025 15 12) (Scenario.jan2025 15 12) 90 "logistic"
       = (Train.Returned results, [])
    /\ Train.r_status results = "failed"
    /\ Train.r_error results = Some "Insufficient training data: 4 samples".
Proof.
  eexists. eexists. split; [vm_compute; reflexivity|].
  split; [reflexivity|]. split; [vm_compute; reflexivity|].
  split; reflexivity.
Qed.

(** ** Driver attributions *)

(** C9.  The snapshot scored without a trained model for the rumour
    scenario carries four drivers, 0.411, 0.411, 0.1644 and 0.0137: each is
    non-negative, and they sum to more than 1, as exact numbers and as the
    floating-point sum. *)
Theorem drivers_sum_exceeds_one :
  exists drivers,
    Predict.heuristic_drivers Scenario.rumour_features = inr drivers
    /\ drivers
       = [("contract_months_remaining", 0.411%float);
          ("user_destination_cooccurrence", 0.411%float);
          ("social_mention_velocity", 0.1644%float);
          ("same_league", 0.0137%float)]
    /\ (1 < Predict.drivers_sum drivers)%Q
    /\ PrimFloat.ltb 1 (fold_left PrimFloat.add (map snd drivers) 0%float)
       = true.
Proof.
  eexists. split; [vm_compute; reflexivity|].
  repeat split; vm_compute; reflexivity.
Qed.

(** ** The bulk feature build *)

Section FeatureBuild.
Import Features.

Local Abbreviation snapshots := (gmap (UUID * UUID * datetime) FeatureSnapshot).

(** The statement binds a [dict]: it raises at the first candidate and the
    table is as it was. *)
Lemma upserts_raise (t : snapshots) ids p T vector (l : list (nat * UUID)) n :
  upserts ids p T vector l t n
  = (t, n, match l with
           | [] => None
           | _ => Some "ProgrammingError: can't adapt type 'dict'"
           end).
Proof. destruct l as [|[j c] l]; reflexivity. Qed.

Lemma build_for_player_state (t : snapshots) settings env db T st
    (ip : nat * Player) :
  let out := build_for_player settings env db T (t, st) ip in
  fst out = t
  /\ feature_vectors_created (snd out) = feature_vectors_created st
  /\ players_processed (snd out) + errors (snd out)
     = players_processed st + errors st
       + match pl_current_club_id (snd ip) with Some _ => 1 | None => 0 end.
Proof.
  unfold build_for_player. cbn [fst snd].
  destruct (pl_current_club_id (snd ip)) as [cur|]; cbn [fst snd];
    [|repeat split; lia].
  rewrite upserts_raise.
  destruct (combine _ _); cbn; repeat split; lia.
Qed.

Lemma build_fold_state (t : snapshots) settings env db T
    (todo : list (nat * Player)) st :
  (forall ip, In ip todo -> pl_current_club_id (snd ip) <> None) ->
  let out := fold_left (build_for_player settings env db T) todo (t, st) in
  fst out = t
  /\ feature_vectors_created (snd out) = feature_vectors_created st
  /\ players_processed (snd out) + errors (snd out)
     = players_processed st + errors st + Z.of_nat (List.length todo).
Proof.
  revert t st. induction todo as [|ip todo IH]; intros t st Hclub;
    cbv zeta; cbn [fold_left List.length fst snd]; [repeat split; lia|].
  pose proof (build_for_player_state t settings env db T st ip) as Hstep.
  cbv zeta in Hstep.
  destruct (build_for_player settings env db T (t, st) ip) as [t' st'].
  cbn [fst snd] in Hstep. destruct Hstep as (-> & Hv & Hp).
  specialize (IH t st' (fun ip' H => Hclub ip' (or_intror H))).
  cbv zeta in IH. destruct IH as (Ht & Hv' & Hp').
  assert (pl_current_club_id (snd ip) <> None) as Hc
    by (apply Hclub; left; reflexivity).
  destruct (pl_current_club_id (snd ip)); [|congruence].
  repeat split; [exact Ht|congruence|lia].
Qed.

Lemma build_players_club db ip :
  In ip (build_players db) -> pl_current_club_id (snd ip) <> None.
Proof.
  unfold build_players. intros H. destruct ip as [i pl].
  apply in_combine_r in H. apply filter_In in H. destruct H as [_ H].
  apply andb_true_iff in H. destruct H as [_ H]. cbn.
  destruct (pl_current_club_id pl); [discriminate|discriminate].
Qed.

(** C4.  The bulk feature build stores nothing.  Whatever the store, the
    settings and the random draws, a run deletes the snapshots of [as_of] and
    writes none: the table it leaves is the old one without the rows of
    [as_of], so it holds no row for [as_of]; it counts no feature vector as
    created, and every eligible player is counted either as processed or as
    an error.  A second run over the result leaves that same table. *)
Theorem feature_build_writes_no_snapshot
    (settings : Settings) (env env' : Env) (db : Database) (as_of : datetime) :
  let out := run_feature_build settings env db as_of in
  feature_snapshots (fst out)
  = base.filter
      (fun kv : UUID * UUID * datetime * FeatureSnapshot => kv.1.2 <> as_of)
      (feature_snapshots db)
  /\ (forall p c, feature_snapshots (fst out) !! (p, c, as_of) = None)
  /\ feature_vectors_created (snd out) = 0
  /\ players_processed (snd out) + errors (snd out)
     = Z.of_nat (List.length (build_players db))
  /\ feature_snapshots (fst (run_feature_build settings env' (fst out) as_of))
     = feature_snapshots (fst out).
Proof.
  assert (forall e d,
            feature_snapshots (fst (run_feature_build settings e d as_of))
            = base.filter
                (fun kv : UUID * UUID * datetime * FeatureSnapshot =>
                   kv.1.2 <> as_of)
                (feature_snapshots d)
            /\ feature_vectors_created
                 (snd (run_feature_build settings e d as_of)) = 0
            /\ players_processed (snd (run_feature_build settings e d as_of))
               + errors (snd (run_feature_build settings e d as_of))
               = Z.of_nat (List.length (build_players d))) as Hrun.
  { intros e d. unfold run_feature_build.
    pose proof (build_fold_state
                  (base.filter
                     (fun kv : UUID * UUID * datetime * FeatureSnapshot =>
                        kv.1.2 <> as_of)
                     (feature_snapshots d))
                  settings e d as_of (build_players d)
                  {| players_processed := 0; feature_vectors_created := 0;
                     errors := 0 |} (build_players_club d)) as H.
    cbv zeta in H. destruct (fold_left _ _ _) as [t st].
    cbn [fst snd feature_snapshots players_processed feature_vectors_created
           errors] in *.
    destruct H as (-> & Hv & Hp). repeat split; [exact Hv|lia]. }
  intros out. subst out.
  destruct (Hrun env db) as (Ht & Hv & Hp).
  repeat split; try assumption.
  - intros p c. rewrite Ht. apply map_lookup_filter_None. right.
    intros x _ Hne. apply Hne. reflexivity.
  - destruct (Hrun env' (fst (run_feature_build settings env db as_of)))
      as (Ht' & _ & _).
    rewrite Ht', Ht. apply map_eq. intros key.
    destruct (base.filter _ (feature_snapshots db) !! key) as [x|] eqn:E.
    + apply map_lookup_filter_Some. split; [exact E|].
      apply map_lookup_filter_Some in E. apply E.
    + apply map_lookup_filter_None. left. exact E.
Qed.

(** The build for player 7 and the 21 other clubs: one error, no vector, an
    empty table. *)
Example feature_build_league_of_22 :
  run_feature_build default_settings Scenario.forward Scenario.league_of_22
    (Scenario.jan2025 15 12)
  = (Scenario.league_of_22,
     {| players_processed := 0; feature_vectors_created := 0; errors := 1 |}).
Proof. vm_compute. reflexivity. Qed.

End FeatureBuild.

(** ** Candidate generation *)

Section CandidateGeneration.
Import Candidates.

Lemma random_loop_In existing n clubs acc c :
  In c (random_loop existing n clubs acc) ->
  In c acc
  \/ (c = random_candidate (club_id c) /\ In (club_id c) clubs
      /\ club_id c ∉ existing).
Proof.
  revert acc. induction clubs as [|k clubs IH]; intros acc H; cbn in H.
  - left. exact H.
  - destruct (decide (k ∈ existing)) as [Hk|Hk].
    + destruct (IH _ H) as [?|(? & ? & ?)]; [left; assumption|].
      right. repeat split; try assumption. right. assumption.
    + assert (In c (acc ++ [random_candidate k]) ->
              In c acc
              \/ (c = random_candidate (club_id c) /\ In (club_id c) (k :: clubs)
                  /\ club_id c ∉ existing)) as Hnew.
      { intros Hin. apply in_app_or in Hin. destruct Hin as [?|[<-|[]]].
        - left. assumption.
        - right. repeat split; [left; reflexivity|exact Hk]. }
      destruct (n <=? List.length (acc ++ [random_candidate k]))%nat.
      * apply Hnew, H.
      * destruct (IH _ H) as [Hin|(? & ? & ?)]; [apply Hnew, Hin|].
        right. repeat split; try assumption. right. assumption.
Qed.

(** The loop stops as soon as it holds [n] samples. *)
Lemma random_loop_length existing n clubs acc :
  (List.length acc < Nat.max n 1 ->
   List.length (random_loop existing n clubs acc) <= Nat.max n 1)%nat.
Proof.
  revert acc. induction clubs as [|k clubs IH]; intros acc H; cbn; [lia|].
  destruct (decide (k ∈ existing)); [apply IH, H|].
  destruct (Nat.leb_spec n (List.length (acc ++ [random_candidate k]))) as [Hle|Hgt];
    rewrite length_app in *; cbn in *; [lia|].
  apply IH. rewrite length_app. cbn. lia.
Qed.

Lemma merge_step_ok a seen c :
  well_merged (a, seen) -> club_id c ∉ seen ->
  well_merged (a ++ [c], seen ∪ {[club_id c]}).
Proof.
  intros [Hnd Hs] Hc. unfold well_merged. cbn [fst snd] in *. split.
  - rewrite map_app. cbn [map].
    apply (Permutation_NoDup (Permutation_cons_append _ _)).
    constructor; [|exact Hnd]. intros Hin. apply Hc, Hs, Hin.
  - intros k. rewrite elem_of_union, elem_of_singleton, map_app, in_app_iff, Hs.
    cbn. intuition congruence.
Qed.

Lemma merge_source_ok acc found :
  well_merged acc -> well_merged (merge_source acc found).
Proof.
  unfold merge_source. revert acc.
  induction found as [|c found IH]; intros [a seen] H; cbn [fold_left]; [exact H|].
  destruct (decide (club_id c ∈ seen)); apply IH; [exact H|].
  apply merge_step_ok; assumption.
Qed.

Lemma merge_source_In acc found c :
  In c (fst (merge_source acc found)) -> In c (fst acc) \/ In c found.
Proof.
  unfold merge_source. revert acc.
  induction found as [|x found IH]; intros [a seen] H; cbn [fold_left] in H;
    [left; exact H|].
  destruct (decide (club_id x ∈ seen)); apply IH in H; cbn [fst] in *.
  - destruct H; [left|right; right]; assumption.
  - destruct H as [H|H]; [|right; right; exact H].
    apply in_app_or in H. destruct H as [H|[<-|[]]]; [left; exact H|].
    right. left. reflexivity.
Qed.

Lemma merged_sources_ok f1 f2 f3 f4 db p cur T config :
  well_merged (merged_sources f1 f2 f3 f4 db p cur T config).
Proof.
  unfold merged_sources. repeat apply merge_source_ok.
  split; [constructor|]. intros k. cbn. rewrite elem_of_empty. tauto.
Qed.

Lemma random_pool_In db cur k :
  In k (random_pool db cur) ->
  k <> cur
  /\ exists club comp,
       In club (clubs db) /\ c_id club = k /\ c_is_active club = true
       /\ competition_of db club = Some comp /\ comp_tier comp <= 3.
Proof.
  unfold random_pool. intros H. apply in_map_iff in H.
  destruct H as [club [<- H]]. apply filter_In in H. destruct H as [Hin Hc].
  apply andb_true_iff in Hc. destruct Hc as [Hc Ht].
  apply andb_true_iff in Hc. destruct Hc as [Hne Ha].
  apply negb_true_iff, N.eqb_neq in Hne. split; [exact Hne|].
  destruct (competition_of db club) as [comp|] eqn:E; [|discriminate].
  exists club, comp. apply Z.leb_le in Ht. auto.
Qed.

Lemma count_sources_total l :
  count_source LEAGUE l + count_source SOCIAL l + count_source USER_ATTENTION l
  + count_source CONSTRAINT_FIT l + count_source RANDOM l
  = Z.of_nat (List.length l).
Proof.
  unfold count_source. induction l as [|c l IH]; [reflexivity|].
  cbn [List.filter List.length]. destruct (source c); cbn; lia.
Qed.

Lemma sort_by_score_NoDup l :
  NoDup (map club_id l) -> NoDup (map club_id (sort_by_score l)).
Proof.
  apply Permutation_NoDup, Permutation_map, Permutation_sym, stable_sort_perm.
Qed.

Lemma firstn_NoDup {A : Type} (n : nat) (l : list A) :
  NoDup l -> NoDup (firstn n l).
Proof.
  intros H. rewrite <- (firstn_skipn n l) in H. apply NoDup_app_remove_r in H.
  exact H.
Qed.

Section Generated.

Variable get_league_candidates get_social_candidates
  get_user_attention_candidates get_constraint_fit_candidates :
  Database -> UUID -> UUID -> datetime -> CandidateConfig ->
  list CandidateClub.
Variable round1 : float -> float.

Local Abbreviation sources :=
  (merged_sources get_league_candidates get_social_candidates
     get_user_attention_candidates get_constraint_fit_candidates).
Local Abbreviation generate :=
  (generate_candidates_for_player get_league_candidates get_social_candidates
     get_user_attention_candidates get_constraint_fit_candidates round1).

(** What a successful generation returns, read off the function body. *)
Lemma generate_inr db table order fresh p T H config save result table' :
  generate db table order fresh p T H config save = inr (result, table') ->
  exists player cur,
    find (fun q => N.eqb (pl_id q) p) (players db) = Some player
    /\ pl_current_club_id player = Some cur
    /\ g_from_club_id result = cur
    /\ g_candidates result
       = selected (sources db p cur T config)
           (get_random_candidates db order p cur
              (snd (sources db p cur T config)) config) config
    /\ g_total_candidates result = Z.of_nat (List.length (g_candidates result))
    /\ g_source_counts result
       = map (fun s => (s, count_source s (g_candidates result)))
           [LEAGUE; SOCIAL; USER_ATTENTION; CONSTRAINT_FIT; RANDOM].
Proof.
  unfold generate_candidates_for_player, selected.
  destruct (find _ (players db)) as [player|] eqn:Ef; [|discriminate].
  destruct (pl_current_club_id player) as [cur|] eqn:Ec; [|discriminate].
  destruct (sources db p cur T config) as [all seen] eqn:Es.
  cbn [snd].
  destruct (merge_source (all, seen) _) as [all' seen'] eqn:Em.
  intros E. inversion E; subst; clear E. exists player, cur.
  cbn [g_from_club_id g_candidates g_total_candidates g_source_counts fst].
  repeat split; try first [assumption|reflexivity].
  rewrite Es. cbn [snd]. rewrite Em. reflexivity.
Qed.

(** A generation returns a set as soon as the player exists and has a
    current club. *)
Lemma generate_returns db table order fresh p T H config save player cur :
  find (fun q => N.eqb (pl_id q) p) (players db) = Some player ->
  pl_current_club_id player = Some cur ->
  exists result table',
    generate db table order fresh p T H config save = inr (result, table').
Proof.
  intros Ef Ec. unfold generate_candidates_for_player. rewrite Ef, Ec.
  destruct (sources db p cur T config) as [all seen].
  destruct (merge_source (all, seen) _) as [all' seen'].
  eexists. eexists. reflexivity.
Qed.

(** X1.  A generated candidate set never proposes a club twice, holds at
    most [max_total_candidates] clubs, reports their number as
    [total_candidates], and its five per-source counts add up to that total. *)
Theorem candidate_set_distinct_and_counted
    db table order fresh p T H config save result table' :
  generate_candidates_for_player get_league_candidates get_social_candidates
    get_user_attention_candidates get_constraint_fit_candidates round1
    db table order fresh p T H config save = inr (result, table') ->
  NoDup (map club_id (g_candidates result))
  /\ (List.length (g_candidates result) <= max_total_candidates config)%nat
  /\ g_total_candidates result = Z.of_nat (List.length (g_candidates result))
  /\ fold_right Z.add 0 (map snd (g_source_counts result))
     = g_total_candidates result.
Proof.
  intros E. apply generate_inr in E.
  destruct E as (player & cur & _ & _ & _ & Hc & Ht & Hs).
  repeat split.
  - rewrite Hc. unfold selected. rewrite <- firstn_map.
    apply firstn_NoDup, sort_by_score_NoDup.
    apply merge_source_ok, merged_sources_ok.
  - rewrite Hc. unfold selected. rewrite length_firstn. lia.
  - exact Ht.
  - rewrite Hs, Ht. cbn [map snd fold_right].
    rewrite <- (count_sources_total (g_candidates result)). lia.
Qed.

(** X2.  Where the candidates of a generated set come from, when the
    database's random ordering returns rows of the table it orders: each
    candidate is either one the merge of the league, social, user-attention
    and constraint-fit sources kept, or a random calibration sample (source
    random, score 0.1) of an active club in a competition of tier at most 3
    that is neither the player's current club nor proposed by the other
    sources. *)
Theorem candidate_origin
    db table order fresh p T H config save result table' :
  (forall l k, In k (order l) -> In k l) ->
  generate_candidates_for_player get_league_candidates get_social_candidates
    get_user_attention_candidates get_constraint_fit_candidates round1
    db table order fresh p T H config save = inr (result, table') ->
  forall c, In c (g_candidates result) ->
    In c (fst (sources db p (g_from_club_id result) T config))
    \/ (c = random_candidate (club_id c)
        /\ club_id c <> g_from_club_id result
        /\ ~ In (club_id c)
             (map club_id (fst (sources db p (g_from_club_id result) T config)))
        /\ exists club comp,
             In club (clubs db) /\ c_id club = club_id c
             /\ c_is_active club = true
             /\ competition_of db club = Some comp /\ comp_tier comp <= 3).
Proof.
  intros Horder E c Hin. apply generate_inr in E.
  destruct E as (player & cur & _ & _ & Hcur & Hc & _ & _).
  rewrite Hcur, Hc in *. clear Hcur Hc. unfold selected in Hin.
  apply firstn_In in Hin. apply stable_sort_In in Hin.
  apply merge_source_In in Hin. destruct Hin as [Hin|Hin]; [left; exact Hin|].
  right. unfold get_random_candidates in Hin.
  apply random_loop_In in Hin. destruct Hin as [[]|(Hrc & Hpool & Hseen)].
  apply firstn_In, Horder, random_pool_In in Hpool.
  destruct Hpool as [Hne Hclub].
  repeat split; try assumption.
  intros Hm. apply Hseen.
  apply (proj2 (merged_sources_ok _ _ _ _ db p cur T config)). exact Hm.
Qed.

(** X3.  What a generation does to [candidate_sets].  With [save_to_db]
    off the table is unchanged.  With it on, only the row of
    (player, as_of, horizon) changes: it holds the returned candidates and
    their total; a row that already existed keeps its id, its
    [from_club_id], its version and its five per-source counts, which are
    therefore those of the first generation, while a new row takes the
    fresh id and the counts of the returned candidates. *)
Theorem candidate_set_saved
    db table order fresh p T H config save result table' :
  generate_candidates_for_player get_league_candidates get_social_candidates
    get_user_attention_candidates get_constraint_fit_candidates round1
    db table order fresh p T H config save = inr (result, table') ->
  if save then
    (forall key, key <> (p, T, H) -> table' !! key = table !! key)
    /\ exists row,
         table' !! (p, T, H) = Some row
         /\ cs_candidates_json row = g_candidates result
         /\ cs_total_candidates row = g_total_candidates result
         /\ match table !! (p, T, H) with
            | Some old =>
                cs_id row = cs_id old
                /\ cs_from_club_id row = cs_from_club_id old
                /\ cs_generation_version row = cs_generation_version old
                /\ map (fun f => f row)
                     [cs_league_candidates; cs_social_candidates;
                      cs_user_attention_candidates;
                      cs_constraint_fit_candidates; cs_random_candidates]
                   = map (fun f => f old)
                       [cs_league_candidates; cs_social_candidates;
                        cs_user_attention_candidates;
                        cs_constraint_fit_candidates; cs_random_candidates]
            | None =>
                cs_id row = fresh
                /\ cs_from_club_id row = g_from_club_id result
                /\ cs_generation_version row = "v1"
                /\ map (fun f => f row)
                     [cs_league_candidates; cs_social_candidates;
                      cs_user_attention_candidates;
                      cs_constraint_fit_candidates; cs_random_candidates]
                   = map snd (g_source_counts result)
            end
  else table' = table.
Proof.
  unfold generate_candidates_for_player.
  destruct (find _ (players db)) as [player|]; [|discriminate].
  destruct (pl_current_club_id player) as [cur|]; [|discriminate].
  destruct (sources db p cur T config) as [all seen].
  destruct (merge_source (all, seen) _) as [all' seen'].
  destruct save; intros E; inversion E; subst; clear E; [|reflexivity].
  split.
  - intros key Hkey.
    destruct (table !! (p, T, H)); rewrite lookup_insert_ne by congruence;
      reflexivity.
  - destruct (table !! (p, T, H)) as [old|]; eexists;
      (split; [apply lookup_insert_eq|]); cbn; repeat split; reflexivity.
Qed.

(** C5, as the code has it.  Nothing seeds the random source: a generation
    depends on the ordering the database returns for [ORDER BY RANDOM()],
    and only through its first [3 * random_candidates] rows.  When a second
    generation for the same player, as-of time and horizon over the same
    store is handed an ordering with the same first rows, it returns the
    same set and leaves [candidate_sets] as the first one left it. *)
Theorem candidate_generation_rerun
    db table order1 order2 fresh1 fresh2 p T H config save result table1 :
  generate_candidates_for_player get_league_candidates get_social_candidates
    get_user_attention_candidates get_constraint_fit_candidates round1
    db table order1 fresh1 p T H config save = inr (result, table1) ->
  firstn (random_candidates config * 3)
    (order2 (random_pool db (g_from_club_id result)))
  = firstn (random_candidates config * 3)
      (order1 (random_pool db (g_from_club_id result))) ->
  generate_candidates_for_player get_league_candidates get_social_candidates
    get_user_attention_candidates get_constraint_fit_candidates round1
    db table1 order2 fresh2 p T H config save = inr (result, table1).
Proof.
  unfold generate_candidates_for_player, get_random_candidates.
  destruct (find _ (players db)) as [player|]; [|discriminate].
  destruct (pl_current_club_id player) as [cur|]; [|discriminate].
  destruct (sources db p cur T config) as [all seen].
  intros E Hrows.
  assert (g_from_club_id result = cur) as Hcur.
  { destruct (merge_source (all, seen) _) as [all' seen'].
    inversion E. reflexivity. }
  rewrite Hcur in Hrows. rewrite Hrows.
  destruct (merge_source (all, seen) _) as [all' seen'].
  destruct save.
  - inversion E as [[Hr Ht]]. clear E. f_equal. f_equal.
    destruct (table !! (p, T, H)) as [old|];
      rewrite lookup_insert_eq, insert_insert_eq; reflexivity.
  - inversion E; subst. reflexivity.
Qed.

End Generated.

End CandidateGeneration.

(** Two generations for player 7 in the third-tier store, the second over
    the table the first one saved and with another ordering that shares its
    first three rows. *)
Lemma candidate_generation_rerun_witness :
  exists result table1,
    Candidates.generate_candidates_for_player Scenario.no_source
      Scenario.no_source Scenario.no_source Scenario.no_source (fun x => x)
      Scenario.third_tier ∅ (@rev UUID) 900%N 7%N (Scenario.jan2025 15 12) 90
      Scenario.one_random true
    = inr (result, table1)
    /\ Candidates.generate_candidates_for_player Scenario.no_source
         Scenario.no_source Scenario.no_source Scenario.no_source
         (fun x => x) Scenario.third_tier table1 Scenario.reversed_head
         901%N 7%N (Scenario.jan2025 15 12) 90 Scenario.one_random true
       = inr (result, table1).
Proof.
  destruct (generate_returns Scenario.no_source Scenario.no_source
              Scenario.no_source Scenario.no_source (fun x => x)
              Scenario.third_tier ∅ (@rev UUID) 900%N 7%N
              (Scenario.jan2025 15 12) 90 Scenario.one_random true
              Scenario.player7 1%N eq_refl eq_refl) as (result & table1 & E).
  exists result, table1. split; [exact E|].
  apply (candidate_generation_rerun _ _ _ _ _ _ _ _ _ _ _ _ _ _ _ _ _ _ E).
  destruct (generate_inr _ _ _ _ _ _ _ _ _ _ _ _ _ _ _ _ E)
    as (player & cur & Hf & Hc & Hcur & _).
  vm_compute in Hf. injection Hf as <-. vm_compute in Hc. injection Hc as <-.
  rewrite Hcur. vm_compute. reflexivity.
Defined.

(** C5, the claim as stated fails.  Over the third-tier store, where only
    the random source proposes clubs, a generation whose random ordering is
    the reverse of storage order returns clubs 8, 7, 6, 5, 4 and one whose
    ordering is the storage order returns clubs 2, 3, 4, 5, 6; likewise the
    training frame built with one draw of [random.sample] has negatives for
    clubs 3, 4, 5 and with another for clubs 8, 7, 6. *)
Lemma candidate_generation_depends_on_random_order :
  exists first second frame1 frame2,
    Candidates.generate_candidates_for_player Scenario.no_source
      Scenario.no_source Scenario.no_source Scenario.no_source (fun x => x)
      Scenario.third_tier ∅ (@rev UUID) 900%N 7%N (Scenario.jan2025 15 12) 90
      Candidates.default_config false
    = inr (first, ∅)
    /\ Candidates.generate_candidates_for_player Scenario.no_source
         Scenario.no_source Scenario.no_source Scenario.no_source
         (fun x => x) Scenario.third_tier ∅ (fun l => l) 901%N 7%N
         (Scenario.jan2025 15 12) 90 Candidates.default_config false
       = inr (second, ∅)
    /\ map Candidates.club_id (Candidates.g_candidates first)
       = [8; 7; 6; 5; 4]%N
    /\ map Candidates.club_id (Candidates.g_candidates second)
       = [2; 3; 4; 5; 6]%N
    /\ Features.build_training_features Scenario.forward
         Scenario.one_transfer (Scenario.jan2025 15 12) 730 90 = inr frame1
    /\ Features.build_training_features Scenario.backward
         Scenario.one_transfer (Scenario.jan2025 15 12) 730 90 = inr frame2
    /\ map tr_to_club_id frame1 = [2; 3; 4; 5]%N
    /\ map tr_to_club_id frame2 = [2; 8; 7; 6]%N.
Proof.
  eexists. eexists. eexists. eexists.
  split; [vm_compute; reflexivity|]. split; [vm_compute; reflexivity|].
  split; [reflexivity|]. split; [reflexivity|].
  split; [vm_compute; reflexivity|]. split; [vm_compute; reflexivity|].
  split; reflexivity.
Qed.

(** A generation for player 7 in the league of eight clubs, without saving:
    the league source proposes club 3 and the random ordering is the reverse
    of storage order. *)
Lemma candidate_set_distinct_and_counted_witness :
  exists result table',
    Candidates.generate_candidates_for_player Scenario.league_source
      Scenario.no_source Scenario.no_source Scenario.no_source (fun x => x)
      Scenario.one_league ∅ (@rev UUID) 900%N 7%N (Scenario.jan2025 15 12) 90
      Candidates.default_config false
    = inr (result, table')
    /\ map Candidates.club_id (Candidates.g_candidates result)
       = [3; 8; 7; 6; 5; 4]%N
    /\ NoDup (map Candidates.club_id (Candidates.g_candidates result))
    /\ (List.length (Candidates.g_candidates result) <= 20)%nat
    /\ Candidates.g_total_candidates result
       = Z.of_nat (List.length (Candidates.g_candidates result))
    /\ fold_right Z.add 0 (map snd (Candidates.g_source_counts result))
       = Candidates.g_total_candidates result.
Proof.
  destruct (Candidates.generate_candidates_for_player Scenario.league_source
              Scenario.no_source Scenario.no_source Scenario.no_source
              (fun x => x) Scenario.one_league ∅ (@rev UUID) 900%N 7%N
              (Scenario.jan2025 15 12) 90 Candidates.default_config false)
    as [e|[result table']] eqn:E; [vm_compute in E; discriminate|].
  exists result, table'. split; [reflexivity|]. split.
  - pose proof E as E'. vm_compute in E'. injection E' as <- _. reflexivity.
  - exact (candidate_set_distinct_and_counted _ _ _ _ _ _ _ _ _ _ _ _ _ _ _ _ E).
Defined.

Lemma candidate_origin_witness :
  exists result table',
    Candidates.generate_candidates_for_player Scenario.league_source
      Scenario.no_source Scenario.no_source Scenario.no_source (fun x => x)
      Scenario.one_league ∅ (@rev UUID) 900%N 7%N (Scenario.jan2025 15 12) 90
      Candidates.default_config false
    = inr (result, table')
    /\ In (Candidates.random_candidate 8%N) (Candidates.g_candidates result)
    /\ forall c, In c (Candidates.g_candidates result) ->
         In c (fst (Candidates.merged_sources Scenario.league_source
                      Scenario.no_source Scenario.no_source
                      Scenario.no_source Scenario.one_league 7%N
                      (Candidates.g_from_club_id result)
                      (Scenario.jan2025 15 12) Candidates.default_config))
         \/ (c = Candidates.random_candidate (Candidates.club_id c)
             /\ Candidates.club_id c <> Candidates.g_from_club_id result
             /\ ~ In (Candidates.club_id c)
                  (map Candidates.club_id
                     (fst (Candidates.merged_sources Scenario.league_source
                             Scenario.no_source Scenario.no_source
                             Scenario.no_source Scenario.one_league 7%N
                             (Candidates.g_from_club_id result)
                             (Scenario.jan2025 15 12)
                             Candidates.default_config)))
             /\ exists club comp,
                  In club (clubs Scenario.one_league)
                  /\ c_id club = Candidates.club_id c
                  /\ c_is_active club = true
                  /\ competition_of Scenario.one_league club = Some comp
                  /\ comp_tier comp <= 3).
Proof.
  destruct (Candidates.generate_candidates_for_player Scenario.league_source
              Scenario.no_source Scenario.no_source Scenario.no_source
              (fun x => x) Scenario.one_league ∅ (@rev UUID) 900%N 7%N
              (Scenario.jan2025 15 12) 90 Candidates.default_config false)
    as [e|[result table']] eqn:E; [vm_compute in E; discriminate|].
  exists result, table'. split; [reflexivity|]. split.
  - pose proof E as E'. vm_compute in E'. injection E' as <- _.
    vm_compute. tauto.
  - apply (candidate_origin _ _ _ _ _ _ _ (@rev UUID) _ _ _ _ _ _ _ _
             (fun l k Hk => proj2 (in_rev l k) Hk) E).
Defined.

(** A generation over a table that already holds a set for the key, saved
    when the league source proposed club 3: that source now finds nothing. *)
Lemma candidate_set_saved_witness :
  exists result table' row,
    Candidates.generate_candidates_for_player Scenario.no_source
      Scenario.no_source Scenario.no_source Scenario.no_source (fun x => x)
      Scenario.one_league Scenario.saved_sets (fun l => l) 901%N 7%N
      (Scenario.jan2025 15 12) 90 Candidates.default_config true
    = inr (result, table')
    /\ table' !! (7%N, Scenario.jan2025 15 12, 90) = Some row
    /\ Candidates.cs_candidates_json row = Candidates.g_candidates result
    /\ Candidates.cs_total_candidates row
       = Candidates.g_total_candidates result
    /\ Candidates.cs_id row = 900%N
    /\ Candidates.cs_league_candidates row = 1.
Proof.
  destruct (generate_returns Scenario.no_source Scenario.no_source
              Scenario.no_source Scenario.no_source (fun x => x)
              Scenario.one_league Scenario.saved_sets (fun l => l) 901%N 7%N
              (Scenario.jan2025 15 12) 90 Candidates.default_config true
              Scenario.player7 1%N eq_refl eq_refl) as (result & table' & E).
  pose proof (candidate_set_saved _ _ _ _ _ _ _ _ _ _ _ _ _ _ _ _ E) as Hs.
  cbv beta iota in Hs. destruct Hs as [_ (row & Hrow & Hc & Ht & Hold)].
  match type of Hold with
  | match ?l with _ => _ end =>
      replace l with (Some Scenario.saved_set) in Hold
        by (vm_compute; reflexivity)
  end.
  destruct Hold as (Hid & _ & _ & Hcounts).
  exists result, table', row. repeat split; try assumption.
  injection Hcounts as Hl _. exact Hl.
Defined.

(** ** Signal derivation: what a run reads and what it writes *)

Section Derivation.
Import Signals.

Lemma flat_map_filter_nil {X B : Type} (g : X -> list B) (h : X -> bool)
    (l : list X) :
  (forall x, h x = false -> g x = []) ->
  flat_map g (List.filter h l) = flat_map g l.
Proof.
  intros H. induction l as [|x l IH]; cbn; [reflexivity|].
  destruct (h x) eqn:E; cbn; rewrite IH; [reflexivity|].
  rewrite (H x E). reflexivity.
Qed.

Lemma attention_events_known events ws T :
  List.filter (attention_event ws T)
    (List.filter (fun e => ue_occurred_at e <=? T) events)
  = List.filter (attention_event ws T) events.
Proof.
  rewrite filter_filter. apply filter_ext_in'. intros e _.
  unfold attention_event. destruct (ue_occurred_at e <=? T);
    rewrite ?andb_false_r, ?andb_true_r; reflexivity.
Qed.

Lemma compute_attention_velocity_known events W T :
  compute_attention_velocity
    (List.filter (fun e => ue_occurred_at e <=? T) events) W T
  = compute_attention_velocity events W T.
Proof.
  unfold compute_attention_velocity, view_counts.
  rewrite attention_events_known. reflexivity.
Qed.

Lemma compute_destination_cooccurrence_known events W T :
  compute_destination_cooccurrence
    (List.filter (fun e => ue_occurred_at e <=? T) events) W T
  = compute_destination_cooccurrence events W T.
Proof.
  unfold compute_destination_cooccurrence.
  rewrite !(flat_map_filter_nil _ (fun e => ue_occurred_at e <=? T));
    [reflexivity| |];
    intros e He; rewrite He, !andb_false_r;
    destruct (ue_club_id e), (ue_player_id e); reflexivity.
Qed.

(** X4.  A derivation run as of [T] never reads a user event that occurred
    after [T]: run over all events or over those with [occurred_at <= T], it
    writes the same rows and returns the same statistics. *)
Theorem derivation_ignores_later_events settings events store W T :
  run_signal_derivation settings
    (List.filter (fun e => ue_occurred_at e <=? T) events) store W T
  = run_signal_derivation settings events store W T.
Proof.
  unfold run_signal_derivation.
  rewrite compute_attention_velocity_known,
    compute_destination_cooccurrence_known.
  reflexivity.
Qed.

(** X5.  A run only appends to [signal_events]: the rows it adds are as
    many as the two counters of its statistics say, and each is a
    [tl_user_derived] row observed and effective at [T], open-ended, with
    the configured confidence and a numeric value, either a player row of
    type [user_attention_velocity] or a pair row of type
    [user_destination_cooccurrence]. *)
Theorem derivation_appends_derived_rows settings events store W T :
  exists rows,
    fst (run_signal_derivation settings events store W T) = store ++ rows
    /\ Z.of_nat (List.length rows)
       = attention_signals (snd (run_signal_derivation settings events store W T))
         + cooccurrence_signals
             (snd (run_signal_derivation settings events store W T))
    /\ forall r, In r rows ->
         sr_source r = "tl_user_derived"
         /\ sr_observed_at r = T /\ sr_effective_from r = T
         /\ sr_effective_to r = None
         /\ sr_confidence r = derived_signal_confidence settings
         /\ sr_value_text r = None /\ sr_value_num r <> None
         /\ sr_player_id r <> None
         /\ ((sr_entity_type r = "player"
              /\ sr_signal_type r = "user_attention_velocity"
              /\ sr_club_id r = None)
             \/ (sr_entity_type r = "club_player_pair"
                 /\ sr_signal_type r = "user_destination_cooccurrence"
                 /\ sr_club_id r <> None)).
Proof.
  unfold run_signal_derivation. cbn [fst snd attention_signals cooccurrence_signals].
  rewrite (fold_write _ (compute_destination_cooccurrence events (W * 7) T))
    by (intros; apply write_signal_event_app).
  rewrite (fold_write _ (compute_attention_velocity events W T))
    by (intros; apply write_signal_event_app).
  rewrite <- app_assoc. eexists. split; [reflexivity|]. split.
  - rewrite length_app, Nat2Z.inj_add. f_equal.
    + induction (compute_attention_velocity events W T) as [|v l IH];
        [reflexivity|]. cbn [flat_map]. rewrite length_app.
      unfold write_signal_event at 1. cbn [app List.length]. lia.
    + induction (compute_destination_cooccurrence events (W * 7) T)
        as [|v l IH]; [reflexivity|]. cbn [flat_map]. rewrite length_app.
      unfold write_signal_event at 1. cbn [app List.length]. lia.
  - intros r Hr. apply in_app_or in Hr.
    destruct Hr as [Hr|Hr]; apply in_flat_map in Hr;
      destruct Hr as [x [_ [<-|[]]]]; cbn;
      repeat split; try discriminate; [left|right]; repeat split; discriminate.
Qed.

Lemma flat_map_keyed_NoDup {K B : Type} (f : K -> list B) (key : B -> K)
    (keys : list K) :
  (forall k x, In x (f k) -> key x = k) ->
  (forall k, (List.length (f k) <= 1)%nat) ->
  NoDup keys -> NoDup (map key (flat_map f keys)).
Proof.
  intros Hkey Hlen. induction 1 as [|k keys Hk Hnd IH]; cbn; [constructor|].
  rewrite map_app. specialize (Hlen k). pose proof (Hkey k) as Hk'.
  destruct (f k) as [|x [|y l]]; cbn in *; [exact IH| |lia].
  constructor; [|exact IH]. rewrite (Hk' x) by tauto.
  intros Hin. apply in_map_iff in Hin. destruct Hin as [z [Hz Hin]].
  apply in_flat_map in Hin. destruct Hin as [k' [Hin' Hz']].
  apply Hkey in Hz'. apply Hk. congruence.
Qed.

Lemma NoDup_same_length {B : Type} (l1 l2 : list B) :
  NoDup l1 -> NoDup l2 -> (forall x, In x l1 <-> In x l2) ->
  List.length l1 = List.length l2.
Proof.
  intros H1 H2 H. apply Permutation_length, NoDup_Permutation; assumption.
Qed.

(** X6.  What [compute_destination_cooccurrence] returns, in terms of the
    events.  For every pair returned, [session_count] is the number of
    distinct sessions that hold, inside the window, both a view or watchlist
    add of the player and a view of the club; that number is at least 2, and
    the score is ten times it, capped at 100.  No pair is returned twice,
    and every (player, club) pair with at least two such sessions is
    returned. *)
Theorem cooccurrence_scores events W T :
  (forall c, In c (compute_destination_cooccurrence events W T) ->
     exists sessions,
       NoDup sessions
       /\ (forall s, In s sessions <->
             shared_session events (T - W) T (co_player_id c) (co_club_id c) s)
       /\ session_count c = Z.of_nat (List.length sessions)
       /\ 2 <= session_count c
       /\ score c = Z.min 100 (session_count c * 10)
       /\ 20 <= score c <= 100)
  /\ NoDup (map (fun c => (co_player_id c, co_club_id c))
              (compute_destination_cooccurrence events W T))
  /\ (forall p c sessions,
        NoDup sessions ->
        (forall s, In s sessions <-> shared_session events (T - W) T p c s) ->
        (2 <= List.length sessions)%nat ->
        exists x, In x (compute_destination_cooccurrence events W T)
                  /\ co_player_id x = p /\ co_club_id x = c).
Proof.
  unfold compute_destination_cooccurrence. cbv zeta.
  set (CS := nodup session_eq_dec (flat_map _ events)).
  set (PS := nodup session_eq_dec (flat_map _ events)).
  set (joined := flat_map _ PS).
  set (keys := nodup pair_eq_dec (map snd joined)).
  assert (forall s p, In (s, p) PS <->
            exists e, In e events /\ ue_session_id e = s
                      /\ ue_player_id e = Some p
                      /\ (ue_event_type e = "player_view"
                          \/ ue_event_type e = "watchlist_add")
                      /\ T - W <= ue_occurred_at e <= T) as HPS.
  { intros s p. subst PS. rewrite nodup_In, in_flat_map. split.
    - intros [e [Hin H]]. exists e.
      destruct (ue_player_id e) as [q|]; [|destruct H].
      destruct (String.eqb (ue_event_type e) "player_view") eqn:E1;
        destruct (String.eqb (ue_event_type e) "watchlist_add") eqn:E2;
        destruct (Z.leb_spec (T - W) (ue_occurred_at e));
        destruct (Z.leb_spec (ue_occurred_at e) T); cbn in H;
        try tauto; destruct H as [H|[]]; inversion H; subst;
        rewrite ?String.eqb_eq in *; repeat split; auto.
    - intros (e & Hin & <- & Hp & Hty & Hlo & Hhi). exists e.
      split; [exact Hin|]. rewrite Hp.
      replace (String.eqb (ue_event_type e) "player_view"
               || String.eqb (ue_event_type e) "watchlist_add") with true
        by (destruct Hty as [->| ->]; reflexivity).
      apply Z.leb_le in Hlo, Hhi. rewrite Hlo, Hhi. left. reflexivity. }
  assert (forall s c, In (s, c) CS <->
            exists e, In e events /\ ue_session_id e = s
                      /\ ue_club_id e = Some c
                      /\ ue_event_type e = "club_view"
                      /\ T - W <= ue_occurred_at e <= T) as HCS.
  { intros s c. subst CS. rewrite nodup_In, in_flat_map. split.
    - intros [e [Hin H]]. exists e.
      destruct (ue_club_id e) as [q|]; [|destruct H].
      destruct (String.eqb (ue_event_type e) "club_view") eqn:E1;
        destruct (Z.leb_spec (T - W) (ue_occurred_at e));
        destruct (Z.leb_spec (ue_occurred_at e) T); cbn in H;
        try tauto; destruct H as [H|[]]; inversion H; subst;
        rewrite ?String.eqb_eq in *; repeat split; auto.
    - intros (e & Hin & <- & Hc & Hty & Hlo & Hhi). exists e.
      split; [exact Hin|]. rewrite Hc, Hty.
      apply Z.leb_le in Hlo, Hhi. rewrite Hlo, Hhi. left. reflexivity. }
  assert (forall s p c, In (s, (p, c)) joined <->
            shared_session events (T - W) T p c s) as Hjoined.
  { intros s p c. unfold shared_session. rewrite <- HPS, <- HCS.
    subst joined. rewrite in_flat_map. split.
    - intros [[s1 p1] [H1 H]]. apply in_flat_map in H.
      destruct H as [[s2 c2] [H2 H]]. cbn [fst snd] in H.
      destruct (String.eqb s1 s2) eqn:E; [|destruct H].
      apply String.eqb_eq in E. destruct H as [H|[]]. inversion H; subst.
      split; assumption.
    - intros [H1 H2]. exists (s, p). split; [exact H1|].
      apply in_flat_map. exists (s, c). split; [exact H2|]. cbn [fst snd].
      rewrite String.eqb_refl. left. reflexivity. }
  set (sessions_of := fun k : UUID * UUID =>
         nodup string_dec
           (map fst
              (List.filter
                 (fun j : string * (UUID * UUID) =>
                    if pair_eq_dec (snd j) k then true else false) joined))).
  assert (forall k s, In s (sessions_of k) <-> In (s, k) joined) as Hsess.
  { intros k s. unfold sessions_of. rewrite nodup_In, in_map_iff. split.
    - intros [[s' k'] [<- H]]. apply filter_In in H. destruct H as [H Hk].
      cbn [fst snd] in *. destruct (pair_eq_dec k' k); [subst; exact H|discriminate].
    - intros H. exists (s, k). split; [reflexivity|]. apply filter_In.
      split; [exact H|]. cbn [snd]. destruct (pair_eq_dec k k); [reflexivity|congruence]. }
  split; [|split].
  - intros c Hc. apply in_flat_map in Hc. destruct Hc as [k [_ Hc]].
    fold (sessions_of k) in Hc.
    destruct (Z.leb_spec 2 (Z.of_nat (List.length (sessions_of k))))
      as [Hn|Hn]; [|destruct Hc].
    destruct Hc as [<-|[]]. cbn [session_count score co_player_id co_club_id].
    exists (sessions_of k). split; [apply NoDup_nodup|].
    split; [|repeat split; lia].
    intros s. rewrite Hsess, <- Hjoined. destruct k; reflexivity.
  - apply flat_map_keyed_NoDup; [| |apply NoDup_nodup].
    + intros k x Hx.
      match type of Hx with
      | In _ (if ?b then _ else _) => destruct b; [|destruct Hx]
      end.
      destruct Hx as [<-|[]]. cbn. destruct k; reflexivity.
    + intros k.
      match goal with
      | |- (List.length (if ?b then _ else _) <= 1)%nat => destruct b; cbn; lia
      end.
  - intros p c sessions Hnd Hshared Hlen.
    assert (List.length (sessions_of (p, c)) = List.length sessions) as Hsame.
    { apply NoDup_same_length; [apply NoDup_nodup|exact Hnd|].
      intros s. rewrite Hsess, Hjoined, Hshared. reflexivity. }
    eexists. split.
    + apply in_flat_map. exists (p, c). split.
      * subst keys. apply nodup_In.
        destruct sessions as [|s0 rest]; [cbn in Hlen; lia|].
        apply (in_map snd _ (s0, (p, c))), Hjoined, Hshared. left. reflexivity.
      * fold (sessions_of (p, c)). rewrite Hsame.
        destruct (Z.leb_spec 2 (Z.of_nat (List.length sessions))); [|lia].
        left. reflexivity.
    + split; reflexivity.
Qed.

(** X7.  Writing then reading.  A derived player signal written at [T] is
    what the strict read returns at [T] and at any later time, provided
    every row the store already held for that player and signal type became
    effective before [T]. *)
Theorem derived_signal_read_back settings store p st v T T' :
  T <= T' ->
  (forall r, In r store -> sr_player_id r = Some p -> sr_signal_type r = st ->
     sr_effective_from r < T) ->
  TimeGuards.get_signal_value_strict
    (write_signal_event settings store "player" (Some p) None st v T T)
    "player" (Some p) st T' None None
  = Some (float_of_Numeric (v * 1000000)).
Proof.
  intros HT Hold. unfold TimeGuards.get_signal_value_strict.
  change (TimeGuards.where_clause "player" (Some p) st T' None None)
    with (Some (fun r => sql_eq (sr_player_id r) (Some p)
                         && String.eqb (sr_signal_type r) st
                         && TimeGuards.time_ok T' r)).
  set (x := {| sr_entity_type := "player"; sr_player_id := Some p;
               sr_club_id := None; sr_signal_type := st;
               sr_value_num := Some (v * 1000000); sr_value_text := None;
               sr_source := "tl_user_derived";
               sr_confidence := derived_signal_confidence settings;
               sr_observed_at := T; sr_effective_from := T;
               sr_effective_to := None |}).
  change (write_signal_event settings store "player" (Some p) None st v T T)
    with (store ++ [x]).
  assert (sql_eq (sr_player_id x) (Some p) && String.eqb (sr_signal_type x) st
          && TimeGuards.time_ok T' x = true) as Hx.
  { unfold TimeGuards.time_ok. cbn [x sr_player_id sr_signal_type sr_observed_at
      sr_effective_from sr_effective_to sql_eq].
    rewrite N.eqb_refl, String.eqb_refl. cbn [andb].
    rewrite andb_true_r, andb_diag. apply Z.leb_le, HT. }
  assert (In x (store ++ [x])) as Hnew
    by (apply in_or_app; right; left; reflexivity).
  cbv beta iota.
  destruct (TimeGuards.select_latest (store ++ [x]) _) as [r|] eqn:E.
  - apply select_latest_Some in E. destruct E as (Hin & Hp & Htop).
    apply in_app_or in Hin. destruct Hin as [Hin|[<-|[]]]; [|reflexivity].
    exfalso. specialize (Htop x Hnew Hx).
    apply andb_true_iff in Hp. destruct Hp as [Hp _].
    apply andb_true_iff in Hp. destruct Hp as [Hpl Hst].
    unfold sql_eq in Hpl. destruct (sr_player_id r) as [q|] eqn:Eq; [|discriminate].
    apply N.eqb_eq in Hpl. subst q. apply String.eqb_eq in Hst.
    specialize (Hold r Hin Eq Hst).
    unfold TimeGuards.sorts_before in Htop. cbn [x sr_effective_from] in Htop.
    apply orb_false_iff in Htop. destruct Htop as [Htop _].
    apply Z.ltb_ge in Htop. lia.
  - pose proof (proj1 (select_latest_None _ _) E x Hnew) as Hno.
    cbv beta in Hno. rewrite Hno in Hx. discriminate.
Qed.

(** A velocity of 300 written for player 7 on 16 January, over a store that
    holds the row written the day before, and read on 17 January. *)
Lemma derived_signal_read_back_witness :
  TimeGuards.get_signal_value_strict
    (write_signal_event default_settings [Scenario.attention_row 150] "player"
       (Some 7%N) None "user_attention_velocity" 300
       (Scenario.jan2025 16 12) (Scenario.jan2025 16 12))
    "player" (Some 7%N) "user_attention_velocity" (Scenario.jan2025 17 12)
    None None
  = Some (float_of_Numeric (300 * 1000000)).
Proof.
  apply (derived_signal_read_back default_settings
           [Scenario.attention_row 150] 7%N "user_attention_velocity" 300
           (Scenario.jan2025 16 12) (Scenario.jan2025 17 12)).
  - vm_compute. discriminate.
  - intros r [<-|[]] _ _. vm_compute. reflexivity.
Defined.

End Derivation.

(** ** The validators of [time_guards.py] *)

Section Validators.
Import TimeGuards.

(** X8.  [validate_signal_time_travel] returns normally exactly when the
    signal was both observed and effective by [as_of], and
    [validate_user_event_time_travel] exactly when the event had occurred by
    [as_of]; every row the strict read selects passes the signal
    validator. *)
Theorem validators_accept_what_the_strict_read_selects :
  (forall observed_at effective_from as_of,
     validate_signal_time_travel observed_at effective_from as_of = inr tt
     <-> observed_at <= as_of /\ effective_from <= as_of)
  /\ (forall occurred_at as_of,
        validate_user_event_time_travel occurred_at as_of = inr tt
        <-> occurred_at <= as_of)
  /\ (forall store entity_type entity_id signal_type as_of player_id club_id
             p r,
        where_clause entity_type entity_id signal_type as_of player_id club_id
        = Some p ->
        select_latest store p = Some r ->
        validate_signal_time_travel (sr_observed_at r) (sr_effective_from r)
          as_of = inr tt).
Proof.
  assert (forall o e T,
            validate_signal_time_travel o e T = inr tt <-> o <= T /\ e <= T)
    as Hsig.
  { intros o e T. unfold validate_signal_time_travel.
    destruct (Z.ltb_spec T o); [split; [discriminate|lia]|].
    destruct (Z.ltb_spec T e); [split; [discriminate|lia]|].
    split; [lia|reflexivity]. }
  split; [exact Hsig|]. split.
  - intros o T. unfold validate_user_event_time_travel.
    destruct (Z.ltb_spec T o); [split; [discriminate|lia]|].
    split; [lia|reflexivity].
  - intros store et eid st T pid cid p r Hw Hs. apply Hsig.
    apply select_latest_Some in Hs. destruct Hs as (_ & Hp & _).
    pose proof (where_clause_time_ok _ _ _ _ _ _ _ _ Hw Hp) as Ht.
    apply time_ok_spec in Ht. tauto.
Qed.

Lemma violations_nil T ts :
  violations T ts = []
  <-> forall name t, In (name, Some t) ts -> t <= T.
Proof.
  unfold violations. induction ts as [|[name [t|]] ts IH]; cbn [flat_map].
  - split; [intros _ ? ? []|reflexivity].
  - destruct (Z.ltb_spec T t) as [Hlt|Hge]; cbn [app].
    + split; [discriminate|]. intros H.
      specialize (H name t (or_introl eq_refl)). lia.
    + rewrite IH. split.
      * intros H n' t' [E|Hin]; [inversion E; subst; exact Hge|].
        apply (H n' t' Hin).
      * intros H n' t' Hin. apply (H n' t'). right. exact Hin.
  - cbn [app]. rewrite IH. split.
    + intros H n' t' [E|Hin]; [discriminate|]. apply (H n' t' Hin).
    + intros H n' t' Hin. apply (H n' t'). right. exact Hin.
Qed.

(** X9.  [validate_feature_vector_time_travel] returns normally exactly
    when every timestamp that is set is at most [as_of]; when it raises, the
    entries its message lists are exactly the features whose timestamp is
    after [as_of], each with that timestamp. *)
Theorem feature_vector_validator as_of signal_timestamps :
  (validate_feature_vector_time_travel as_of signal_timestamps = inr tt
   <-> forall name t, In (name, Some t) signal_timestamps -> t <= as_of)
  /\ forall listed,
       validate_feature_vector_time_travel as_of signal_timestamps
       = inl listed ->
       listed <> []
       /\ forall name t,
            In (name, t) listed
            <-> In (name, Some t) signal_timestamps /\ as_of < t.
Proof.
  unfold validate_feature_vector_time_travel. split.
  - rewrite <- violations_nil.
    destruct (violations as_of signal_timestamps);
      split; intros; try reflexivity; discriminate.
  - intros listed E.
    assert (listed = violations as_of signal_timestamps /\ listed <> [])
      as [-> Hne].
    { destruct (violations as_of signal_timestamps); inversion E.
      split; [reflexivity|discriminate]. }
    split; [exact Hne|]. intros name t. unfold violations.
    rewrite in_flat_map. split.
    + intros [[n' [t'|]] [Hin H]]; [|destruct H].
      destruct (Z.ltb_spec as_of t'); [|destruct H].
      destruct H as [H|[]]. inversion H; subst. split; assumption.
    + intros [Hin Hlt]. exists (name, Some t). split; [exact Hin|].
      destruct (Z.ltb_spec as_of t); [left; reflexivity|lia].
Qed.

End Validators.

(** ** User-derived values read on demand *)

Section UserDerived.
Import Signals UserGuards.

Lemma filter_implied {B : Type} (f h : B -> bool) (l : list B) :
  (forall x, f x = true -> h x = true) ->
  List.filter f (List.filter h l) = List.filter f l.
Proof.
  intros H. rewrite filter_filter. apply filter_ext_in'. intros x _.
  destruct (f x) eqn:E; [rewrite (H x E); reflexivity|].
  apply andb_false_r.
Qed.

Lemma player_view_known p open_lo lo hi T e :
  hi <= T -> player_view p open_lo lo hi e = true -> (ue_occurred_at e <=? T) = true.
Proof.
  unfold player_view. intros Hhi H. apply andb_true_iff in H.
  destruct H as [_ H]. apply Z.leb_le in H. apply Z.leb_le. lia.
Qed.

(** X10.  For a window of zero hours or more,
    [get_user_derived_value_strict] as of [T] never reads a user event that
    occurred after [T]: it returns the same value over all events and over
    those with [occurred_at <= T]. *)
Theorem user_derived_value_ignores_later_events
    events player_id club_id signal_type T window_hours :
  0 <= window_hours ->
  get_user_derived_value_strict
    (List.filter (fun e => ue_occurred_at e <=? T) events)
    player_id club_id signal_type T window_hours
  = get_user_derived_value_strict events player_id club_id signal_type T
      window_hours.
Proof.
  intros Hw. unfold get_user_derived_value_strict, count.
  rewrite !(filter_implied (player_view _ _ _ _) (fun e => ue_occurred_at e <=? T))
    by (intros e; apply player_view_known; lia).
  destruct (String.eqb signal_type "user_attention_velocity"); [reflexivity|].
  destruct club_id as [club|]; [|reflexivity].
  destruct (String.eqb signal_type "user_destination_cooccurrence");
    [|reflexivity].
  rewrite filter_implied; [reflexivity|].
  intros e H. apply andb_true_iff in H. apply H.
Qed.

(** Three views of player 7 before 15 January 12:00 and one the day after. *)
Lemma user_derived_value_ignores_later_events_witness :
  get_user_derived_value_strict
    (List.filter (fun e => ue_occurred_at e <=? Scenario.jan2025 15 12)
       (Scenario.views ++ [Scenario.view 16 9]))
    7%N None "user_attention_velocity" (Scenario.jan2025 15 12) 24
  = get_user_derived_value_strict (Scenario.views ++ [Scenario.view 16 9])
      7%N None "user_attention_velocity" (Scenario.jan2025 15 12) 24.
Proof.
  apply (user_derived_value_ignores_later_events
           (Scenario.views ++ [Scenario.view 16 9]) 7%N None
           "user_attention_velocity" (Scenario.jan2025 15 12) 24).
  lia.
Defined.

End UserDerived.

(** ** Feature vectors *)

Section FeatureVectors.
Import Features.

(** A row that was observed, or becomes effective, after [T] is rejected by
    every branch of the strict read as of [T]. *)
Lemma strict_read_later l1 l2 x et eid st T pid cid :
  T < sr_observed_at x \/ T < sr_effective_from x ->
  TimeGuards.get_signal_value_strict (l1 ++ x :: l2) et eid st T pid cid
  = TimeGuards.get_signal_value_strict (l1 ++ l2) et eid st T pid cid.
Proof.
  intros Hx. unfold TimeGuards.get_signal_value_strict.
  destruct (TimeGuards.where_clause et eid st T pid cid) as [p|] eqn:Hw;
    [|reflexivity].
  rewrite select_latest_insert_rejected; [reflexivity|].
  destruct (p x) eqn:Hp; [|reflexivity].
  pose proof (where_clause_time_ok _ _ _ _ _ _ _ _ Hw Hp) as Ht.
  apply time_ok_spec in Ht. lia.
Qed.

Section LaterRow.
Variables (db : Database) (l1 l2 : SignalStore) (x : SignalRow) (T : datetime).
Hypothesis Hstore : signal_events db = l1 ++ l2.
Hypothesis Hlater : T < sr_observed_at x \/ T < sr_effective_from x.

Local Abbreviation db' := (with_signal_events db (l1 ++ x :: l2)).

Lemma get_latest_signal_value_later et eid st pid cid :
  get_latest_signal_value db' et eid st T pid cid
  = get_latest_signal_value db et eid st T pid cid.
Proof.
  unfold get_latest_signal_value. cbn [with_signal_events signal_events].
  rewrite Hstore, strict_read_later by exact Hlater. reflexivity.
Qed.

Lemma read_signals_later et eid names features :
  read_signals db' et eid T names features
  = read_signals db et eid T names features.
Proof.
  unfold read_signals. revert features.
  induction names as [|n names IH]; intros features; cbn [fold_left];
    [reflexivity|].
  rewrite get_latest_signal_value_later. apply IH.
Qed.

Lemma build_player_features_later p :
  build_player_features db' p T = build_player_features db p T.
Proof.
  unfold build_player_features.
  change (players db') with (players db).
  destruct (find _ (players db)); [|reflexivity].
  apply read_signals_later.
Qed.

Lemma build_club_features_later c :
  build_club_features db' c T = build_club_features db c T.
Proof.
  unfold build_club_features. rewrite read_signals_later. reflexivity.
Qed.

Lemma build_pair_features_later p f t :
  build_pair_features db' p f t T = build_pair_features db p f t T.
Proof.
  unfold build_pair_features. rewrite get_latest_signal_value_later.
  reflexivity.
Qed.

End LaterRow.

(** X11.  A feature vector built as of [T] uses no later knowledge: adding
    anywhere to [signal_events] a row that was observed after [T], or that
    becomes effective after [T], leaves the whole vector of every
    (player, from club, to club) unchanged. *)
Theorem feature_vector_ignores_later_rows
    db l1 l2 x T player_id from_club_id to_club_id :
  signal_events db = l1 ++ l2 ->
  T < sr_observed_at x \/ T < sr_effective_from x ->
  build_feature_vector (with_signal_events db (l1 ++ x :: l2))
    player_id from_club_id to_club_id T
  = build_feature_vector db player_id from_club_id to_club_id T.
Proof.
  intros Hstore Hlater. unfold build_feature_vector.
  rewrite (build_player_features_later db l1 l2 x T Hstore Hlater),
    !(build_club_features_later db l1 l2 x T Hstore Hlater),
    (build_pair_features_later db l1 l2 x T Hstore Hlater).
  reflexivity.
Qed.

(** The vector of player 7 for a move from club 1 to club 2 as of
    15 January, with and without the valuation observed on 20 January. *)
Lemma feature_vector_ignores_later_rows_witness :
  build_feature_vector
    (with_signal_events Scenario.valued_league
       ([Scenario.S1] ++ Scenario.S3_late :: [Scenario.S2]))
    7%N 1%N 2%N (Scenario.jan2025 15 12)
  = build_feature_vector Scenario.valued_league 7%N 1%N 2%N
      (Scenario.jan2025 15 12)
  /\ dict_get
       (build_feature_vector Scenario.valued_league 7%N 1%N 2%N
          (Scenario.jan2025 15 12)) "market_value"
     = Some (PyFloat 100000000).
Proof.
  split.
  - apply (feature_vector_ignores_later_rows Scenario.valued_league
             [Scenario.S1] [Scenario.S2] Scenario.S3_late
             (Scenario.jan2025 15 12) 7%N 1%N 2%N).
    + reflexivity.
    + left. vm_compute. reflexivity.
  - vm_compute. reflexivity.
Defined.

(** *** The columns of a vector *)

Lemma dict_set_keys {V : Type} (d : list (string * V)) k v :
  map fst (dict_set d k v) = keys_set (map fst d) k.
Proof.
  unfold keys_set. induction d as [|[k' v'] d IH]; cbn; [reflexivity|].
  destruct (String.eqb k' k); cbn; [reflexivity|].
  rewrite IH. destruct (existsb _ (map fst d)); reflexivity.
Qed.








End FeatureVectors.

(** ** The training frame *)

Section TrainingFrame.
Import Features.

Lemma fold_left_raised {X B : Type} (f : string + B -> X -> string + B)
    (l : list X) (e : string) :
  (forall x, f (inl e) x = inl e) -> fold_left f l (inl e) = inl e.
Proof.
  intros H. induction l as [|x l IH]; cbn; [reflexivity|].
  rewrite H. exact IH.
Qed.


Lemma fold_left_ext {X B : Type} (f g : B -> X -> B) (l : list X) (b : B) :
  (forall a x, f a x = g a x) -> fold_left f l b = fold_left g l b.
Proof.
  intros H. revert b. induction l as [|x l IH]; intros b; cbn; [reflexivity|].
  rewrite H. apply IH.
Qed.

(** What a fold that appends rows or raises has accumulated when it ends
    normally. *)
Lemma fold_left_appended {X B : Type} (ok : X -> bool) (rows : X -> list B)
    (e : string) (l : list X) (acc out : list B) :
  fold_left
    (fun (a : string + list B) x =>
       match a with
       | inl e' => inl e'
       | inr r => if ok x then inr (r ++ rows x) else inl e
       end) l (inr acc) = inr out ->
  out = acc ++ flat_map rows l.
Proof.
  revert acc. induction l as [|x l IH]; intros acc H; cbn in *.
  - inversion H. rewrite app_nil_r. reflexivity.
  - destruct (ok x).
    + rewrite (IH _ H), <- app_assoc. reflexivity.
    + rewrite fold_left_raised in H by reflexivity. discriminate.
Qed.

(** X14.  What the rows of a training frame are, when [random.sample]
    returns members of its population.  Every row comes from a transfer
    that qualifies as a positive example: it carries that transfer's player
    and date, its features are the vector built for the row's club as of
    midnight [horizon_days] before the transfer date, and it is either the
    positive row, with label 1 and the destination of the transfer (such
    rows exist only for a horizon above zero, so that the features predate
    the transfer), or a negative row, with label 0 and an active club that
    is neither the destination nor the club the player left. *)
Theorem training_frame_rows
    (env : Env) (db : Database) (as_of : datetime)
    (lookback_days horizon_days : Z) (rows : list TrainingRow) :
  (forall n population k c,
     In c (random_sample env n population k) -> In c population) ->
  build_training_features env db as_of lookback_days horizon_days = inr rows ->
  forall r, In r rows ->
    exists t from_club,
      In t (transfer_events db)
      /\ qualifying_transfer as_of lookback_days t = true
      /\ te_from_club_id t = Some from_club
      /\ tr_player_id r = te_player_id t
      /\ tr_transfer_date r = te_transfer_date t
      /\ tr_feature_date r = midnight (te_transfer_date t - horizon_days)
      /\ tr_features r
         = build_feature_vector db (te_player_id t) from_club (tr_to_club_id r)
             (tr_feature_date r)
      /\ ((tr_label r = 1 /\ tr_to_club_id r = te_to_club_id t
           /\ tr_feature_date r < midnight (te_transfer_date t))
          \/ (tr_label r = 0 /\ tr_to_club_id r <> te_to_club_id t
              /\ tr_to_club_id r <> from_club
              /\ exists club,
                   In club (clubs db) /\ c_id club = tr_to_club_id r
                   /\ c_is_active club = true)).
Proof.
  intros Hsample. unfold build_training_features.
  change (List.filter _ (transfer_events db))
    with (List.filter (qualifying_transfer as_of lookback_days)
            (transfer_events db)).
  cbv zeta.
  set (positives := List.filter (qualifying_transfer as_of lookback_days)
                      (transfer_events db)).
  set (all_clubs := map c_id (List.filter c_is_active (clubs db))).
  set (k := Z.min 3 (Z.of_nat (List.length all_clubs) - 2)).
  pose (row_for := fun (t : TransferEvent) (club : UUID) (label : Z) =>
          match te_from_club_id t with
          | Some from_club =>
              [ {| tr_features :=
                     build_feature_vector db (te_player_id t) from_club club
                       (midnight (te_transfer_date t - horizon_days));
                   tr_player_id := te_player_id t; tr_to_club_id := club;
                   tr_label := label; tr_transfer_date := te_transfer_date t;
                   tr_feature_date :=
                     midnight (te_transfer_date t - horizon_days) |} ]
          | None => []
          end).
  pose (population := fun t : TransferEvent =>
          List.filter
            (fun c => negb (N.eqb c (te_to_club_id t))
                      && negb (sql_eq (te_from_club_id t) (Some c)))
            all_clubs).
  destruct (fold_left _ (combine (seq 0 (List.length positives)) positives)
              (inr [])) as [e|negatives] eqn:Eneg; [discriminate|].
  assert (negatives
          = flat_map
              (fun nt : nat * TransferEvent =>
                 flat_map (fun c => row_for (snd nt) c 0)
                   (random_sample env (fst nt) (population (snd nt))
                      (Z.to_nat k)))
              (combine (seq 0 (List.length positives)) positives)) as Hneg.
  { apply (fold_left_appended
             (fun nt : nat * TransferEvent =>
                negb ((k <? 0)
                      || (Z.of_nat (List.length (population (snd nt))) <? k)))
             _ "ValueError: Sample larger than population or is negative"
             _ [] negatives).
    rewrite <- Eneg. apply fold_left_ext. intros a [n t].
    destruct a as [e|rows0]; [reflexivity|]. cbn [fst snd].
    destruct ((k <? 0) || _); reflexivity. }
  clear Eneg. intros E r Hr.
  match type of E with
  | match ?l with _ => _ end = _ =>
      assert (In r l) as Hin
        by (destruct l; [discriminate|inversion E; subst; exact Hr])
  end.
  clear E Hr.
  assert (forall t, In t positives ->
            In t (transfer_events db)
            /\ qualifying_transfer as_of lookback_days t = true
            /\ exists from_club, te_from_club_id t = Some from_club) as Hpos.
  { intros t Ht. apply filter_In in Ht. destruct Ht as [Ht Hq].
    repeat split; try assumption. unfold qualifying_transfer in Hq.
    apply andb_true_iff in Hq. destruct Hq as [_ Hq].
    destruct (te_from_club_id t) as [f|]; [exists f; reflexivity|discriminate]. }
  apply in_app_or in Hin. destruct Hin as [Hin|Hin].
  - apply in_flat_map in Hin. destruct Hin as [t [Ht Hin]].
    destruct (Hpos t Ht) as (Hdb & Hq & from_club & Hfrom).
    unfold TimeGuards.validate_training_label_time_travel in Hin.
    destruct (Z.leb_spec (midnight (te_transfer_date t))
                (midnight (te_transfer_date t - horizon_days)));
      [destruct Hin|].
    subst row_for. cbv beta in Hin. rewrite Hfrom in Hin.
    destruct Hin as [<-|[]]. exists t, from_club.
    cbn [tr_player_id tr_transfer_date tr_feature_date tr_features tr_label
           tr_to_club_id].
    repeat split; try assumption. left. repeat split. assumption.
  - rewrite Hneg in Hin. apply in_flat_map in Hin.
    destruct Hin as [[n t] [Hnt Hin]]. cbn [fst snd] in Hin.
    apply in_combine_r in Hnt.
    destruct (Hpos t Hnt) as (Hdb & Hq & from_club & Hfrom).
    apply in_flat_map in Hin. destruct Hin as [c [Hc Hin]].
    apply Hsample in Hc. subst population. cbv beta in Hc.
    apply filter_In in Hc. destruct Hc as [Hc Hcond].
    apply andb_true_iff in Hcond. destruct Hcond as [Hto Hfr].
    apply negb_true_iff, N.eqb_neq in Hto.
    rewrite Hfrom in Hfr. cbn [sql_eq] in Hfr.
    apply negb_true_iff, N.eqb_neq in Hfr.
    subst all_clubs. apply in_map_iff in Hc. destruct Hc as [club [Hid Hclub]].
    apply filter_In in Hclub. destruct Hclub as [Hclub Hactive].
    subst row_for. cbv beta in Hin. rewrite Hfrom in Hin.
    destruct Hin as [<-|[]]. exists t, from_club.
    cbn [tr_player_id tr_transfer_date tr_feature_date tr_features tr_label
           tr_to_club_id].
    repeat split; try assumption. right. repeat split; try congruence.
    exists club. auto.
Qed.

(** The frame of the store with one transfer, with the first clubs of the
    population as the draw. *)
Lemma training_frame_rows_witness :
  exists rows,
    build_training_features Scenario.forward Scenario.one_transfer
      (Scenario.jan2025 15 12) 730 90 = inr rows
    /\ map tr_label rows = [1; 0; 0; 0]
    /\ forall r, In r rows ->
         exists t from_club,
           In t (transfer_events Scenario.one_transfer)
           /\ qualifying_transfer (Scenario.jan2025 15 12) 730 t = true
           /\ te_from_club_id t = Some from_club
           /\ tr_player_id r = te_player_id t
           /\ tr_transfer_date r = te_transfer_date t
           /\ tr_feature_date r = midnight (te_transfer_date t - 90)
           /\ tr_features r
              = build_feature_vector Scenario.one_transfer (te_player_id t)
                  from_club (tr_to_club_id r) (tr_feature_date r)
           /\ ((tr_label r = 1 /\ tr_to_club_id r = te_to_club_id t
                /\ tr_feature_date r < midnight (te_transfer_date t))
               \/ (tr_label r = 0 /\ tr_to_club_id r <> te_to_club_id t
                   /\ tr_to_club_id r <> from_club
                   /\ exists club,
                        In club (clubs Scenario.one_transfer)
                        /\ c_id club = tr_to_club_id r
                        /\ c_is_active club = true)).
Proof.
  destruct (build_training_features Scenario.forward Scenario.one_transfer
              (Scenario.jan2025 15 12) 730 90) as [e|rows] eqn:E;
    [vm_compute in E; discriminate|].
  exists rows. split; [reflexivity|]. split.
  - pose proof E as E'. vm_compute in E'. injection E' as <-. reflexivity.
  - apply (training_frame_rows Scenario.forward Scenario.one_transfer
             (Scenario.jan2025 15 12) 730 90 rows).
    + intros n population k c Hc. apply firstn_In in Hc. exact Hc.
    + exact E.
Defined.

End TrainingFrame.

(** ** The shape of a what-changed answer *)

Section WhatChangedShape.
Import Api.

Variable float_of_str : string -> option float.
Variable str_of_Decimal : Numeric -> string.
Variable str_of_json : string -> string.
Variable round1 : float -> float.
Variable format_1f : float -> string.

Local Abbreviation changed_of' :=
  (Api.changed_of float_of_str str_of_Decimal str_of_json round1 format_1f).

Lemma flat_map_app_perm {X B : Type} (f g : X -> list B) (l : list X) :
  Permutation (flat_map f l ++ flat_map g l)
    (flat_map (fun x => f x ++ g x) l).
Proof.
  induction l as [|x l IH]; cbn; [constructor|].
  rewrite <- !app_assoc. apply Permutation_app_head.
  etransitivity; [apply Permutation_app_swap_app|].
  apply Permutation_app_head, IH.
Qed.

Lemma flat_map_projected_NoDup {X K B : Type} (f : X -> list B)
    (key : B -> K) (proj : X -> K) (l : list X) :
  (forall e x, In x (f e) -> key x = proj e) ->
  (forall e, (List.length (f e) <= 1)%nat) ->
  NoDup (map proj l) -> NoDup (map key (flat_map f l)).
Proof.
  intros Hkey Hlen. induction l as [|e l IH]; cbn; intros Hnd;
    [constructor|].
  inversion Hnd as [|? ? He Hl]; subst. rewrite map_app.
  specialize (Hlen e). pose proof (Hkey e) as Hk.
  destruct (f e) as [|x [|y r]]; cbn in *; [auto| |lia].
  constructor; [|auto]. rewrite (Hk x) by tauto.
  intros Hin. apply in_map_iff in Hin. destruct Hin as [z [Hz Hin]].
  apply in_flat_map in Hin. destruct Hin as [e' [Hin' Hz']].
  apply Hkey in Hz'. apply He. rewrite <- Hz, Hz'.
  apply in_map. exact Hin'.
Qed.

Lemma entry_deltas_configured e x :
  In x (changed_of' e ++ appeared_of e) ->
  d_signal_type x = fst e /\ configured (fst e) = true.
Proof.
  destruct e as [k g]. intros H. apply in_app_or in H.
  pose proof (entry_deltas_le float_of_str str_of_Decimal str_of_json round1
                format_1f (k, g)) as Hle.
  cbn [fst] in *. split.
  - destruct H as [H|H].
    + exact (changed_of_type _ _ _ _ _ _ _ _ H).
    + exact (appeared_of_type float_of_str str_of_json _ _ _ H).
  - destruct (configured k); [reflexivity|].
    destruct H as [H|H];
      [destruct (changed_of' (k, g))|destruct (appeared_of (k, g))];
      cbn in *; try tauto; lia.
Qed.

(** X15.  The shape of what [get_what_changed] returns.  It holds at most
    eight deltas, so the cut at ten never drops one; each is of a signal
    type that has an entry in [CHANGE_THRESHOLDS], and no type appears
    twice; the deltas come by severity, alerts before warnings before
    infos, and within a severity the most recently observed first. *)
Theorem what_changed_shape
    (store : list SignalEvent) (now : datetime) (player : UUID) (days : Z) :
  let result :=
    get_what_changed float_of_str str_of_Decimal str_of_json round1 format_1f
      store now player days in
  (List.length result <= 8)%nat
  /\ NoDup (map d_signal_type result)
  /\ (forall d, In d result -> configured (d_signal_type d) = true)
  /\ StronglySorted
       (fun a b =>
          severity_order (severity a) < severity_order (severity b)
          \/ (severity_order (severity a) = severity_order (severity b)
              /\ d_observed_at b <= d_observed_at a))
       result.
Proof.
  intros result. subst result. unfold get_what_changed.
  set (d := group_by_type _).
  assert (NoDup (map fst d)) as Hnd by apply group_by_type_grouped.
  pose proof (deltas_le_8 float_of_str str_of_Decimal str_of_json round1
                format_1f d Hnd) as Hlen.
  set (all := changed_deltas _ _ _ _ _ d ++ appeared_deltas d) in *.
  assert (Permutation all
            (flat_map (fun e => changed_of' e ++ appeared_of e) d)) as Hperm
    by apply flat_map_app_perm.
  repeat split.
  - rewrite length_firstn, stable_sort_length. lia.
  - rewrite <- firstn_map. apply firstn_NoDup.
    apply (Permutation_NoDup
             (Permutation_map d_signal_type
                (Permutation_sym (stable_sort_perm delta_before all)))).
    apply (Permutation_NoDup (Permutation_map d_signal_type
                                (Permutation_sym Hperm))).
    apply (flat_map_projected_NoDup _ d_signal_type fst); [| |exact Hnd].
    + intros k x Hx. apply entry_deltas_configured in Hx. apply Hx.
    + intros k. rewrite length_app.
      pose proof (entry_deltas_le float_of_str str_of_Decimal str_of_json
                    round1 format_1f k) as Hk.
      destruct (configured (fst k)); lia.
  - intros x Hx. apply firstn_In in Hx. apply stable_sort_In in Hx.
    apply (Permutation_in _ Hperm) in Hx. apply in_flat_map in Hx.
    destruct Hx as [e [_ Hx]]. apply entry_deltas_configured in Hx.
    destruct Hx as [-> Hc]. exact Hc.
  - apply firstn_sorted, stable_sort_sorted; unfold delta_before.
    + intros y x H. apply orb_true_iff in H.
      rewrite Z.ltb_lt, andb_true_iff, Z.eqb_eq, Z.ltb_lt in H. lia.
    + intros y x H. apply orb_false_iff in H.
      rewrite Z.ltb_ge, andb_false_iff, Z.eqb_neq, Z.ltb_ge in H. lia.
    + intros x y z. lia.
Qed.

End WhatChangedShape.

(** ** The shape of a driver attribution *)

Section Drivers.
Import Predict.

Lemma keys_set_In keys k k' :
  In k' (keys_set keys k) <-> In k' keys \/ k' = k.
Proof.
  unfold keys_set. destruct (existsb _ keys) eqn:E.
  - split; [tauto|]. intros [H| ->]; [exact H|].
    apply existsb_exists in E. destruct E as [x [Hx E]].
    apply String.eqb_eq in E. subst x. exact Hx.
  - rewrite in_app_iff. cbn. intuition congruence.
Qed.

Lemma keys_set_NoDup keys k : NoDup keys -> NoDup (keys_set keys k).
Proof.
  intros H. unfold keys_set. destruct (existsb _ keys) eqn:E; [exact H|].
  apply (Permutation_NoDup (Permutation_cons_append _ _)).
  constructor; [|exact H]. intros Hin.
  assert (existsb (fun k' => String.eqb k' k) keys = true) as E'
    by (apply existsb_exists; exists k; split;
        [exact Hin|apply String.eqb_refl]).
  congruence.
Qed.

(** A feature without an importance contributes zero times its value, which
    is never above zero. *)
Lemma zero_importance_contributes_nothing (x : float) :
  PrimFloat.ltb 0 (PrimFloat.mul 0 x) = false.
Proof.
  rewrite FloatAxioms.ltb_spec, FloatAxioms.mul_spec.
  change (Prim2SF 0) with (SpecFloat.S754_zero false).
  destruct (Prim2SF x) as [s|s| |s m e]; try destruct s; reflexivity.
Qed.

(** X16.  The shape of what [compute_driver_contributions] returns.  With no
    feature name it raises.  What it returns has at most [top_n] drivers,
    no name twice, and every driver is one of the feature names given and
    has an entry in the importances: a feature the model gives no importance
    is never a driver. *)
Theorem driver_contributions_shape
    (feature_values : list (string * PyValue)) (names : list string)
    (importances : list (string * float)) (top_n : nat) :
  (names = [] ->
   exists e,
     compute_driver_contributions feature_values names importances top_n
     = inl e)
  /\ forall drivers,
       compute_driver_contributions feature_values names importances top_n
       = inr drivers ->
       (List.length drivers <= top_n)%nat
       /\ NoDup (map fst drivers)
       /\ forall k, In k (map fst drivers) ->
            In k names /\ exists w, dict_get importances k = Some w.
Proof.
  unfold compute_driver_contributions. split.
  - intros ->. eexists. reflexivity.
  - intros drivers E.
    destruct (map _ names) as [|x rest]; [discriminate|].
    inversion E; subst drivers; clear E. unfold contributions.
    set (normalized := if negb _ then _ else _).
    set (raw := fold_left _ (combine names normalized) []).
    assert (NoDup (map fst raw)
            /\ forall k, In k (map fst raw) ->
                 In k names /\ exists w, dict_get importances k = Some w)
      as [Hnd Hkeys].
    { subst raw.
      assert (forall pairs acc,
                (forall k v, In (k, v) pairs -> In k names) ->
                NoDup (map fst acc) ->
                (forall k, In k (map fst acc) ->
                   In k names /\ exists w, dict_get importances k = Some w) ->
                let out :=
                  fold_left
                    (fun (drivers : list (string * float))
                         '(name, nv) =>
                       let importance :=
                         match dict_get importances name with
                         | Some w => w
                         | None => 0%float
                         end in
                       let contribution := PrimFloat.mul importance nv in
                       if PrimFloat.ltb 0 contribution
                       then dict_set drivers name (np_round4 contribution)
                       else drivers) pairs acc in
                NoDup (map fst out)
                /\ forall k, In k (map fst out) ->
                     In k names
                     /\ exists w, dict_get importances k = Some w) as Hfold.
      { induction pairs as [|[name nv] pairs IH]; intros acc Hin Hnd Hacc;
          cbn [fold_left]; [split; assumption|].
        apply IH; [intros k v H; apply (Hin k v); right; exact H| |].
        - destruct (PrimFloat.ltb 0 _); [|exact Hnd].
          rewrite dict_set_keys. apply keys_set_NoDup, Hnd.
        - intros k Hk.
          destruct (PrimFloat.ltb 0 _) eqn:Elt; [|apply Hacc, Hk].
          rewrite dict_set_keys in Hk. apply keys_set_In in Hk.
          destruct Hk as [Hk| ->]; [apply Hacc, Hk|].
          split; [apply (Hin name nv); left; reflexivity|].
          destruct (dict_get importances name) as [w|]; [exists w; reflexivity|].
          rewrite zero_importance_contributes_nothing in Elt. discriminate. }
      apply Hfold.
      - intros k v H. apply in_combine_l in H. exact H.
      - constructor.
      - intros k []. }
    set (sorted_drivers := firstn top_n (sort_by_value_desc raw)).
    assert (map fst
              (if PrimFloat.ltb 0
                    (fold_left PrimFloat.add (map snd sorted_drivers) 0%float)
               then map (fun '(k, v) =>
                           (k, np_round4
                                 (PrimFloat.div v
                                    (fold_left PrimFloat.add
                                       (map snd sorted_drivers) 0%float))))
                      sorted_drivers
               else sorted_drivers)
            = map fst sorted_drivers) as Hsame.
    { destruct (PrimFloat.ltb 0 _); [|reflexivity].
      rewrite map_map. apply map_ext. intros [k v]. reflexivity. }
    split; [|rewrite Hsame; split].
    + destruct (PrimFloat.ltb 0 _); [rewrite length_map|];
        subst sorted_drivers; rewrite length_firstn; lia.
    + subst sorted_drivers. rewrite <- firstn_map. apply firstn_NoDup.
      apply (Permutation_NoDup
               (Permutation_map fst
                  (Permutation_sym (stable_sort_perm _ raw)))).
      exact Hnd.
    + intros k Hk. apply Hkeys. subst sorted_drivers.
      rewrite <- firstn_map in Hk. apply firstn_In in Hk.
      apply in_map_iff in Hk. destruct Hk as [kv [<- Hk]].
      apply in_map. unfold sort_by_value_desc in Hk.
      apply stable_sort_In in Hk. exact Hk.
Qed.

End Drivers.
